(** * kisonho/diffusion: diffusion managers, beta space and EMA optimizer

    A shallow embedding of
      - [diffusion/managers/diffusion.py]  ([DiffusionManager]),
      - [diffusion/managers/sde.py]        ([SDEManager]),
      - [diffusion/scheduling/space.py]    ([BetaSpace], [_get_index_from_list]),
      - [diffusion/optim/ema.py]           ([EMAOptimizer], [EMAParameterContext]).

    Modelling conventions.
      - A tensor entry is an exact rational ([Q]); numerical equalities are
        stated with [Qeq], and the values are read up to the rounding of
        machine floats.  Where rounding decides a discrete outcome it is
        modelled: the index of a noise level is computed with the rounding
        [fl] of the tensor's format ([Fp.round_to] is the one of IEEE 754),
        and the first posterior variance is computed in IEEE 754 arithmetic
        ([Ieee], [FloatSpace]).
      - A one-dimensional tensor is a [list]; a tensor with a shape is the
        record [Tensor] (shape and row-major data).
      - Python exceptions are values of [PyError]; fallible code returns
        [Result].
      - Random draws ([torch.randn_like], [torch.randint]) are passed in
        explicitly by the caller.
      - Code that lives outside the repository sources (the network, the SDE
        classes, the base optimizer) is a parameter of the definitions. *)

From Stdlib Require Import String.
From Stdlib Require Import ZArith QArith Qround Qabs List Bool Lia Lqa.
From Stdlib Require Import SpecFloat.
Import ListNotations.

Set Implicit Arguments.
Open Scope Z_scope.

(* ================================================================= *)
(** ** Python values, exceptions and built-ins *)

Module Py.

Inductive PyError : Type :=
| ValueError (msg : string)
| IndexError
| TypeError
| RuntimeError
| AssertionError (msg : string)
| NotImplementedError
| PredictionError (cause : PyError).

Definition Result (A : Type) : Type := (A + PyError)%type.

Definition ok {A} (a : A) : Result A := inl a.
Definition raise {A} (e : PyError) : Result A := inr e.

Definition bind {A B} (m : Result A) (k : A -> Result B) : Result B :=
  match m with
  | inl a => k a
  | inr e => inr e
  end.

Definition is_ok {A} (m : Result A) : bool :=
  match m with inl _ => true | inr _ => false end.

(** [len(range(start, stop, step))] as CPython computes it; a [range]
    object never has [step = 0]. *)
Definition range_len (start stop step : Z) : Z :=
  if (0 <? step)%Z then
    if (start <? stop)%Z then ((stop - start - 1) / step + 1)%Z else 0%Z
  else if (step <? 0)%Z then
    if (stop <? start)%Z then ((start - stop - 1) / (- step) + 1)%Z else 0%Z
  else 0%Z.

Record range : Type := mkRange { start : Z; stop : Z; step : Z }.

(** [range(a, b)] *)
Definition range2 (a b : Z) : range := mkRange a b 1.

(** [list(r)] *)
Definition range_list (r : range) : list Z :=
  map (fun k => (start r + Z.of_nat k * step r)%Z)
      (seq 0 (Z.to_nat (range_len (start r) (stop r) (step r)))).

(** [xs[i]] for an integer [i]: negative indices count from the end,
    anything outside [-len, len) raises [IndexError]. *)
Definition getitem {A} (xs : list A) (i : Z) : Result A :=
  let n := Z.of_nat (List.length xs) in
  let j := if (i <? 0)%Z then (i + n)%Z else i in
  if ((0 <=? j) && (j <? n))%bool
  then match nth_error xs (Z.to_nat j) with
       | Some a => ok a
       | None => raise IndexError
       end
  else raise IndexError.

(** Run [f] on every element, left to right, stopping at the first
    exception. *)
Fixpoint mapM {A B} (f : A -> Result B) (xs : list A) : Result (list B) :=
  match xs with
  | [] => ok []
  | a :: xs' =>
      bind (f a) (fun b => bind (mapM f xs') (fun bs => ok (b :: bs)))
  end.

(** A [for] loop threading one variable through a fallible body. *)
Fixpoint for_each {S I} (body : S -> I -> Result S) (s : S) (is_ : list I)
  : Result S :=
  match is_ with
  | [] => ok s
  | i :: rest => bind (body s i) (fun s' => for_each body s' rest)
  end.

End Py.

Notation "x <- m ;; k" := (Py.bind m (fun x => k))
  (at level 61, m at next level, right associativity).

(* ================================================================= *)
(** ** Tensors *)

Module Torch.
Import Py.

Record Tensor : Type := mkTensor { shape : list nat; data : list Q }.

(** Strict comparison of two entries. *)
Definition Qltb (a b : Q) : bool := negb (Qle_bool b a).

Definition numel (s : list nat) : nat := fold_right Nat.mul 1%nat s.

(** [k] consecutive chunks of [n] entries. *)
Fixpoint chunks (k n : nat) (l : list Q) : list (list Q) :=
  match k with
  | O => []
  | S k' => firstn n l :: chunks k' n (skipn n l)
  end.

(** Iterating a tensor walks its leading axis; a zero-dimensional tensor
    cannot be iterated. *)
Definition iter (t : Tensor) : Result (list Tensor) :=
  match shape t with
  | [] => raise TypeError
  | b :: rest => ok (map (mkTensor rest) (chunks b (numel rest) (data t)))
  end.

(** [torch.full((n,), v)] *)
Definition full (n : Z) (v : Q) : Result (list Q) :=
  if (n <? 0)%Z then raise RuntimeError else ok (repeat v (Z.to_nat n)).

(** [t.shape[0]] *)
Definition shape0 (t : Tensor) : Result nat :=
  match shape t with
  | [] => raise IndexError
  | b :: _ => ok b
  end.

End Torch.

(* ================================================================= *)
(** ** [diffusion.data.DiffusionData] *)

Module Data.
Import Torch.

(** Modelled from the spec: the class [DiffusionData] of [diffusion/data]
    is not among the sources.  The spec's TimedSample is
    [{x, t, condition}] with an optional condition; the sources build it
    as [DiffusionData(x, t)] and [DiffusionData(x, t, condition=c)], so
    the condition defaults to [None]. *)
Record DiffusionData : Type :=
  mkData { x : Tensor; t : list Q; condition : option Tensor }.

(** [DiffusionData(x, t)] *)
Definition DiffusionData2 (x0 : Tensor) (t0 : list Q) : DiffusionData :=
  mkData x0 t0 None.

End Data.

(* ================================================================= *)
(** ** [diffusion/managers/diffusion.py] *)

Module Manager.
Import Py Torch Data.

Section DiffusionManager.

(** [self.time_steps] *)
Variable time_steps : Z.
(** The abstract method [sampling_step(data, i)]. *)
Variable sampling_step : DiffusionData -> Z -> Result Tensor.

(** Line 127: the range the loop iterates over. *)
Definition sampling_indices (sampling_range : option range) : list Z :=
  range_list match sampling_range with
             | None => range2 time_steps 1
             | Some r => r
             end.

(** Body of the loop of [sampling] (lines 131-138). *)
Definition sampling_body (num_images : Z) (condition : option Tensor)
           (imgs : Tensor) (i : Z) : Result Tensor :=
  t <- full num_images (inject_Z i) ;;
  y <- sampling_step (mkData imgs t condition) i ;;
  ok y.

(** [DiffusionManager.sampling] *)
Definition sampling (num_images : Z) (x_t : Tensor)
           (condition : option Tensor) (sampling_range : option range)
  : Result (list Tensor) :=
  imgs <- for_each (sampling_body num_images condition) x_t
                   (sampling_indices sampling_range) ;;
  iter imgs.

(** [image_size: Union[int, tuple[int, ...]]] *)
Inductive ImageSize : Type :=
| SizeInt (s : Z)
| SizeTuple (s : list Z).

Definition format_image_size (s : ImageSize) : list Z :=
  match s with
  | SizeInt n => [3; n; n]%Z
  | SizeTuple l => l
  end.

(** [try: ... except Exception as error: raise PredictionError from error] *)
Definition wrap_prediction {A} (m : Result A) : Result A :=
  match m with
  | inl a => ok a
  | inr e => raise (PredictionError e)
  end.

(** [DiffusionManager.predict]; [randn] stands for the draw
    [torch.randn([num_images] + list(image_size))].  Device placement
    and cache handling do not change the values and are left out, and so
    are the values formatted into the messages.  A failed
    [assert cond, _raise(ValueError(...))] raises the [ValueError]. *)
Definition predict (randn : Tensor) (num_images : Z) (image_size : ImageSize)
           (condition : option Tensor) (noises : option Tensor)
  : Result (list Tensor) :=
  let image_size := format_image_size image_size in
  s0 <- getitem image_size 0 ;;
  positive <- (if (0 <? s0)%Z
               then s1 <- getitem image_size 1 ;; ok (0 <? s1)%Z
               else ok false) ;;
  if negb positive then
    raise (ValueError "Image size must be positive numbers")
  else if negb (0 <? num_images)%Z then
    raise (ValueError "Number of images must be a positive number")
  else
    let imgs := match noises with None => randn | Some n => n end in
    b <- shape0 imgs ;;
    if negb (num_images <=? Z.of_nat b)%Z then
      raise (ValueError "Number of noises must be equal or greater than number of images to generate")
    else
      wrap_prediction (sampling num_images imgs condition None).

End DiffusionManager.

End Manager.

(* ================================================================= *)
(** ** [diffusion/scheduling/space.py] *)

Module Space.
Import Py Torch.

(** Element-wise binary operation on one-dimensional tensors with torch's
    broadcasting: equal sizes, or one side of size one. *)
Definition broadcast2 (f : Q -> Q -> Q) (a b : list Q) : Result (list Q) :=
  if Nat.eqb (List.length a) (List.length b) then
    ok (map (fun p => f (fst p) (snd p)) (combine a b))
  else
    match a, b with
    | [a0], _ => ok (map (f a0) b)
    | _, [b0] => ok (map (fun v => f v b0) a)
    | _, _ => raise RuntimeError
    end.

(** [tensor.cumprod(dim=0)]: [out[0] = a[0]], [out[i] = out[i-1] * a[i]]. *)
Fixpoint cumprod_from (acc : Q) (l : list Q) : list Q :=
  match l with
  | [] => []
  | a :: l' => let p := (acc * a)%Q in p :: cumprod_from p l'
  end.

Definition cumprod (l : list Q) : list Q :=
  match l with
  | [] => []
  | a :: l' => a :: cumprod_from a l'
  end.

(** [vals.gather(-1, t)] for one-dimensional [vals] and [t]: entry [i] is
    [vals[t[i]]]; an index outside [0, len(vals)) is refused (torch raises
    [RuntimeError]; negative indices do not wrap in [gather]). *)
Definition gather_at (vals : list Q) (i : Z) : Result Q :=
  if ((0 <=? i) && (i <? Z.of_nat (List.length vals)))%bool
  then match nth_error vals (Z.to_nat i) with
       | Some v => ok v
       | None => raise RuntimeError
       end
  else raise RuntimeError.

Definition gather (vals : list Q) (t : list Z) : Result (list Q) :=
  mapM (gather_at vals) t.

(** [tensor.reshape] of a one-dimensional tensor to the shape [s]. *)
Definition reshape (v : list Q) (s : list nat) : Result Tensor :=
  if Nat.eqb (numel s) (List.length v) then ok (mkTensor s v)
  else raise RuntimeError.

(** [_get_index_from_list(vals, t, x_shape)].  In Python
    [(1,) * (len(x_shape) - 1)] is the empty tuple when the count is not
    positive, which the truncated subtraction of [nat] gives as well. *)
Definition _get_index_from_list (vals : list Q) (t : list Z)
           (x_shape : list nat) : Result Tensor :=
  let batch_size := List.length t in
  vals' <- gather vals t ;;
  reshape vals' (batch_size :: repeat 1%nat (List.length x_shape - 1)).

(** [class BetaSpace(NamedTuple)] *)
Record BetaSpace : Type := mkBetaSpace { betas : list Q }.

Definition alphas (s : BetaSpace) : list Q :=
  map (fun b => (1 - b)%Q) (betas s).

Definition alphas_cumprod (s : BetaSpace) : list Q :=
  cumprod (alphas s).

(** [F.pad(self.alphas_cumprod[:-1], (1, 0), value=1.0)] *)
Definition alphas_cumprod_prev (s : BetaSpace) : list Q :=
  1%Q :: removelast (alphas_cumprod s).

(** [self.betas * (1. - self.alphas_cumprod_prev) / (1. - self.alphas_cumprod)] *)
Definition posterior_variance (s : BetaSpace) : Result (list Q) :=
  num <- broadcast2 Qmult (betas s)
           (map (fun v => (1 - v)%Q) (alphas_cumprod_prev s)) ;;
  broadcast2 Qdiv num (map (fun v => (1 - v)%Q) (alphas_cumprod s)).

Definition sample_betas (s : BetaSpace) (t : list Z) (shape : list nat)
  : Result Tensor :=
  _get_index_from_list (betas s) t shape.

Definition sample_posterior_variance (s : BetaSpace) (t : list Z)
           (shape : list nat) : Result Tensor :=
  pv <- posterior_variance s ;;
  _get_index_from_list pv t shape.

End Space.

(* ================================================================= *)
(** ** Tensor arithmetic: broadcasting, in-place and element-wise operations *)

Module TorchOps.
Import Py Torch.

(** Broadcasting data of shape [so] to the shape [ss] of equal rank:
    every axis agrees or has size one in [so]. *)
Fixpoint expand_dims (so ss : list nat) (d : list Q) {struct so}
  : Result (list Q) :=
  match so, ss with
  | [], [] => ok d
  | o :: so', s :: ss' =>
      if Nat.eqb o s then
        parts <- mapM (expand_dims so' ss') (chunks o (numel so') d) ;;
        ok (concat parts)
      else if Nat.eqb o 1 then
        part <- expand_dims so' ss' d ;;
        ok (concat (repeat part s))
      else raise RuntimeError
  | _, _ => raise RuntimeError
  end.

(** [other] broadcast to the shape [ss] of the tensor updated in place:
    missing leading axes count as size one. *)
Definition expand_to (other : Tensor) (ss : list nat) : Result (list Q) :=
  let ro := List.length (shape other) in
  let rs := List.length ss in
  if Nat.ltb rs ro then raise RuntimeError
  else expand_dims (repeat 1%nat (rs - ro) ++ shape other) ss (data other).

(** [self.mul_(c)] *)
Definition mul_ (self : Tensor) (c : Q) : Tensor :=
  mkTensor (shape self) (map (fun e => (e * c)%Q) (data self)).

(** [self.add_(other, alpha=alpha)]: [self + alpha * other]. *)
Definition add_ (self other : Tensor) (alpha : Q) : Result Tensor :=
  o <- expand_to other (shape self) ;;
  ok (mkTensor (shape self)
        (map (fun p => (fst p + alpha * snd p)%Q) (combine (data self) o))).

(** The common shape of two operands, aligned at the trailing axis
    (arguments and result are reversed shapes). *)
Fixpoint broadcast_rev (a b : list nat) : Result (list nat) :=
  match a, b with
  | [], _ => ok b
  | _, [] => ok a
  | m :: a', n :: b' =>
      r <- broadcast_rev a' b' ;;
      if Nat.eqb m n then ok (m :: r)
      else if Nat.eqb m 1 then ok (n :: r)
      else if Nat.eqb n 1 then ok (m :: r)
      else raise RuntimeError
  end.

Definition broadcast_shapes (a b : list nat) : Result (list nat) :=
  r <- broadcast_rev (rev a) (rev b) ;;
  ok (rev r).

(** An out-of-place element-wise operation [f(a, b)] with broadcasting. *)
Definition binop (f : Q -> Q -> Q) (a b : Tensor) : Result Tensor :=
  s <- broadcast_shapes (shape a) (shape b) ;;
  da <- expand_to a s ;;
  db <- expand_to b s ;;
  ok (mkTensor s (map (fun p => f (fst p) (snd p)) (combine da db))).

(** An element-wise operation with a Python number. *)
Definition tmap (f : Q -> Q) (a : Tensor) : Tensor :=
  mkTensor (shape a) (map f (data a)).

(** Element-wise operation on two one-dimensional tensors of one size. *)
Definition zip_with (f : Q -> Q -> Q) (a b : list Q) : list Q :=
  map (fun p => f (fst p) (snd p)) (combine a b).

(** [v[:, None, None, None]] for a one-dimensional [v]. *)
Definition unsqueeze3 (v : list Q) : Tensor :=
  mkTensor [List.length v; 1; 1; 1]%nat v.

(** [a[:, None, None, None]] for a tensor of any positive rank. *)
Definition unsqueeze3_tensor (a : Tensor) : Result Tensor :=
  match shape a with
  | [] => raise IndexError
  | b :: rest => ok (mkTensor (b :: 1 :: 1 :: 1 :: rest)%nat (data a))
  end.

(** [torch.zeros_like] *)
Definition zeros_like (a : Tensor) : Tensor := tmap (fun _ => 0%Q) a.

(** [.long()]: conversion to an integer truncates toward zero. *)
Definition long (q : Q) : Z := Z.quot (Qnum q) (Zpos (Qden q)).

(** [.round()]: to the nearest integer, ties to the even one. *)
Definition round (q : Q) : Z :=
  let f := Qfloor q in
  let r := (q - inject_Z f)%Q in
  if Qltb r (1 # 2) then f
  else if Qltb (1 # 2) r then f + 1
  else if Z.even f then f else f + 1.

(** A tensor whose storage has as many entries as its shape says. *)
Definition well_shaped (t : Tensor) : Prop :=
  List.length (data t) = numel (shape t).

End TorchOps.

(* ================================================================= *)
(** ** [diffusion/optim/ema.py] *)

Module Ema.
Import Py Torch TorchOps.

(** A [torch.nn.Parameter]: its [data] and its [requires_grad] flag. *)
Record Param : Type := mkParam { pdata : Tensor; requires_grad : bool }.

(** [p.data = d] *)
Definition set_data (p : Param) (d : Tensor) : Param :=
  mkParam d (requires_grad p).

(** [p.requires_grad = b] *)
Definition set_requires_grad (p : Param) (b : bool) : Param :=
  mkParam (pdata p) b.

Section EMAOptimizer.

(** The wrapped optimizer: its state [O], the closures it accepts, and
    its [step] method.  The base optimizer was built before the shadow
    copy exists, so its step reaches the trainable parameters and its
    own state only; it may raise. *)
Variable O : Type.
Variable Closure : Type.
Variable base_step :
  option Closure -> O -> list Param -> (O * list Param) * Result (option Q).
Variable base_zero_grad : O -> list Param -> O * list Param.

Record EMAOptimizer : Type := mkEMA {
  base_optimizer : O;
  ema_decay : Q;
  model : list Param;
  ema_model : list Param
}.

(** Methods mutate the wrapper in place and may raise: the state after
    the call is returned in both cases. *)
Definition M (A : Type) : Type := EMAOptimizer -> EMAOptimizer * Result A.

(** The [ema_decay] setter. *)
Definition check_ema_decay (value : Q) : Result Q :=
  if negb (Qltb 0 value && Qltb value 1)
  then raise (ValueError "EMA decay should be in the range (0, 1).")
  else ok value.

(** [EMAOptimizer.__init__]; the constructor of [torch.optim.Optimizer]
    refuses an empty parameter list. *)
Definition __init__ (optimizer : O) (model0 : list Param) (decay : Q)
  : Result EMAOptimizer :=
  d <- check_ema_decay decay ;;
  let ema := map (fun p => set_requires_grad p false) model0 in
  match ema with
  | [] => raise (ValueError "optimizer got an empty parameter list")
  | _ => ok (mkEMA optimizer d model0 ema)
  end.

(** The loop of [update_ema_parameters] over
    [zip(ema_model.parameters(), model.parameters())]; on an exception
    the parameters already visited keep their new data. *)
Fixpoint update_loop (decay : Q) (emas params : list Param)
  : list Param * Result unit :=
  match emas, params with
  | e :: es, p :: ps =>
      let e1 := mul_ (pdata e) decay in
      match add_ e1 (pdata p) (1 - decay)%Q with
      | inl e2 =>
          let (es', r) := update_loop decay es ps in
          (set_data e e2 :: es', r)
      | inr err => (set_data e e1 :: es, inr err)
      end
  | _, _ => (emas, ok tt)
  end.

Definition update_ema_parameters : M unit := fun s =>
  let (ema', r) := update_loop (ema_decay s) (ema_model s) (model s) in
  (mkEMA (base_optimizer s) (ema_decay s) (model s) ema', r).

(** [EMAOptimizer.step] *)
Definition step (closure : option Closure) : M (option Q) := fun s =>
  let '(o', model', r) := base_step closure (base_optimizer s) (model s) in
  let s1 := mkEMA o' (ema_decay s) model' (ema_model s) in
  match r with
  | inr err => (s1, inr err)
  | inl loss =>
      let (s2, r2) := update_ema_parameters s1 in
      match r2 with
      | inr err => (s2, inr err)
      | inl _ => (s2, ok loss)
      end
  end.

(** The loop of [swap_parameters]:
    [param.data, ema_param.data = ema_param.data, param.data]. *)
Fixpoint swap_loop (emas params : list Param)
  : list Param * list Param :=
  match emas, params with
  | e :: es, p :: ps =>
      let (es', ps') := swap_loop es ps in
      (set_data e (pdata p) :: es', set_data p (pdata e) :: ps')
  | _, _ => (emas, params)
  end.

Definition swap_parameters : M unit := fun s =>
  let (ema', model') := swap_loop (ema_model s) (model s) in
  (mkEMA (base_optimizer s) (ema_decay s) model' ema', ok tt).

Definition restore_model_parameters : M unit := swap_parameters.

Definition zero_grad : M unit := fun s =>
  let (o', model') := base_zero_grad (base_optimizer s) (model s) in
  (mkEMA o' (ema_decay s) model' (ema_model s), ok tt).

(** [EMAParameterContext.__enter__] and [__exit__] *)
Definition __enter__ : M unit := swap_parameters.
Definition __exit__ : M unit := restore_model_parameters.

(** The operations of the wrapper after construction. *)
Inductive Op : Type :=
| OpStep (closure : option Closure)
| OpUpdateEma
| OpSwap
| OpRestore
| OpEnter
| OpExit
| OpZeroGrad.

Definition run (op : Op) (s : EMAOptimizer) : EMAOptimizer :=
  match op with
  | OpStep c => fst (step c s)
  | OpUpdateEma => fst (update_ema_parameters s)
  | OpSwap => fst (swap_parameters s)
  | OpRestore => fst (restore_model_parameters s)
  | OpEnter => fst (__enter__ s)
  | OpExit => fst (__exit__ s)
  | OpZeroGrad => fst (zero_grad s)
  end.

(** States reached from a successful construction. *)
Inductive Reachable (optimizer : O) (model0 : list Param) (decay : Q)
  : EMAOptimizer -> Prop :=
| reach_init s :
    __init__ optimizer model0 decay = ok s ->
    Reachable optimizer model0 decay s
| reach_run s op :
    Reachable optimizer model0 decay s ->
    Reachable optimizer model0 decay (run op s).

(** Every shadow parameter is frozen. *)
Definition shadow_frozen (s : EMAOptimizer) : Prop :=
  Forall (fun p => requires_grad p = false) (ema_model s).

(** Shapes of a parameter list, and the layout invariant of the
    wrapper: shadow and trainable parameters pair up with equal
    shapes. *)
Definition layout (ps : list Param) : list (list nat) :=
  map (fun p => shape (pdata p)) ps.

Definition params_well_shaped (ps : list Param) : Prop :=
  Forall (fun p => well_shaped (pdata p)) ps.

Definition layout_invariant (s : EMAOptimizer) : Prop :=
  layout (ema_model s) = layout (model s)
  /\ params_well_shaped (ema_model s)
  /\ params_well_shaped (model s).

(** A base optimizer updates parameters in place: it keeps their
    number, their shapes and the size of their storage. *)
Definition keeps_layout (f : list Param -> list Param) : Prop :=
  forall ps, layout (f ps) = layout ps
             /\ (params_well_shaped ps -> params_well_shaped (f ps)).

End EMAOptimizer.

End Ema.

(* ================================================================= *)
(** ** Rounding to a floating-point format *)

Module Fp.
Import Torch TorchOps.

Definition pow2 (k : Z) : Q := Qpower 2 k.

(** The number with [prec] significant bits nearest to [q], ties to the
    even mantissa: what an IEEE 754 operation with exact result [q]
    returns in the normal range of the format (24 bits for [float32],
    53 for [float64]); overflow and underflow are outside the model. *)
Definition round_to (prec : Z) (q : Q) : Q :=
  if Qeq_bool q 0 then 0%Q
  else
    let a := Qabs q in
    let e0 := Z.log2 (Qnum a) - Z.log2 (Zpos (Qden a)) in
    let e := if Qltb a (pow2 e0) then e0 - 1 else e0 in
    let s := e - (prec - 1) in
    let r := Qred (inject_Z (round (a / pow2 s)) * pow2 s) in
    if Qltb q 0 then (- r)%Q else r.

Definition float32 : Q -> Q := round_to 24.
Definition float64 : Q -> Q := round_to 53.

End Fp.

(* ================================================================= *)
(** ** [diffusion/managers/sde.py] *)

Module Sde.
Import Py Torch TorchOps Data Space.

(** Modelled from the spec: the SDE classes of [diffusion/sde] are not
    among the sources.  An instance exposes [T], [N], [marginal_prob],
    [discretize] and (variance-exploding) [discrete_sigmas]; the three
    [isinstance] tests of the manager are recorded as they answer. *)
Record SDE : Type := mkSDE {
  is_VPSDE : bool;
  is_SubVPSDE : bool;
  is_VESDE : bool;
  N : Z;
  T : Q;
  discrete_sigmas : list Q;
  marginal_prob : Tensor -> list Q -> Tensor * list Q;
  discretize : Tensor -> list Q -> Tensor * list Q
}.

(** The draws of the random number generator: [randint low high n] for
    [torch.randint(low, high, (n,))], which refuses [high <= low], and
    [randn_like]. *)
Record Rng : Type := mkRng {
  randint : Z -> Z -> nat -> list Z;
  randn_like : Tensor -> Tensor
}.

Record SDEManager : Type := mkSDEManager {
  time_steps : Z;
  beta_space : option BetaSpace;
  is_continous : bool;
  sde : SDE
}.

(** [SDEManager.__init__]; the constructor of the parent class stores
    its arguments. *)
Definition __init__ (sde0 : SDE) (time_steps0 : Z)
           (beta_space0 : option BetaSpace) (is_continous0 : bool)
  : Result SDEManager :=
  let self := mkSDEManager time_steps0 beta_space0 is_continous0 sde0 in
  if (is_VPSDE (sde self) &&
      match beta_space self with None => true | Some _ => false end)%bool
  then raise (ValueError "Beta space is required for VPSDE.")
  else ok self.

Section Methods.

(** The network [self.model], called on a [DiffusionData]. *)
Variable model : DiffusionData -> Tensor.
(** [torch.sqrt] on one entry. *)
Variable sqrt : Q -> Q.
(** The rounding of the floating-point format of the time tensor: the
    result of one multiplication or division with exact result [q] is
    [fl q]. *)
Variable fl : Q -> Q.
Variable rng : Rng.
Variable self : SDEManager.

(** [SDEManager.forward(x_train)] without a target: the second
    component of the result is [None] and is left out. *)
Definition forward (x_train : DiffusionData) : Result Tensor :=
  let s := sde self in
  let t_in := Data.t x_train in
  if (is_SubVPSDE s || (is_continous self && is_VPSDE s))%bool then
    let t' := map (fun v => (v * 999)%Q) t_in in
    let std := snd (marginal_prob s (zeros_like (x x_train)) t_in) in
    let score := model (mkData (x x_train) t' (condition x_train)) in
    binop Qdiv score (mkTensor [List.length std] std)
  else if is_VPSDE s then
    match beta_space self with
    | None => raise (AssertionError "Beta space is required for VPSDE.")
    | Some bs =>
        let t' := map (fun v => (v * inject_Z (N s - 1))%Q) t_in in
        let std := map (fun v => sqrt (1 - v)%Q) (alphas_cumprod bs) in
        let score := model (mkData (x x_train) t' (condition x_train)) in
        binop Qdiv score (mkTensor [List.length std] std)
    end
  else if (is_continous self && is_VESDE s)%bool then
    let t' := snd (marginal_prob s (zeros_like (x x_train)) t_in) in
    let score := model (mkData (x x_train) t' (condition x_train)) in
    ok (tmap (fun v => (v / 1)%Q) score)
  else if is_VESDE s then
    let t1 := map (fun v => (T s - v)%Q) t_in in
    let t2 := map (fun v => (v * inject_Z (N s - 1))%Q) t1 in
    let t' := map (fun v => inject_Z (round v)) t2 in
    let score := model (mkData (x x_train) t' (condition x_train)) in
    ok (tmap (fun v => (v / 1)%Q) score)
  else raise NotImplementedError.

(** [SDEManager.forward_diffusion(data, condition, t)] *)
Definition forward_diffusion (data : Tensor) (condition : option Tensor)
           (t : option (list Q)) : Result (DiffusionData * Tensor) :=
  t' <- match t with
        | None =>
            b <- shape0 data ;;
            if time_steps self <=? 0 then raise RuntimeError
            else ok (map inject_Z (randint rng 0 (time_steps self) b))
        | Some t0 => ok t0
        end ;;
  let z := randn_like rng data in
  let (mean, std) := marginal_prob (sde self) data t' in
  sz <- binop Qmult (unsqueeze3 std) z ;;
  x' <- binop Qplus mean sz ;;
  noise <- binop Qdiv z (unsqueeze3 std) ;;
  ok (DiffusionData2 x' t', noise).

(** [(data.t * (self.sde.N - 1) / self.sde.T).long()] for one entry of a
    floating tensor [data.t]: the two Python numbers are converted to the
    format of the tensor, the product and the quotient are each rounded,
    and the conversion to an integer truncates the rounded quotient. *)
Definition timestep_of (s : SDE) (t : Q) : Z :=
  long (fl (fl (t * fl (inject_Z (N s - 1))) / fl (T s)))%Q.

(** [torch.where(cond, a, b)] on one-dimensional tensors of one size. *)
Definition where_ (cond : list bool) (a b : list Q) : list Q :=
  map (fun p : bool * (Q * Q) =>
         if fst p then fst (snd p) else snd (snd p))
      (combine cond (combine a b)).

(** The branches of [sampling_step]; each returns [(y, predicted_noise)]. *)
Definition sampling_step_VESDE (data : DiffusionData)
  : Result (Tensor * Tensor) :=
  let s := sde self in
  let timestep := map (timestep_of s) (t data) in
  sigma <- mapM (getitem (discrete_sigmas s)) timestep ;;
  shifted <- mapM (getitem (discrete_sigmas s))
                  (map (fun k => k - 1) timestep) ;;
  let adjacent_sigma :=
    where_ (map (fun k => k =? 0) timestep)
           (map (fun _ => 0%Q) (t data)) shifted in
  score <- forward data ;;
  let diff := zip_with Qminus (map (fun v => v ^ 2)%Q sigma)
                       (map (fun v => v ^ 2)%Q adjacent_sigma) in
  step <- binop Qmult score (unsqueeze3 diff) ;;
  x_mean <- binop Qplus (x data) step ;;
  let std :=
    map sqrt
        (zip_with Qdiv
           (zip_with Qmult (map (fun v => v ^ 2)%Q adjacent_sigma) diff)
           (map (fun v => v ^ 2)%Q sigma)) in
  let noise := randn_like rng (x data) in
  sn <- binop Qmult (unsqueeze3 std) noise ;;
  y <- binop Qplus x_mean sn ;;
  ok (y, score).

Definition sampling_step_VPSDE (data : DiffusionData)
  : Result (Tensor * Tensor) :=
  let s := sde self in
  match beta_space self with
  | None => raise (AssertionError "Beta space is required for VPSDE.")
  | Some bs =>
      let timestep := map (timestep_of s) (t data) in
      beta <- sample_betas bs timestep (shape (x data)) ;;
      score <- forward data ;;
      beta4 <- unsqueeze3_tensor beta ;;
      bscore <- binop Qmult beta4 score ;;
      num <- binop Qplus (x data) bscore ;;
      den <- unsqueeze3_tensor (tmap (fun b => sqrt (1 - b)%Q) beta) ;;
      x_mean <- binop Qdiv num den ;;
      let noise := randn_like rng (x data) in
      sb <- unsqueeze3_tensor (tmap sqrt beta) ;;
      sn <- binop Qmult sb noise ;;
      y <- binop Qplus x_mean sn ;;
      ok (y, score)
  end.

Definition sampling_step_reverse (data : DiffusionData)
  : Result (Tensor * Tensor) :=
  let (f, G) := discretize (sde self) (x data) (t data) in
  g2 <- binop Qmult (unsqueeze3 (map (fun v => v ^ 2)%Q G)) (model data) ;;
  f <- binop Qminus f (tmap (fun v => v * (1 # 2))%Q g2) ;;
  let G := map (fun _ => 0%Q) G in
  let z := randn_like rng (x data) in
  x_mean <- binop Qminus (x data) f ;;
  gz <- binop Qmult (unsqueeze3 G) z ;;
  y <- binop Qplus x_mean gz ;;
  ok (y, x_mean).

(** [SDEManager.sampling_step(data, i, return_noise=True)] *)
Definition sampling_step_with_noise (data : DiffusionData) (i : Z)
  : Result (Tensor * Tensor) :=
  if is_VESDE (sde self) then sampling_step_VESDE data
  else if is_VPSDE (sde self) then sampling_step_VPSDE data
  else sampling_step_reverse data.

(** [SDEManager.sampling_step(data, i)] *)
Definition sampling_step (data : DiffusionData) (i : Z) : Result Tensor :=
  r <- sampling_step_with_noise data i ;;
  ok (fst r).

End Methods.

End Sde.

(* ================================================================= *)
(** ** The rules in the words of the specification *)

Module Claims.
Import Py Torch TorchOps.

(** "shadow <- decay * shadow + (1 - decay) * param" *)
Definition ema_formula (decay shadow param : Q) : Q :=
  (decay * shadow + (1 - decay) * param)%Q.

(** The shadow parameter [e] after one update against [p], as the chain
    [ema_param.data.mul_(decay).add_(param.data, alpha=1 - decay)] leaves
    it when the shapes agree. *)
Definition ema_param_after (decay : Q) (e p : Ema.Param) : Ema.Param :=
  Ema.set_data e
    (mkTensor (shape (Ema.pdata e))
       (zip_with (fun a b => a + (1 - decay) * b)%Q
                 (map (fun a => a * decay)%Q (data (Ema.pdata e)))
                 (data (Ema.pdata p)))).

(** The data of [v[:, None, None, None]] broadcast against rows of [n]
    entries: every entry of [v] repeated [n] times. *)
Definition spread (v : list Q) (n : nat) : list Q :=
  concat (map (fun e => repeat e n) v).




End Claims.

(* ================================================================= *)
(** ** Concrete inputs *)

Module Examples.
Import Py Torch TorchOps Data.

(** The square root of a rational whose reduced numerator and denominator
    are perfect squares. *)
Definition exact_sqrt (q : Q) : Q :=
  let r := Qred q in Z.sqrt (Qnum r) # Pos.sqrt (Qden r).

(** A variance-exploding SDE with three noise levels. *)
Definition ve_sde : Sde.SDE :=
  Sde.mkSDE false false true 3 1 [3; 5; 13]%Q
            (fun x0 t => (x0, map (fun _ => 1 # 2) t))
            (fun x0 t => (zeros_like x0, map (fun _ => 0) t))%Q.

(** A variance-preserving SDE. *)
Definition vp_sde : Sde.SDE :=
  Sde.mkSDE true false false 3 1 []
            (fun x0 t => (tmap (fun v => v * (4 # 5)) x0,
                          map (fun _ => 3 # 5) t))%Q
            (fun x0 t => (zeros_like x0, map (fun _ => 0) t))%Q.

(** A sub-variance-preserving SDE. *)
Definition subvp_sde : Sde.SDE :=
  Sde.mkSDE false true false 3 1 []
            (fun x0 t => (tmap (fun v => v * (4 # 5)) x0,
                          map (fun _ => 9 # 25) t))%Q
            (fun x0 t => (zeros_like x0, map (fun _ => 0) t))%Q.

(** A network that answers 2 everywhere, and a generator whose normal
    draws are all 1 and whose integer draws are all the lower bound. *)
Definition const_model (d : DiffusionData) : Tensor :=
  tmap (fun _ => 2%Q) (x d).

Definition ones_rng : Sde.Rng :=
  Sde.mkRng (fun low _ n => repeat low n) (tmap (fun _ => 1%Q)).

Definition ve_manager : Sde.SDEManager :=
  Sde.mkSDEManager 1000 None false ve_sde.

Definition vp_manager : Sde.SDEManager :=
  Sde.mkSDEManager 1000 (Some (Space.mkBetaSpace [1 # 10; 2 # 10]%Q))
                   false vp_sde.

(** A batch of one image of one entry. *)
Definition image (v : Q) : Tensor := mkTensor [1; 1; 1; 1]%nat [v].

(** A base optimizer without state: its step lowers every entry of every
    parameter by 1/10 and returns the loss 3. *)
Definition descent_step (_ : option unit) (o : unit) (ps : list Ema.Param)
  : (unit * list Ema.Param) * Result (option Q) :=
  ((o, map (fun p => Ema.set_data
                       p (tmap (fun v => v - (1 # 10))%Q (Ema.pdata p))) ps),
   ok (Some (3 # 1)%Q)).

Definition keep_grad (o : unit) (ps : list Ema.Param)
  : unit * list Ema.Param := (o, ps).

Definition weights : list Ema.Param :=
  [Ema.mkParam (mkTensor [2]%nat [1; 2]%Q) true].

Definition weights_after_step : list Ema.Param :=
  [Ema.mkParam (mkTensor [2]%nat [1 - (1 # 10); 2 - (1 # 10)]%Q) true].

(** The wrapper built from [weights] with decay 1/2. *)
Definition ema_state : Ema.EMAOptimizer unit :=
  Ema.mkEMA tt (1 # 2)%Q weights
            [Ema.mkParam (mkTensor [2]%nat [1; 2]%Q) false].

(** The input of one sampling step at time 9/10. *)
Definition ve_data : DiffusionData := mkData (image 1) [9 # 10]%Q None.

End Examples.

(* ================================================================= *)
(** ** [diffusion/nn/diffusion/diffusion.py] *)

Module Nn.
Import Py.

(** [DiffusionModule.sampling_range]: [range(1, self.time_steps + 1)]. *)
Definition sampling_range (time_steps : Z) : range :=
  range2 1 (time_steps + 1).

End Nn.

(* ================================================================= *)
(** ** Re-stacking sampled images ([DiffusionManager.test]) *)

Module Restack.
Import Py Torch.

Fixpoint shape_eqb (a b : list nat) : bool :=
  match a, b with
  | [], [] => true
  | m :: a', n :: b' => Nat.eqb m n && shape_eqb a' b'
  | _, _ => false
  end.

(** [img.unsqueeze(0)] *)
Definition unsqueeze0 (img : Tensor) : Tensor :=
  mkTensor (1%nat :: shape img) (data img).

(** [torch.cat(parts)] along axis 0 for parts of positive rank, none of
    them of the one-dimensional empty shape that [torch.cat] skips: an
    empty list is refused, and so are parts that differ in a trailing
    axis. *)
Definition cat (parts : list Tensor) : Result Tensor :=
  match parts with
  | [] => raise RuntimeError
  | p0 :: _ =>
      match shape p0 with
      | [] => raise RuntimeError
      | _ :: rest =>
          if forallb (fun p => match shape p with
                               | [] => false
                               | _ :: r => shape_eqb r rest
                               end) parts
          then ok (mkTensor
                     (fold_right Nat.add 0%nat
                                 (map (fun p => hd 0%nat (shape p)) parts)
                      :: rest)
                     (concat (map data parts)))
          else raise RuntimeError
      end
  end.

(** Line 189 of [test]: [torch.cat([img.unsqueeze(0) for img in x])]. *)
Definition restack (imgs : list Tensor) : Result Tensor :=
  cat (map unsqueeze0 imgs).

End Restack.

(* ================================================================= *)
(** ** Saving and loading the EMA optimizer ([diffusion/optim/ema.py]) *)

Module Persist.
Import Py Ema.

(** A failed dictionary lookup, or an exception of the callee. *)
Inductive LoadError : Type :=
| KeyError (key : string)
| Raised (e : PyError).

Section StateDict.

(** The wrapped optimizer and the shadow module save to and load from
    values of one type [V] (Python's [Any]); loading mutates the receiver
    and may raise. *)
Variable O : Type.
Variable V : Type.
Variable base_state_dict : O -> V.
Variable base_load_state_dict : V -> O -> O * Result unit.
Variable module_state_dict : list Param -> V.
Variable module_load_state_dict : V -> list Param -> list Param * Result unit.

(** [dict[str, Any]], written in insertion order. *)
Definition Dict : Type := list (string * V).

(** [d[key]] *)
Fixpoint lookup (key : string) (d : Dict) : option V :=
  match d with
  | [] => None
  | (k, v) :: d' => if String.eqb k key then Some v else lookup key d'
  end.

(** [EMAOptimizer.state_dict] *)
Definition state_dict (s : EMAOptimizer O) : Dict :=
  [("optimizer"%string, base_state_dict (base_optimizer s));
   ("ema_model"%string, module_state_dict (ema_model s))].

(** [EMAOptimizer.load_state_dict] *)
Definition load_state_dict (d : Dict) (s : EMAOptimizer O)
  : EMAOptimizer O * (unit + LoadError) :=
  match lookup "optimizer" d with
  | None => (s, inr (KeyError "optimizer"))
  | Some v =>
      let (o', r) := base_load_state_dict v (base_optimizer s) in
      let s1 := mkEMA o' (ema_decay s) (model s) (ema_model s) in
      match r with
      | inr e => (s1, inr (Raised e))
      | inl _ =>
          match lookup "ema_model" d with
          | None => (s1, inr (KeyError "ema_model"))
          | Some w =>
              let (ema', r') := module_load_state_dict w (ema_model s1) in
              (mkEMA o' (ema_decay s) (model s) ema',
               match r' with
               | inl _ => inl tt
               | inr e => inr (Raised e)
               end)
          end
      end
  end.

End StateDict.

End Persist.

(* ================================================================= *)
(** ** [diffusion/configs/train.py] *)

Module Configs.
Import Py Torch.



End Configs.

(* ================================================================= *)
(** ** Concrete inputs for saving and loading *)

Module PersistExamples.
Import Py Torch Ema.

(** A stateless base optimizer saves nothing and loads anything. *)
Definition base_state_dict (_ : unit) : list Tensor := [].

Definition base_load_state_dict (_ : list Tensor) (o : unit)
  : unit * Result unit := (o, ok tt).

(** The shadow module saves the data of its parameters in order and loads
    as many tensors as it has parameters. *)
Definition module_state_dict (ps : list Param) : list Tensor :=
  map pdata ps.

Definition module_load_state_dict (v : list Tensor) (ps : list Param)
  : list Param * Result unit :=
  if Nat.eqb (length v) (length ps)
  then (map (fun pv => set_data (fst pv) (snd pv)) (combine ps v), ok tt)
  else (ps, raise RuntimeError).

(** A second wrapper, with another decay and other values. *)
Definition other_state : EMAOptimizer unit :=
  mkEMA tt (9 # 10)%Q
        [mkParam (mkTensor [2]%nat [7; 8]%Q) true]
        [mkParam (mkTensor [2]%nat [5; 6]%Q) false].

End PersistExamples.

(* ================================================================= *)
(** ** Inputs for the sampling step *)

Module StepExamples.
Import Py Torch TorchOps Data.

(** An SDE that is none of the three named classes: its discretisation
    has drift [x / 10] and diffusion 2. *)
Definition plain_sde : Sde.SDE :=
  Sde.mkSDE false false false 3 1 []
            (fun x0 t => (x0, map (fun _ => 1) t))%Q
            (fun x0 t => (tmap (fun v => v * (1 # 10)) x0,
                          map (fun _ => 2) t))%Q.

Definition plain_manager : Sde.SDEManager :=
  Sde.mkSDEManager 1000 None false plain_sde.

(** The input of one step: one image of one entry, at time 1/2. *)
Definition plain_data : DiffusionData :=
  mkData (Examples.image 5) [1 # 2]%Q None.


(** A variance-exploding SDE with eleven noise levels. *)
Definition eleven_levels : Sde.SDE :=
  Sde.mkSDE false false true 11 1 [1; 2; 3; 4; 5; 6; 7; 8; 9; 10; 11]%Q
            (fun x0 t => (x0, map (fun _ => 1 # 2) t))
            (fun x0 t => (zeros_like x0, map (fun _ => 0) t))%Q.

(** One image whose last axis has three entries, at time 0. *)
Definition wide_data : DiffusionData :=
  mkData (mkTensor [1; 1; 1; 3]%nat [1; 2; 3]%Q) [0%Q] None.

End StepExamples.

(* ================================================================= *)
(** ** Notions used in the statements *)

Module Notions.


End Notions.

(* ================================================================= *)
(** * Properties *)

Unset Implicit Arguments.

(** ** Python built-ins *)

Section PyFacts.
Import Py.

Lemma range_list_length (r : range) :
  length (range_list r) = Z.to_nat (range_len (start r) (stop r) (step r)).
Proof. unfold range_list. now rewrite length_map, length_seq. Qed.

(** [range(a, b)] is empty as soon as [b <= a]. *)
Lemma range2_empty (a b : Z) : b <= a -> range_list (range2 a b) = [].
Proof.
  intros Hab. unfold range_list, range2, range_len; cbn [start stop step].
  destruct (Z.ltb_spec 0 1) as [_|]; [|lia].
  destruct (Z.ltb_spec a b) as [|_]; [lia|]. reflexivity.
Qed.

(** [range(n, 0, -1)] counts [n, n-1, ..., 1]. *)
Lemma range_down_spec (n : nat) :
  range_list (mkRange (Z.of_nat n) 0 (-1))
  = map (fun k => Z.of_nat n - Z.of_nat k) (seq 0 n).
Proof.
  unfold range_list, range_len; cbn [start stop step].
  destruct (Z.ltb_spec 0 (-1)) as [|_]; [lia|].
  destruct (Z.ltb_spec (-1) 0) as [_|]; [|lia].
  destruct (Z.ltb_spec 0 (Z.of_nat n)) as [Hn|Hn].
  - replace (- -1) with 1 by lia. rewrite Z.div_1_r.
    replace (Z.to_nat (Z.of_nat n - 0 - 1 + 1)) with n by lia.
    apply map_ext. intros k. lia.
  - assert (n = 0%nat) by lia. subst n. reflexivity.
Qed.

Lemma bind_ok {A B} (a : A) (k : A -> Result B) : bind (ok a) k = k a.
Proof. reflexivity. Qed.

Lemma mapM_ok {A B} (f : A -> Result B) (g : A -> B) (xs : list A) :
  (forall a, In a xs -> f a = ok (g a)) -> mapM f xs = ok (map g xs).
Proof.
  induction xs as [|a xs IH]; intros Hf; cbn [mapM map]; [reflexivity|].
  rewrite (Hf a (or_introl eq_refl)), bind_ok, IH, bind_ok; [reflexivity|].
  intros b Hb. apply Hf. now right.
Qed.

Lemma mapM_length {A B} (f : A -> Result B) (xs : list A) (ys : list B) :
  mapM f xs = ok ys -> length ys = length xs.
Proof.
  revert ys. induction xs as [|a xs IH]; intros ys; cbn [mapM].
  - intros [= <-]. reflexivity.
  - destruct (f a) as [b|e]; cbn [bind]; [|discriminate].
    destruct (mapM f xs) as [bs|e]; cbn [bind]; [|discriminate].
    intros [= <-]. cbn [length]. now rewrite (IH bs eq_refl).
Qed.

Lemma mapM_nth_error {A B} (f : A -> Result B) (xs : list A) (ys : list B) :
  mapM f xs = ok ys ->
  forall i a, nth_error xs i = Some a ->
              exists b, nth_error ys i = Some b /\ f a = ok b.
Proof.
  revert ys. induction xs as [|a0 xs IH]; intros ys; cbn [mapM].
  - intros _ [|i] a; discriminate.
  - destruct (f a0) as [b0|e] eqn:E0; cbn [bind]; [|discriminate].
    destruct (mapM f xs) as [bs|e]; cbn [bind]; [|discriminate].
    intros [= <-] [|i] a; cbn [nth_error].
    + intros [= <-]. eauto.
    + intros Hi. exact (IH bs eq_refl i a Hi).
Qed.

Lemma for_each_invariant {S I} (P : S -> Prop) (body : S -> I -> Result S) :
  (forall s i, P s -> exists s', body s i = ok s' /\ P s') ->
  forall is_ s, P s -> exists s', for_each body s is_ = ok s' /\ P s'.
Proof.
  intros Hbody. induction is_ as [|i rest IH]; intros s Hs; cbn [for_each].
  - eauto.
  - destruct (Hbody s i Hs) as (s1 & -> & Hs1). rewrite bind_ok. eauto.
Qed.

End PyFacts.

(** ** Tensors *)

Section TorchFacts.
Import Py Torch.

Lemma chunks_length (k n : nat) (l : list Q) : length (chunks k n l) = k.
Proof.
  revert l. induction k as [|k IH]; intros l; cbn [chunks length];
    [reflexivity | now rewrite IH].
Qed.

(** Iterating a tensor of positive rank yields one entry per index of the
    leading axis, each of the remaining shape. *)
Lemma iter_leading_axis (b : nat) (rest : list nat) (d : list Q) :
  exists out, iter (mkTensor (b :: rest) d) = ok out
              /\ length out = b
              /\ Forall (fun o => shape o = rest) out.
Proof.
  eexists. split; [reflexivity|]. split.
  - now rewrite length_map, chunks_length.
  - apply Forall_forall. intros o [c [<- _]]%in_map_iff. reflexivity.
Qed.

End TorchFacts.

(** ** [DiffusionManager.sampling] *)

Section SamplingFacts.
Import Py Torch Data Manager.

(** With an explicit [range(n, 0, -1)] the loop visits [n, ..., 1]. *)
Lemma sampling_indices_explicit_descending (time_steps : Z) (n : nat) :
  sampling_indices time_steps (Some (mkRange (Z.of_nat n) 0 (-1)))
  = map (fun k => Z.of_nat n - Z.of_nat k) (seq 0 n).
Proof. unfold sampling_indices. apply range_down_spec. Qed.

Example sampling_indices_explicit_3 :
  sampling_indices 1000 (Some (mkRange 3 0 (-1))) = [3; 2; 1].
Proof. reflexivity. Qed.

(** A step that keeps the shape of its input keeps the shape of the
    images throughout the loop. *)
Lemma sampling_loop_keeps_shape
      (step : DiffusionData -> Z -> Result Tensor)
      (num_images : Z) (condition : option Tensor) (s : list nat) :
  (forall da i, exists y, step da i = ok y /\ shape y = shape (x da)) ->
  0 <= num_images ->
  forall is_ imgs,
    shape imgs = s ->
    exists imgs',
      for_each (sampling_body step num_images condition) imgs is_ = ok imgs'
      /\ shape imgs' = s.
Proof.
  intros Hstep Hn is_ imgs Himgs.
  apply (for_each_invariant (fun im => shape im = s)); [|exact Himgs].
  intros im i Him. unfold sampling_body, full.
  destruct (Z.ltb_spec num_images 0) as [|_]; [lia|]. rewrite bind_ok.
  destruct (Hstep (mkData im (repeat (inject_Z i) (Z.to_nat num_images))
                          condition) i) as (y & -> & Hy).
  rewrite bind_ok. exists y. split; [reflexivity|].
  now rewrite Hy.
Qed.

End SamplingFacts.

(** C1 (code defect).  The claim: without an explicit range the loop of
    [sampling] runs over [time_steps, time_steps-1, ..., 1].  The code
    iterates over [range(self.time_steps, 1)], which has the default step
    [+1]: for every [time_steps >= 1] that range is empty, no
    [sampling_step] is invoked and the seed [x_t] is returned row by row. *)
Theorem sampling_default_range_runs_no_step :
  forall (time_steps : Z)
         (step : Data.DiffusionData -> Z -> Py.Result Torch.Tensor)
         (num_images : Z) (x_t : Torch.Tensor)
         (condition : option Torch.Tensor),
    1 <= time_steps ->
    Manager.sampling_indices time_steps None = []
    /\ Manager.sampling time_steps step num_images x_t condition None
       = Torch.iter x_t.
Proof.
  intros time_steps step num_images x_t condition HT.
  assert (E : Manager.sampling_indices time_steps None = []).
  { unfold Manager.sampling_indices. apply range2_empty. exact HT. }
  split; [exact E|].
  unfold Manager.sampling. rewrite E. reflexivity.
Qed.

Lemma sampling_default_range_runs_no_step_witness :
  1 <= 3
  /\ Manager.sampling_indices 3 None = []
  /\ Manager.sampling 3 (fun _ _ => Py.raise Py.RuntimeError) 2
       (Torch.mkTensor [2; 1]%nat [1 # 2; 3 # 4]%Q) None None
     = Py.ok [Torch.mkTensor [1]%nat [1 # 2]%Q;
              Torch.mkTensor [1]%nat [3 # 4]%Q].
Proof.
  split; [lia|].
  exact (sampling_default_range_runs_no_step
           3 (fun _ _ => Py.raise Py.RuntimeError) 2
           (Torch.mkTensor [2; 1]%nat [1 # 2; 3 # 4]%Q) None
           ltac:(lia)).
Defined.

(** C2 (code defect).  The claim: [sampling] returns exactly [num_images]
    samples.  The code returns [[img for img in imgs]]: one sample per row
    of the final image tensor.  With a step that keeps the shape of its
    input that is one sample per row of the seed [x_t], each of the shape
    of a seed row, whatever [num_images] is. *)
Theorem sampling_returns_one_sample_per_seed_row :
  forall (time_steps : Z)
         (step : Data.DiffusionData -> Z -> Py.Result Torch.Tensor)
         (num_images : Z) (b : nat) (rest : list nat) (d : list Q)
         (condition : option Torch.Tensor)
         (sampling_range : option Py.range),
    (forall da i, exists y,
          step da i = Py.ok y /\ Torch.shape y = Torch.shape (Data.x da)) ->
    0 <= num_images ->
    exists out,
      Manager.sampling time_steps step num_images
                       (Torch.mkTensor (b :: rest) d) condition sampling_range
      = Py.ok out
      /\ length out = b
      /\ Forall (fun o => Torch.shape o = rest) out.
Proof.
  intros time_steps step num_images b rest d condition sampling_range Hstep Hn.
  unfold Manager.sampling.
  destruct (sampling_loop_keeps_shape step num_images condition (b :: rest)
              Hstep Hn
              (Manager.sampling_indices time_steps sampling_range)
              (Torch.mkTensor (b :: rest) d) eq_refl) as (imgs & -> & Himgs).
  rewrite bind_ok. destruct imgs as [s d']. cbn [Torch.shape] in Himgs. subst s.
  apply iter_leading_axis.
Qed.

Lemma sampling_returns_one_sample_per_seed_row_witness :
  (forall da i, exists y,
        (fun (da : Data.DiffusionData) (_ : Z) => Py.ok (Data.x da)) da i
        = Py.ok y /\ Torch.shape y = Torch.shape (Data.x da))
  /\ 0 <= 2
  /\ exists out,
      Manager.sampling 10 (fun da _ => Py.ok (Data.x da)) 2
                       (Torch.mkTensor [3; 1; 1; 1]%nat [1; 2; 3]%Q) None
                       (Some (Py.mkRange 10 0 (-1)))
      = Py.ok out
      /\ length out = 3%nat
      /\ Forall (fun o => Torch.shape o = [1; 1; 1]%nat) out.
Proof.
  assert (H : forall (da : Data.DiffusionData) (i : Z), exists y,
               (fun (da : Data.DiffusionData) (_ : Z) => Py.ok (Data.x da)) da i
               = Py.ok y /\ Torch.shape y = Torch.shape (Data.x da)).
  { intros da i. exists (Data.x da). split; reflexivity. }
  split; [exact H|]. split; [lia|].
  exact (sampling_returns_one_sample_per_seed_row
           10 (fun da _ => Py.ok (Data.x da)) 2 3 [1; 1; 1]%nat [1; 2; 3]%Q
           None (Some (Py.mkRange 10 0 (-1))) H ltac:(lia)).
Defined.

(** [predict] lets a seed with more rows than [num_images] through its
    checks and hands back every row. *)
Example predict_returns_every_noise_row :
  Manager.predict 1000 (fun _ _ => Py.raise Py.RuntimeError)
                  (Torch.mkTensor [] []) 2 (Manager.SizeTuple [1; 1; 1])
                  None (Some (Torch.mkTensor [3; 1; 1; 1]%nat [1; 2; 3]%Q))
  = Py.ok [Torch.mkTensor [1; 1; 1]%nat [1%Q];
           Torch.mkTensor [1; 1; 1]%nat [2%Q];
           Torch.mkTensor [1; 1; 1]%nat [3%Q]].
Proof. reflexivity. Qed.

(** ** [BetaSpace] and the gather primitive *)

Section SpaceFacts.
Import Py Torch TorchOps Space.

Lemma numel_ones (k : nat) : numel (repeat 1%nat k) = 1%nat.
Proof.
  unfold numel. induction k as [|k IH]; cbn [repeat fold_right];
    [reflexivity | now rewrite IH].
Qed.

Lemma gather_at_in_range (vals : list Q) (i : Z) :
  0 <= i < Z.of_nat (length vals) ->
  gather_at vals i = ok (nth (Z.to_nat i) vals 0%Q).
Proof.
  intros Hi. unfold gather_at.
  destruct (Z.leb_spec 0 i) as [_|]; [|lia].
  destruct (Z.ltb_spec i (Z.of_nat (length vals))) as [_|]; [|lia].
  cbn [andb].
  rewrite (nth_error_nth' vals 0%Q) by lia. reflexivity.
Qed.

Lemma gather_in_range (vals : list Q) (t : list Z) :
  Forall (fun i => 0 <= i < Z.of_nat (length vals)) t ->
  gather vals t = ok (map (fun i => nth (Z.to_nat i) vals 0%Q) t).
Proof.
  intros Ht. apply mapM_ok. intros i Hi.
  apply gather_at_in_range. revert i Hi. now apply Forall_forall.
Qed.

Lemma cumprod_from_length (acc : Q) (l : list Q) :
  length (cumprod_from acc l) = length l.
Proof.
  revert acc. induction l as [|a l IH]; intros acc; cbn;
    [reflexivity | now rewrite IH].
Qed.

Lemma cumprod_length (l : list Q) : length (cumprod l) = length l.
Proof. destruct l; cbn; [reflexivity | now rewrite cumprod_from_length]. Qed.

Lemma alphas_cumprod_length (s : BetaSpace) :
  length (alphas_cumprod s) = length (betas s).
Proof. unfold alphas_cumprod, alphas. now rewrite cumprod_length, length_map. Qed.

Lemma removelast_length {A} (l : list A) :
  length (removelast l) = (length l - 1)%nat.
Proof.
  induction l as [|a [|b l] IH]; cbn [removelast length] in *;
    [reflexivity | reflexivity | rewrite IH; lia].
Qed.

Lemma alphas_cumprod_prev_length (s : BetaSpace) :
  betas s <> [] -> length (alphas_cumprod_prev s) = length (betas s).
Proof.
  intros Hne. unfold alphas_cumprod_prev. cbn [length].
  rewrite removelast_length, alphas_cumprod_length.
  destruct (betas s); [congruence | cbn; lia].
Qed.

Lemma broadcast2_same_length (f : Q -> Q -> Q) (a b : list Q) :
  length a = length b ->
  broadcast2 f a b = ok (map (fun p => f (fst p) (snd p)) (combine a b)).
Proof. intros E. unfold broadcast2. now rewrite E, Nat.eqb_refl. Qed.

End SpaceFacts.

(** C5 (as stated, fails).  For the target shape [()] of rank zero the
    gather primitive returns a tensor of rank one: [(1,) * (0 - 1)] is the
    empty tuple, and the batch axis is always present. *)
Lemma gather_rank_differs_for_empty_target_shape :
  Space._get_index_from_list [7 # 1; 9 # 1]%Q [1; 0] []
  = Py.ok (Torch.mkTensor [2]%nat [9 # 1; 7 # 1]%Q)
  /\ length [2]%nat <> length (@nil nat).
Proof. split; [reflexivity | discriminate]. Qed.

(** C5 (amended).  For a sequence [vals] of length [T], a batch vector [t]
    of length [B] with every [t[i]] in [0, T), and a target shape of rank at
    least one, [_get_index_from_list] returns a tensor whose rank is the
    rank of the target shape, whose shape is [B, 1, ..., 1], and whose
    entry [i] is [vals[t[i]]]. *)
Theorem gather_by_timestep_spec :
  forall (vals : list Q) (t : list Z) (x_shape : list nat),
    (1 <= length x_shape)%nat ->
    Forall (fun i => 0 <= i < Z.of_nat (length vals)) t ->
    exists out,
      Space._get_index_from_list vals t x_shape = Py.ok out
      /\ length (Torch.shape out) = length x_shape
      /\ Torch.shape out = length t :: repeat 1%nat (length x_shape - 1)
      /\ length (Torch.data out) = length t
      /\ forall i ti, nth_error t i = Some ti ->
                      nth_error (Torch.data out) i
                      = nth_error vals (Z.to_nat ti).
Proof.
  intros vals t x_shape Hrank Ht.
  unfold Space._get_index_from_list.
  rewrite (gather_in_range vals t Ht), bind_ok.
  unfold Space.reshape. cbn [Torch.numel fold_right].
  change (fold_right Nat.mul 1%nat (repeat 1%nat (length x_shape - 1)))
    with (Torch.numel (repeat 1%nat (length x_shape - 1))).
  rewrite numel_ones, Nat.mul_1_r, length_map, Nat.eqb_refl.
  eexists. split; [reflexivity|]. cbn [Torch.shape Torch.data].
  repeat split.
  - cbn [length]. rewrite repeat_length. lia.
  - apply length_map.
  - intros i ti Hi. rewrite nth_error_map, Hi. cbn [option_map].
    rewrite Forall_forall in Ht.
    specialize (Ht ti (nth_error_In _ _ Hi)).
    symmetry. apply nth_error_nth'. lia.
Qed.

Lemma gather_by_timestep_spec_witness :
  (1 <= length [4; 3; 8; 8]%nat)%nat
  /\ Forall (fun i => 0 <= i < Z.of_nat (length [1 # 10; 2 # 10; 3 # 10]%Q))
            [2; 0]
  /\ exists out,
      Space._get_index_from_list [1 # 10; 2 # 10; 3 # 10]%Q [2; 0]
                                 [4; 3; 8; 8]%nat = Py.ok out
      /\ length (Torch.shape out) = length [4; 3; 8; 8]%nat
      /\ Torch.shape out
         = length [2; 0] :: repeat 1%nat (length [4; 3; 8; 8]%nat - 1)
      /\ length (Torch.data out) = length [2; 0]
      /\ forall i ti, nth_error [2; 0] i = Some ti ->
                      nth_error (Torch.data out) i
                      = nth_error [1 # 10; 2 # 10; 3 # 10]%Q (Z.to_nat ti).
Proof.
  assert (Hr : (1 <= length [4; 3; 8; 8]%nat)%nat) by (simpl; lia).
  assert (Ht : Forall (fun i => 0 <= i
                                < Z.of_nat (length [1 # 10; 2 # 10; 3 # 10]%Q))
                      [2; 0]).
  { repeat constructor; simpl; lia. }
  split; [exact Hr|]. split; [exact Ht|].
  exact (gather_by_timestep_spec [1 # 10; 2 # 10; 3 # 10]%Q [2; 0]
                                 [4; 3; 8; 8]%nat Hr Ht).
Defined.



(** ** Broadcasting *)

Section BroadcastFacts.
Import Py Torch TorchOps.

Lemma chunks_In_length (k n : nat) (l c : list Q) :
  length l = (k * n)%nat -> In c (chunks k n l) -> length c = n.
Proof.
  revert l. induction k as [|k IH]; intros l Hl; cbn [chunks In];
    [tauto|].
  intros [<- | Hc].
  - rewrite length_firstn. lia.
  - apply (IH (skipn n l)); [|exact Hc]. rewrite length_skipn. lia.
Qed.

Lemma concat_chunks (k n : nat) (l : list Q) :
  length l = (k * n)%nat -> concat (chunks k n l) = l.
Proof.
  revert l. induction k as [|k IH]; intros l Hl; cbn [chunks concat].
  - destruct l; [reflexivity | discriminate].
  - rewrite IH by (rewrite length_skipn; lia). apply firstn_skipn.
Qed.

(** Broadcasting a tensor to its own shape leaves the data as it is. *)
Lemma expand_dims_same (s : list nat) :
  forall d, length d = numel s -> expand_dims s s d = ok d.
Proof.
  induction s as [|o s IH]; intros d Hd; cbn [expand_dims];
    [reflexivity|].
  rewrite Nat.eqb_refl.
  change (numel (o :: s)) with (o * numel s)%nat in Hd.
  rewrite (mapM_ok _ (fun c => c)).
  - rewrite bind_ok, map_id, concat_chunks by exact Hd. reflexivity.
  - intros c Hc. apply IH. exact (chunks_In_length _ _ _ _ Hd Hc).
Qed.

Lemma expand_to_same (a : Tensor) :
  well_shaped a -> expand_to a (shape a) = ok (data a).
Proof.
  intros Ha. unfold expand_to. rewrite Nat.ltb_irrefl, Nat.sub_diag.
  cbn [repeat app]. now apply expand_dims_same.
Qed.

Lemma broadcast_rev_same (s : list nat) : broadcast_rev s s = ok s.
Proof.
  induction s as [|m s IH]; cbn [broadcast_rev]; [reflexivity|].
  now rewrite IH, bind_ok, Nat.eqb_refl.
Qed.

Lemma broadcast_shapes_same (s : list nat) : broadcast_shapes s s = ok s.
Proof.
  unfold broadcast_shapes.
  now rewrite broadcast_rev_same, bind_ok, rev_involutive.
Qed.

(** An element-wise operation on two tensors of one shape. *)
Lemma binop_same_shape (f : Q -> Q -> Q) (a b : Tensor) :
  shape b = shape a -> well_shaped a -> well_shaped b ->
  binop f a b = ok (mkTensor (shape a) (zip_with f (data a) (data b))).
Proof.
  intros Hs Ha Hb. unfold binop. rewrite Hs, broadcast_shapes_same, bind_ok.
  rewrite (expand_to_same a Ha), bind_ok.
  rewrite <- Hs, (expand_to_same b Hb), bind_ok. now rewrite Hs.
Qed.

Lemma zip_with_length (f : Q -> Q -> Q) (a b : list Q) :
  length b = length a -> length (zip_with f a b) = length a.
Proof.
  intros E. unfold zip_with. rewrite length_map, length_combine, E.
  apply Nat.min_id.
Qed.

Lemma zip_with_length_min (f : Q -> Q -> Q) (a b : list Q) :
  length (zip_with f a b) = Nat.min (length a) (length b).
Proof. unfold zip_with. now rewrite length_map, length_combine. Qed.

Lemma zip_with_nth (f : Q -> Q -> Q) (a b : list Q) (j : nat) (d : Q) :
  length b = length a -> (j < length a)%nat ->
  nth j (zip_with f a b) d = f (nth j a d) (nth j b d).
Proof.
  intros E Ha. unfold zip_with.
  rewrite (nth_indep _ d (f (fst (d, d)) (snd (d, d))))
    by (rewrite length_map, length_combine; lia).
  rewrite (map_nth (fun p => f (fst p) (snd p))), combine_nth
    by (symmetry; exact E).
  reflexivity.
Qed.

End BroadcastFacts.

(** ** [EMAOptimizer] *)

Section EmaFacts.
Import Py Torch TorchOps Ema.

Variable O : Type.
Variable Closure : Type.
Variable base_step :
  option Closure -> O -> list Param -> (O * list Param) * Result (option Q).
Variable base_zero_grad : O -> list Param -> O * list Param.

Abbreviation frozen := (Forall (fun p => requires_grad p = false)).

Lemma check_ema_decay_ok (d : Q) :
  (0 < d)%Q -> (d < 1)%Q -> check_ema_decay d = ok d.
Proof.
  intros H0 H1. unfold check_ema_decay, Qltb.
  destruct (Qle_bool d 0) eqn:E0.
  { apply Qle_bool_iff in E0. exfalso. exact (Qlt_not_le _ _ H0 E0). }
  destruct (Qle_bool 1 d) eqn:E1.
  { apply Qle_bool_iff in E1. exfalso. exact (Qlt_not_le _ _ H1 E1). }
  reflexivity.
Qed.

Lemma check_ema_decay_inv (d d' : Q) :
  check_ema_decay d = ok d' -> d' = d /\ (0 < d)%Q /\ (d < 1)%Q.
Proof.
  unfold check_ema_decay, Qltb.
  destruct (Qle_bool d 0) eqn:E0; cbn; [discriminate|].
  destruct (Qle_bool 1 d) eqn:E1; cbn; [discriminate|].
  intros [= <-]. repeat split.
  - apply Qnot_le_lt. intros H. apply Qle_bool_iff in H. congruence.
  - apply Qnot_le_lt. intros H. apply Qle_bool_iff in H. congruence.
Qed.

(** What a successful construction builds. *)
Lemma init_inv (optimizer : O) (model0 : list Param) (decay : Q)
      (s : EMAOptimizer O) :
  __init__ optimizer model0 decay = ok s ->
  s = mkEMA optimizer decay model0
            (map (fun p => set_requires_grad p false) model0).
Proof.
  unfold __init__. destruct (check_ema_decay decay) as [d|e] eqn:E;
    cbn [bind]; [|discriminate].
  apply check_ema_decay_inv in E. destruct E as (-> & _ & _).
  destruct model0; cbn [map]; [discriminate|]. now intros [= <-].
Qed.

Lemma init_ok (optimizer : O) (model0 : list Param) (decay : Q) :
  (0 < decay)%Q -> (decay < 1)%Q -> model0 <> [] ->
  __init__ optimizer model0 decay
  = ok (mkEMA optimizer decay model0
              (map (fun p => set_requires_grad p false) model0)).
Proof.
  intros H0 H1 Hne. unfold __init__.
  rewrite (check_ema_decay_ok decay H0 H1), bind_ok.
  destruct model0; [congruence | reflexivity].
Qed.

Lemma update_loop_frozen (decay : Q) :
  forall emas params,
    frozen emas -> frozen (fst (update_loop decay emas params)).
Proof.
  induction emas as [|e es IH]; intros params Hf; [exact Hf|].
  destruct params as [|p ps]; [exact Hf|]. cbn [update_loop].
  inversion Hf as [|? ? He Hes]; subst.
  destruct (add_ (mul_ (pdata e) decay) (pdata p) (1 - decay)) as [e2|err].
  - specialize (IH ps Hes).
    destruct (update_loop decay es ps) as [es' r]. cbn [fst] in *.
    constructor; [exact He | exact IH].
  - cbn [fst]. constructor; [exact He | exact Hes].
Qed.

Lemma swap_loop_frozen :
  forall emas params,
    frozen emas -> frozen (fst (swap_loop emas params)).
Proof.
  induction emas as [|e es IH]; intros params Hf; [exact Hf|].
  destruct params as [|p ps]; [exact Hf|]. cbn [swap_loop].
  inversion Hf as [|? ? He Hes]; subst. specialize (IH ps Hes).
  destruct (swap_loop es ps) as [es' ps']. cbn [fst] in *.
  constructor; [exact He | exact IH].
Qed.

Lemma swap_loop_involutive :
  forall emas params,
    swap_loop (fst (swap_loop emas params)) (snd (swap_loop emas params))
    = (emas, params).
Proof.
  induction emas as [|e es IH]; intros params; [reflexivity|].
  destruct params as [|p ps]; [reflexivity|]. cbn [swap_loop].
  specialize (IH ps). destruct (swap_loop es ps) as [es' ps'].
  cbn [fst snd swap_loop] in *. rewrite IH.
  destruct e, p. reflexivity.
Qed.

Lemma update_ema_parameters_frozen (s : EMAOptimizer O) :
  shadow_frozen s -> shadow_frozen (fst (update_ema_parameters s)).
Proof.
  unfold shadow_frozen, update_ema_parameters. intros Hf.
  pose proof (update_loop_frozen (ema_decay s) _ (model s) Hf) as H.
  destruct (update_loop (ema_decay s) (ema_model s) (model s)). exact H.
Qed.

Lemma swap_parameters_frozen (s : EMAOptimizer O) :
  shadow_frozen s -> shadow_frozen (fst (swap_parameters s)).
Proof.
  unfold shadow_frozen, swap_parameters. intros Hf.
  pose proof (swap_loop_frozen _ (model s) Hf) as H.
  destruct (swap_loop (ema_model s) (model s)). exact H.
Qed.

Lemma step_frozen (c : option Closure) (s : EMAOptimizer O) :
  shadow_frozen s -> shadow_frozen (fst (step base_step c s)).
Proof.
  intros Hf. unfold step.
  destruct (base_step c (base_optimizer s) (model s)) as [[o' m'] [loss|err]].
  - pose proof (update_ema_parameters_frozen
                  (mkEMA o' (ema_decay s) m' (ema_model s)) Hf) as H.
    destruct (update_ema_parameters (mkEMA o' (ema_decay s) m' (ema_model s)))
      as [s2 [u|err]]; exact H.
  - exact Hf.
Qed.

Lemma run_frozen (op : Op Closure) (s : EMAOptimizer O) :
  shadow_frozen s -> shadow_frozen (run base_step base_zero_grad op s).
Proof.
  intros Hf. destruct op; cbn [run].
  - now apply step_frozen.
  - now apply update_ema_parameters_frozen.
  - now apply swap_parameters_frozen.
  - now apply swap_parameters_frozen.
  - now apply swap_parameters_frozen.
  - now apply swap_parameters_frozen.
  - unfold zero_grad.
    destruct (base_zero_grad (base_optimizer s) (model s)). exact Hf.
Qed.

End EmaFacts.

(** C7.  The parameter swap is an involution: performing it twice restores
    the trainable parameters and the shadow parameters (data and pairing)
    of every wrapper state; so does entering and leaving the scoped guard
    of [use_ema_parameters]. *)
Theorem swap_parameters_involutive :
  forall (O : Type) (s : Ema.EMAOptimizer O),
    fst (Ema.swap_parameters (fst (Ema.swap_parameters s))) = s
    /\ snd (Ema.swap_parameters s) = Py.ok tt
    /\ fst (Ema.__exit__ (fst (Ema.__enter__ s))) = s.
Proof.
  intros O s.
  assert (E : fst (Ema.swap_parameters (fst (Ema.swap_parameters s))) = s).
  { unfold Ema.swap_parameters.
    pose proof (swap_loop_involutive (Ema.ema_model s) (Ema.model s)) as H.
    destruct (Ema.swap_loop (Ema.ema_model s) (Ema.model s)) as [e' m'].
    cbn [fst snd Ema.ema_model Ema.model Ema.base_optimizer Ema.ema_decay] in *.
    rewrite H. destruct s. reflexivity. }
  repeat split.
  - exact E.
  - unfold Ema.swap_parameters.
    now destruct (Ema.swap_loop (Ema.ema_model s) (Ema.model s)).
  - exact E.
Qed.

(** C10.  Every shadow parameter has [requires_grad = False] once the
    wrapper is constructed, and keeps it through every later operation:
    [step], [update_ema_parameters], [swap_parameters],
    [restore_model_parameters], entering and leaving the scoped guard, and
    [zero_grad] - also when one of them raises. *)
Theorem shadow_parameters_stay_frozen :
  forall (O Closure : Type)
         (base_step : option Closure -> O -> list Ema.Param ->
                      (O * list Ema.Param) * Py.Result (option Q))
         (base_zero_grad : O -> list Ema.Param -> O * list Ema.Param)
         (optimizer : O) (model0 : list Ema.Param) (decay : Q)
         (s : Ema.EMAOptimizer O),
    Ema.Reachable base_step base_zero_grad optimizer model0 decay s ->
    Ema.shadow_frozen s.
Proof.
  intros O Closure base_step base_zero_grad optimizer model0 decay s Hreach.
  induction Hreach as [s Hinit | s op _ IH].
  - apply init_inv in Hinit. subst s. unfold Ema.shadow_frozen.
    cbn [Ema.ema_model]. apply Forall_forall.
    intros p [q [<- _]]%in_map_iff. reflexivity.
  - now apply run_frozen.
Qed.

Lemma shadow_parameters_stay_frozen_witness :
  Ema.Reachable Examples.descent_step Examples.keep_grad tt Examples.weights
                (1 # 2)%Q
                (Ema.run Examples.descent_step Examples.keep_grad
                         (Ema.OpSwap unit)
                         (Ema.run Examples.descent_step Examples.keep_grad
                                  (Ema.OpStep (Some tt)) Examples.ema_state))
  /\ Ema.shadow_frozen
       (Ema.run Examples.descent_step Examples.keep_grad (Ema.OpSwap unit)
                (Ema.run Examples.descent_step Examples.keep_grad
                         (Ema.OpStep (Some tt)) Examples.ema_state)).
Proof.
  assert (R : Ema.Reachable
                Examples.descent_step Examples.keep_grad tt Examples.weights
                (1 # 2)%Q
                (Ema.run Examples.descent_step Examples.keep_grad
                         (Ema.OpSwap unit)
                         (Ema.run Examples.descent_step Examples.keep_grad
                                  (Ema.OpStep (Some tt)) Examples.ema_state))).
  { apply Ema.reach_run, Ema.reach_run, Ema.reach_init. reflexivity. }
  split; [exact R|].
  exact (shadow_parameters_stay_frozen
           unit unit Examples.descent_step Examples.keep_grad tt
           Examples.weights (1 # 2)%Q _ R).
Defined.

Section EmaStepFacts.
Import Py Torch TorchOps Ema.

Lemma update_loop_closed_form (decay : Q) :
  forall emas params,
    layout emas = layout params ->
    params_well_shaped params ->
    update_loop decay emas params
    = (map (fun ep => Claims.ema_param_after decay (fst ep) (snd ep))
           (combine emas params), ok tt).
Proof.
  induction emas as [|e es IH]; intros [|p ps] Hl Hw;
    try discriminate; [reflexivity|].
  cbn [layout map] in Hl. injection Hl as Hs Hl.
  inversion Hw as [|? ? Hp Hps]; subst.
  cbn [update_loop combine map fst snd].
  unfold add_. cbn [mul_ shape].
  rewrite Hs, (expand_to_same (pdata p) Hp), bind_ok.
  rewrite (IH ps Hl Hps).
  unfold Claims.ema_param_after, zip_with. cbn [mul_ data]. now rewrite Hs.
Qed.

Lemma nth_error_combine_some {A B} (l : list A) (l' : list B) :
  forall k a b,
    nth_error l k = Some a -> nth_error l' k = Some b ->
    nth_error (combine l l') k = Some (a, b).
Proof.
  revert l'. induction l as [|x l IH]; intros [|y l'] [|k] a b;
    cbn [nth_error combine]; try discriminate.
  - now intros [= ->] [= ->].
  - apply IH.
Qed.

Lemma layout_nth_error (ps qs : list Param) :
  layout ps = layout qs ->
  forall k e, nth_error ps k = Some e ->
              exists p, nth_error qs k = Some p
                        /\ shape (pdata p) = shape (pdata e).
Proof.
  revert qs. induction ps as [|x ps IH]; intros [|y qs] Hl [|k] e;
    cbn [nth_error]; try discriminate.
  - intros [= <-]. injection Hl as Hs _. eauto.
  - injection Hl as _ Hl. now apply IH.
Qed.

Lemma ema_param_after_entry (decay : Q) (e p : Param) (j : nat) :
  shape (pdata p) = shape (pdata e) ->
  well_shaped (pdata e) -> well_shaped (pdata p) ->
  (j < length (data (pdata e)))%nat ->
  (nth j (data (pdata (Claims.ema_param_after decay e p))) 0
   == Claims.ema_formula decay (nth j (data (pdata e)) 0)
                         (nth j (data (pdata p)) 0))%Q.
Proof.
  intros Hs He Hp Hj. unfold well_shaped in *.
  assert (L : length (data (pdata p)) = length (data (pdata e)))
    by (now rewrite He, Hp, Hs).
  unfold Claims.ema_param_after. cbn [set_data pdata data].
  rewrite zip_with_nth by (rewrite length_map; assumption).
  rewrite (nth_indep _ 0%Q ((fun a => a * decay) 0)%Q)
    by (now rewrite length_map).
  rewrite (map_nth (fun a => a * decay)%Q).
  unfold Claims.ema_formula. ring.
Qed.

End EmaStepFacts.

(** ** The layout invariant of the EMA wrapper *)

Section EmaLayoutFacts.
Import Py Torch TorchOps Ema.

Variable O : Type.
Variable Closure : Type.
Variable base_step :
  option Closure -> O -> list Param -> (O * list Param) * Result (option Q).
Variable base_zero_grad : O -> list Param -> O * list Param.

Hypothesis base_step_keeps_layout :
  forall c o, keeps_layout (fun ps => snd (fst (base_step c o ps))).
Hypothesis base_zero_grad_keeps_layout :
  forall o, keeps_layout (fun ps => snd (base_zero_grad o ps)).

Lemma ema_param_after_well_shaped (decay : Q) (e p : Param) :
  shape (pdata e) = shape (pdata p) ->
  well_shaped (pdata e) -> well_shaped (pdata p) ->
  well_shaped (pdata (Claims.ema_param_after decay e p)).
Proof.
  unfold well_shaped, Claims.ema_param_after. cbn [set_data pdata data shape].
  intros Hs He Hp.
  rewrite zip_with_length_min, length_map, He, Hp, Hs. apply Nat.min_id.
Qed.

Lemma update_loop_layout_invariant (decay : Q) :
  forall emas params,
    layout emas = layout params ->
    params_well_shaped emas -> params_well_shaped params ->
    layout (fst (update_loop decay emas params)) = layout emas
    /\ params_well_shaped (fst (update_loop decay emas params)).
Proof.
  intros emas params Hl He Hp.
  rewrite (update_loop_closed_form decay emas params Hl Hp). cbn [fst].
  revert params Hl He Hp.
  induction emas as [|e es IH]; intros [|p ps] Hl He Hp;
    try discriminate; [split; [reflexivity | constructor]|].
  cbn [layout map] in Hl. injection Hl as Hs Hl.
  inversion He as [|? ? He0 Hes]; inversion Hp as [|? ? Hp0 Hps]; subst.
  destruct (IH ps Hl Hes Hps) as [IHl IHw].
  cbn [combine map fst snd layout]. split.
  - f_equal. exact IHl.
  - constructor; [|exact IHw].
    now apply ema_param_after_well_shaped.
Qed.

Lemma swap_loop_layout_invariant :
  forall emas params,
    layout emas = layout params ->
    params_well_shaped emas -> params_well_shaped params ->
    layout (fst (swap_loop emas params)) = layout emas
    /\ layout (snd (swap_loop emas params)) = layout params
    /\ params_well_shaped (fst (swap_loop emas params))
    /\ params_well_shaped (snd (swap_loop emas params)).
Proof.
  induction emas as [|e es IH]; intros [|p ps] Hl He Hp;
    try discriminate; [repeat split; constructor|].
  cbn [layout map] in Hl. injection Hl as Hs Hl.
  inversion He as [|? ? He0 Hes]; inversion Hp as [|? ? Hp0 Hps]; subst.
  destruct (IH ps Hl Hes Hps) as (I1 & I2 & I3 & I4).
  cbn [swap_loop]. destruct (swap_loop es ps) as [es' ps'].
  cbn [fst snd layout map set_data pdata] in *.
  repeat split.
  - now rewrite I1, Hs.
  - now rewrite I2, Hs.
  - constructor; assumption.
  - constructor; assumption.
Qed.

Lemma init_layout_invariant (optimizer : O) (model0 : list Param)
      (decay : Q) (s : EMAOptimizer O) :
  params_well_shaped model0 ->
  __init__ optimizer model0 decay = ok s ->
  layout_invariant s.
Proof.
  intros Hw Hinit. apply init_inv in Hinit. subst s.
  unfold layout_invariant. cbn [ema_model model].
  unfold layout, params_well_shaped. rewrite map_map. cbn [set_requires_grad pdata].
  repeat split; [|exact Hw].
  apply Forall_forall. intros p [q [<- Hq]]%in_map_iff.
  cbn [set_requires_grad pdata].
  unfold params_well_shaped in Hw. rewrite Forall_forall in Hw. now apply Hw.
Qed.

Lemma swap_parameters_layout_invariant (s : EMAOptimizer O) :
  layout_invariant s -> layout_invariant (fst (swap_parameters s)).
Proof.
  intros (Hl & He & Hp). unfold swap_parameters.
  destruct (swap_loop_layout_invariant _ _ Hl He Hp) as (I1 & I2 & I3 & I4).
  destruct (swap_loop (ema_model s) (model s)) as [e' m'].
  cbn [fst snd] in *. unfold layout_invariant. cbn [ema_model model].
  repeat split; try assumption. now rewrite I1, I2.
Qed.

Lemma update_ema_parameters_layout_invariant (s : EMAOptimizer O) :
  layout_invariant s -> layout_invariant (fst (update_ema_parameters s)).
Proof.
  intros (Hl & He & Hp). unfold update_ema_parameters.
  destruct (update_loop_layout_invariant (ema_decay s) _ _ Hl He Hp)
    as (I1 & I2).
  destruct (update_loop (ema_decay s) (ema_model s) (model s)) as [e' r].
  cbn [fst] in *. unfold layout_invariant. cbn [ema_model model].
  repeat split; try assumption. now rewrite I1.
Qed.

Lemma run_layout_invariant (op : Op Closure) (s : EMAOptimizer O) :
  layout_invariant s ->
  layout_invariant (run base_step base_zero_grad op s).
Proof.
  intros Hinv. destruct op as [c| | | | | |]; cbn [run];
    try (now apply swap_parameters_layout_invariant);
    try (now apply update_ema_parameters_layout_invariant).
  - unfold step.
    destruct (base_step_keeps_layout c (base_optimizer s) (model s))
      as [Kl Kw].
    destruct (base_step c (base_optimizer s) (model s))
      as [[o' m'] [loss|err]]; cbn [fst snd] in Kl, Kw.
    + assert (Hinv1 : layout_invariant
                        (mkEMA o' (ema_decay s) m' (ema_model s))).
      { destruct Hinv as (Hl & He & Hp). unfold layout_invariant.
        cbn [ema_model model]. repeat split; [|exact He | now apply Kw].
        now rewrite Kl. }
      pose proof (update_ema_parameters_layout_invariant _ Hinv1) as H.
      destruct (update_ema_parameters
                  (mkEMA o' (ema_decay s) m' (ema_model s)))
        as [s2 [u|err]]; exact H.
    + destruct Hinv as (Hl & He & Hp). unfold layout_invariant.
      cbn [fst ema_model model]. repeat split; [|exact He | now apply Kw].
      now rewrite Kl.
  - unfold zero_grad.
    destruct (base_zero_grad_keeps_layout (base_optimizer s) (model s))
      as [Kl Kw].
    destruct (base_zero_grad (base_optimizer s) (model s)) as [o' m'].
    cbn [fst snd] in *. destruct Hinv as (Hl & He & Hp).
    unfold layout_invariant. cbn [ema_model model].
    repeat split; [|exact He | now apply Kw]. now rewrite Kl.
Qed.

(** Every wrapper built from a well-shaped model pairs shadow and
    trainable parameters of equal shapes, whatever was run on it. *)
Lemma reachable_layout_invariant (optimizer : O) (model0 : list Param)
      (decay : Q) (s : EMAOptimizer O) :
  params_well_shaped model0 ->
  Reachable base_step base_zero_grad optimizer model0 decay s ->
  layout_invariant s.
Proof.
  intros Hw Hreach. induction Hreach as [s Hinit | s op _ IH].
  - exact (init_layout_invariant optimizer model0 decay s Hw Hinit).
  - now apply run_layout_invariant.
Qed.


End EmaLayoutFacts.

(** C6.  One call to [step] first runs the base optimizer's step, then
    replaces every shadow parameter by
    [decay * shadow_old + (1 - decay) * param] entry by entry, where [param]
    is the trainable parameter after the base step, and returns what the
    base step returned.  The wrapper pairs shadow and trainable parameters
    of equal shapes (as every wrapper built by the constructor does), and
    the base step keeps the shapes of the parameters it updates. *)
Theorem ema_step_updates_shadow :
  forall (O Closure : Type)
         (base_step : option Closure -> O -> list Ema.Param ->
                      (O * list Ema.Param) * Py.Result (option Q))
         (closure : option Closure) (s : Ema.EMAOptimizer O)
         (o' : O) (model' : list Ema.Param) (loss : option Q),
    (0 < Ema.ema_decay s)%Q -> (Ema.ema_decay s < 1)%Q ->
    Ema.layout (Ema.ema_model s) = Ema.layout (Ema.model s) ->
    Ema.params_well_shaped (Ema.ema_model s) ->
    base_step closure (Ema.base_optimizer s) (Ema.model s)
    = ((o', model'), Py.ok loss) ->
    Ema.layout model' = Ema.layout (Ema.model s) ->
    Ema.params_well_shaped model' ->
    exists shadow',
      Ema.step base_step closure s
      = (Ema.mkEMA o' (Ema.ema_decay s) model' shadow', Py.ok loss)
      /\ length shadow' = length (Ema.ema_model s)
      /\ forall k e,
          nth_error (Ema.ema_model s) k = Some e ->
          exists p e',
            nth_error model' k = Some p
            /\ nth_error shadow' k = Some e'
            /\ Torch.shape (Ema.pdata e') = Torch.shape (Ema.pdata e)
            /\ Ema.requires_grad e' = Ema.requires_grad e
            /\ forall j,
                (j < length (Torch.data (Ema.pdata e)))%nat ->
                (nth j (Torch.data (Ema.pdata e')) 0
                 == Claims.ema_formula (Ema.ema_decay s)
                      (nth j (Torch.data (Ema.pdata e)) 0)
                      (nth j (Torch.data (Ema.pdata p)) 0))%Q.
Proof.
  intros O Closure base_step closure s o' model' loss _ _ Hl Hwe Hbase Hl' Hw'.
  assert (Hll : Ema.layout (Ema.ema_model s) = Ema.layout model')
    by (now rewrite Hl').
  unfold Ema.step. rewrite Hbase.
  unfold Ema.update_ema_parameters.
  cbn [Ema.ema_decay Ema.ema_model Ema.model Ema.base_optimizer].
  rewrite (update_loop_closed_form (Ema.ema_decay s) _ _ Hll Hw').
  eexists. split; [reflexivity|]. split.
  - rewrite length_map, length_combine.
    assert (length (Ema.ema_model s) = length model') as ->.
    { pose proof (f_equal (@length _) Hll) as HL. unfold Ema.layout in HL.
      now rewrite !length_map in HL. }
    apply Nat.min_id.
  - intros k e He.
    destruct (layout_nth_error _ _ Hll k e He) as (p & Hp & Hs).
    exists p, (Claims.ema_param_after (Ema.ema_decay s) e p).
    split; [exact Hp|]. split.
    { rewrite nth_error_map, (nth_error_combine_some _ _ k e p He Hp).
      reflexivity. }
    split; [reflexivity|]. split; [reflexivity|].
    intros j Hj. apply ema_param_after_entry; try assumption.
    + unfold Ema.params_well_shaped in Hwe. rewrite Forall_forall in Hwe.
      exact (Hwe e (nth_error_In _ _ He)).
    + unfold Ema.params_well_shaped in Hw'. rewrite Forall_forall in Hw'.
      exact (Hw' p (nth_error_In _ _ Hp)).
Qed.

Lemma ema_step_updates_shadow_witness :
  ((0 < Ema.ema_decay Examples.ema_state)%Q
   /\ (Ema.ema_decay Examples.ema_state < 1)%Q
   /\ Ema.layout (Ema.ema_model Examples.ema_state)
      = Ema.layout (Ema.model Examples.ema_state)
   /\ Ema.params_well_shaped (Ema.ema_model Examples.ema_state)
   /\ Examples.descent_step (Some tt)
        (Ema.base_optimizer Examples.ema_state) (Ema.model Examples.ema_state)
      = ((tt, Examples.weights_after_step), Py.ok (Some (3 # 1)%Q))
   /\ Ema.layout Examples.weights_after_step
      = Ema.layout (Ema.model Examples.ema_state)
   /\ Ema.params_well_shaped Examples.weights_after_step)
  /\ exists shadow',
      Ema.step Examples.descent_step (Some tt) Examples.ema_state
      = (Ema.mkEMA tt (1 # 2)%Q Examples.weights_after_step shadow',
         Py.ok (Some (3 # 1)%Q))
      /\ length shadow' = 1%nat.
Proof.
  assert (H0 : (0 < Ema.ema_decay Examples.ema_state)%Q) by reflexivity.
  assert (H1 : (Ema.ema_decay Examples.ema_state < 1)%Q) by reflexivity.
  assert (Hl : Ema.layout (Ema.ema_model Examples.ema_state)
               = Ema.layout (Ema.model Examples.ema_state)) by reflexivity.
  assert (Hwe : Ema.params_well_shaped (Ema.ema_model Examples.ema_state))
    by (repeat constructor).
  assert (Hb : Examples.descent_step (Some tt)
                 (Ema.base_optimizer Examples.ema_state)
                 (Ema.model Examples.ema_state)
               = ((tt, Examples.weights_after_step), Py.ok (Some (3 # 1)%Q)))
    by reflexivity.
  assert (Hl' : Ema.layout Examples.weights_after_step
                = Ema.layout (Ema.model Examples.ema_state)) by reflexivity.
  assert (Hw' : Ema.params_well_shaped Examples.weights_after_step)
    by (repeat constructor).
  split; [repeat split; assumption|].
  destruct (ema_step_updates_shadow
              unit unit Examples.descent_step (Some tt) Examples.ema_state tt
              Examples.weights_after_step (Some (3 # 1)%Q)
              H0 H1 Hl Hwe Hb Hl' Hw')
    as (shadow' & E & L & _).
  exists shadow'. split; [exact E | exact L].
Defined.

(** One step on the example: the trainable entries drop to 9/10 and 19/10,
    the shadow entries become 19/20 and 39/20. *)
Example ema_step_example :
  snd (Ema.step Examples.descent_step (Some tt) Examples.ema_state)
  = Py.ok (Some (3 # 1)%Q)
  /\ map (fun p => map Qred (Torch.data (Ema.pdata p)))
         (Ema.ema_model
            (fst (Ema.step Examples.descent_step (Some tt) Examples.ema_state)))
     = [[19 # 20; 39 # 20]%Q]
  /\ map (fun p => map Qred (Torch.data (Ema.pdata p)))
         (Ema.model
            (fst (Ema.step Examples.descent_step (Some tt) Examples.ema_state)))
     = [[9 # 10; 19 # 10]%Q].
Proof. vm_compute. repeat split. Qed.

(** When the base step raises, [step] raises the same exception and the
    shadow parameters are not touched. *)
Lemma step_base_raises :
  forall (O Closure : Type)
         (base_step : option Closure -> O -> list Ema.Param ->
                      (O * list Ema.Param) * Py.Result (option Q))
         (closure : option Closure) (s : Ema.EMAOptimizer O)
         (o' : O) (model' : list Ema.Param) (err : Py.PyError),
    base_step closure (Ema.base_optimizer s) (Ema.model s)
    = ((o', model'), Py.raise err) ->
    Ema.step base_step closure s
    = (Ema.mkEMA o' (Ema.ema_decay s) model' (Ema.ema_model s), Py.raise err).
Proof.
  intros O Closure base_step closure s o' model' err Hbase.
  unfold Ema.step. now rewrite Hbase.
Qed.

(** ** [SDEManager] *)

(** C8.  Constructing the SDE manager with a [VPSDE] and no beta space
    raises (the code's exception is [ValueError("Beta space is required for
    VPSDE.")], the configuration error of the specification); with a beta
    space the construction succeeds; with an SDE that is not a [VPSDE] it
    succeeds without a beta space. *)
Theorem sde_manager_init_requires_beta_space_for_vpsde :
  forall (sde : Sde.SDE) (time_steps : Z) (is_continous : bool),
    (Sde.is_VPSDE sde = true ->
     Sde.__init__ sde time_steps None is_continous
     = Py.raise (Py.ValueError "Beta space is required for VPSDE."))
    /\ (forall bs,
           Sde.__init__ sde time_steps (Some bs) is_continous
           = Py.ok (Sde.mkSDEManager time_steps (Some bs) is_continous sde))
    /\ (Sde.is_VPSDE sde = false ->
        Sde.__init__ sde time_steps None is_continous
        = Py.ok (Sde.mkSDEManager time_steps None is_continous sde)).
Proof.
  intros sde time_steps is_continous. unfold Sde.__init__.
  cbn [Sde.sde Sde.beta_space]. repeat split.
  - now intros ->.
  - intros bs. now rewrite andb_false_r.
  - now intros ->.
Qed.

(** ** Broadcasting a per-row factor: [v[:, None, None, None]] *)

Section RowFacts.
Import Py Torch TorchOps Claims.

Lemma concat_repeat_repeat (e : Q) (m k : nat) :
  concat (repeat (repeat e m) k) = repeat e (k * m).
Proof.
  induction k as [|k IH]; cbn [repeat concat Nat.mul]; [reflexivity|].
  now rewrite IH, repeat_app.
Qed.

(** One entry broadcast from shape [1, ..., 1] to any shape of that rank. *)
Lemma expand_dims_ones (ss : list nat) :
  forall e,
    expand_dims (repeat 1%nat (length ss)) ss [e]
    = ok (repeat e (numel ss)).
Proof.
  induction ss as [|s ss IH]; intros e; [reflexivity|].
  cbn [length repeat expand_dims].
  change (numel (s :: ss)) with (s * numel ss)%nat.
  destruct (Nat.eqb_spec 1 s) as [<-|Hs].
  - rewrite numel_ones. cbn [chunks firstn mapM].
    rewrite IH. cbn [bind ok concat].
    now rewrite app_nil_r, Nat.mul_1_l.
  - cbn [Nat.eqb]. rewrite IH, bind_ok. now rewrite concat_repeat_repeat.
Qed.

Lemma chunks_singletons (v : list Q) :
  chunks (length v) 1 v = map (fun e => [e]) v.
Proof.
  induction v as [|e v IH]; cbn [length chunks map firstn skipn];
    [reflexivity | now rewrite IH].
Qed.

Lemma expand_dims_rows (rest : list nat) (v : list Q) :
  expand_dims (length v :: repeat 1%nat (length rest)) (length v :: rest) v
  = ok (spread v (numel rest)).
Proof.
  cbn [expand_dims]. rewrite Nat.eqb_refl, numel_ones, chunks_singletons.
  rewrite (mapM_ok _ (fun c => repeat (hd 0%Q c) (numel rest))).
  - rewrite bind_ok, map_map. reflexivity.
  - intros c [e [<- _]]%in_map_iff. apply expand_dims_ones.
Qed.

Lemma expand_to_rows (v : list Q) (C H W : nat) :
  expand_to (unsqueeze3 v) [length v; C; H; W]
  = ok (spread v (numel [C; H; W])).
Proof. exact (expand_dims_rows [C; H; W] v). Qed.

Ltac broadcast_axis m n :=
  destruct (Nat.eqb_spec m n) as [?|_];
  [subst | change (Nat.eqb 1 1) with true];
  cbv iota; rewrite ?bind_ok.

Lemma broadcast_shapes_rows_r (B C H W : nat) :
  broadcast_shapes [B; C; H; W] [B; 1; 1; 1]%nat = ok [B; C; H; W].
Proof.
  unfold broadcast_shapes. cbn [rev app broadcast_rev].
  rewrite !bind_ok, Nat.eqb_refl, !bind_ok.
  broadcast_axis C 1%nat; broadcast_axis H 1%nat; broadcast_axis W 1%nat;
    reflexivity.
Qed.

Lemma broadcast_shapes_rows_l (B C H W : nat) :
  broadcast_shapes [B; 1; 1; 1]%nat [B; C; H; W] = ok [B; C; H; W].
Proof.
  unfold broadcast_shapes. cbn [rev app broadcast_rev].
  rewrite !bind_ok, Nat.eqb_refl, !bind_ok.
  broadcast_axis 1%nat C; broadcast_axis 1%nat H; broadcast_axis 1%nat W;
    reflexivity.
Qed.

(** [f(a, v[:, None, None, None])] for a four-dimensional [a]. *)
Lemma binop_rows_r (f : Q -> Q -> Q) (a : Tensor) (v : list Q)
      (C H W : nat) :
  shape a = [length v; C; H; W] -> well_shaped a ->
  binop f a (unsqueeze3 v)
  = ok (mkTensor [length v; C; H; W]
                 (zip_with f (data a) (spread v (numel [C; H; W])))).
Proof.
  intros Hs Ha. unfold binop. cbn [unsqueeze3 shape].
  rewrite Hs, broadcast_shapes_rows_r, bind_ok.
  rewrite <- Hs, (expand_to_same a Ha), bind_ok, Hs.
  change (mkTensor [length v; 1; 1; 1]%nat v) with (unsqueeze3 v).
  now rewrite expand_to_rows, bind_ok.
Qed.

(** [f(v[:, None, None, None], a)] for a four-dimensional [a]. *)
Lemma binop_rows_l (f : Q -> Q -> Q) (a : Tensor) (v : list Q)
      (C H W : nat) :
  shape a = [length v; C; H; W] -> well_shaped a ->
  binop f (unsqueeze3 v) a
  = ok (mkTensor [length v; C; H; W]
                 (zip_with f (spread v (numel [C; H; W])) (data a))).
Proof.
  intros Hs Ha. unfold binop. cbn [unsqueeze3 shape].
  rewrite Hs, broadcast_shapes_rows_l, bind_ok.
  change (mkTensor [length v; 1; 1; 1]%nat v) with (unsqueeze3 v).
  rewrite expand_to_rows, bind_ok.
  rewrite <- Hs, (expand_to_same a Ha), bind_ok. reflexivity.
Qed.

Lemma spread_length (v : list Q) (n : nat) :
  length (spread v n) = (length v * n)%nat.
Proof.
  unfold spread. induction v as [|e v IH]; cbn [map concat length];
    [reflexivity|].
  rewrite length_app, repeat_length, IH. reflexivity.
Qed.

(** Entry [j] of row [b] of the spread factor is entry [b] of [v]. *)
Lemma spread_nth (v : list Q) (n : nat) (d : Q) :
  forall b j, (b < length v)%nat -> (j < n)%nat ->
              nth (b * n + j) (spread v n) d = nth b v d.
Proof.
  unfold spread. induction v as [|e v IH]; intros b j Hb Hj;
    cbn [length] in Hb; [lia|].
  cbn [map concat]. destruct b as [|b].
  - cbn [Nat.mul Nat.add nth]. rewrite app_nth1 by (now rewrite repeat_length).
    apply nth_repeat_lt. exact Hj.
  - rewrite app_nth2 by (rewrite repeat_length; lia).
    rewrite repeat_length. cbn [nth].
    replace (S b * n + j - n)%nat with (b * n + j)%nat by lia.
    apply IH; lia.
Qed.

End RowFacts.

(** ** [SDEManager.sampling_step], variance-exploding branch *)

Section VeFacts.
Import Py Torch TorchOps Data Claims Sde.






Lemma map_nth_lt {A} (f : A -> Q) (l : list A) (b : nat) (d : A) :
  (b < length l)%nat -> nth b (map f l) 0%Q = f (nth b l d).
Proof.
  intros Hb. rewrite (nth_indep _ 0%Q (f d)) by (now rewrite length_map).
  apply map_nth.
Qed.

Lemma tmap_well_shaped (f : Q -> Q) (a : Tensor) :
  well_shaped a -> well_shaped (tmap f a).
Proof. unfold well_shaped, tmap. cbn [data shape]. now rewrite length_map. Qed.

Variable model : DiffusionData -> Tensor.
Variable sqrt : Q -> Q.
Variable rng : Rng.
Variable self : SDEManager.

Hypothesis network_keeps_shape :
  forall d, well_shaped (x d) ->
            shape (model d) = shape (x d) /\ well_shaped (model d).


End VeFacts.




(** The index is taken from the rounded product, not from the exact one.
    For [N = 11], [T = 1] and the [float64] nearest to 7/10 the product
    rounds to 7 and the index is 7, in [float32] as well; the exact
    product of the same numbers is below 7 and would give 6.  With an
    exact product ([t = 3/4], [N = 3]) the two agree. *)
Example timestep_of_rounds_before_truncating :
  Sde.timestep_of Fp.float64 StepExamples.eleven_levels
                  (Fp.float64 (7 # 10)) = 7
  /\ Sde.timestep_of Fp.float32 StepExamples.eleven_levels
                     (Fp.float32 (7 # 10)) = 7
  /\ TorchOps.long (Fp.float64 (7 # 10) * inject_Z (11 - 1) / 1)%Q = 6
  /\ TorchOps.long (Fp.float32 (7 # 10) * inject_Z (11 - 1) / 1)%Q = 6
  /\ Sde.timestep_of Fp.float32 Examples.ve_sde (3 # 4)
     = TorchOps.long ((3 # 4) * inject_Z (3 - 1) / 1)%Q.
Proof. repeat split; vm_compute; reflexivity. Qed.

(** At [timestep = 0] the adjacent noise level is 0 and the read at index
    [-1] does not raise. *)
Example ve_sampling_step_at_time_zero :
  Sde.sampling_step Examples.const_model Examples.exact_sqrt Fp.float32
                    Examples.ones_rng Examples.ve_manager
                    (Data.mkData (Examples.image 1) [0%Q] None) 1
  = Py.ok (Examples.image (1 + 2 / 1 * (3 ^ 2 - 0 ^ 2) + 0 * 1)).
Proof. vm_compute. reflexivity. Qed.

(** ** [SDEManager.forward_diffusion] *)

(** C3 (code defect).  For a four-dimensional clean batch,
    [forward_diffusion] takes [t] as supplied, or else as drawn by
    [torch.randint(0, time_steps, (B,))]; with
    [(mean, std) = marginal_prob(data, t)] and a normal draw [z] it returns
    the noisy sample [mean + std * z] and the target [z / std], entry by
    entry.  The claim has the supplied condition carried in the returned
    [DiffusionData]; the code builds [DiffusionData(x, t)], so the returned
    condition is always [None]. *)
Theorem forward_diffusion_drops_condition :
  forall (rng : Sde.Rng) (self : Sde.SDEManager) (data : Torch.Tensor)
         (condition : option Torch.Tensor) (t : option (list Q))
         (B C H W : nat),
    let t' := match t with
              | Some t0 => t0
              | None => map inject_Z
                            (Sde.randint rng 0 (Sde.time_steps self) B)
              end in
    let mean := fst (Sde.marginal_prob (Sde.sde self) data t') in
    let std := snd (Sde.marginal_prob (Sde.sde self) data t') in
    let z := Sde.randn_like rng data in
    Torch.shape data = [B; C; H; W] ->
    TorchOps.well_shaped data ->
    (t = None -> 0 < Sde.time_steps self) ->
    Torch.shape mean = Torch.shape data -> TorchOps.well_shaped mean ->
    length std = B ->
    Torch.shape z = Torch.shape data -> TorchOps.well_shaped z ->
    exists x' noise,
      Sde.forward_diffusion rng self data condition t
      = Py.ok (Data.mkData x' t' None, noise)
      /\ Torch.shape x' = Torch.shape data
      /\ Torch.shape noise = Torch.shape data
      /\ forall b j,
          (b < B)%nat -> (j < Torch.numel [C; H; W])%nat ->
          let k := (b * Torch.numel [C; H; W] + j)%nat in
          nth k (Torch.data x') 0%Q
          = (nth k (Torch.data mean) 0 + nth b std 0 * nth k (Torch.data z) 0)%Q
          /\ nth k (Torch.data noise) 0%Q
             = (nth k (Torch.data z) 0 / nth b std 0)%Q.
Proof.
  intros rng self data condition t B C H W t' mean std z
         Hd Hdw Hts Hm Hmw Hstd Hz Hzw.
  set (n := Torch.numel [C; H; W]).
  assert (Lm : length (Torch.data mean) = (B * n)%nat).
  { unfold TorchOps.well_shaped in Hmw. now rewrite Hmw, Hm, Hd. }
  assert (Lz : length (Torch.data z) = (B * n)%nat).
  { unfold TorchOps.well_shaped in Hzw. now rewrite Hzw, Hz, Hd. }
  assert (Hzs : Torch.shape z = [length std; C; H; W])
    by (now rewrite Hz, Hd, Hstd).
  unfold Sde.forward_diffusion.
  assert (Et : match t with
               | Some t0 => Py.ok t0
               | None =>
                   Py.bind (Torch.shape0 data)
                     (fun b =>
                        if Sde.time_steps self <=? 0
                        then Py.raise Py.RuntimeError
                        else Py.ok (map inject_Z
                               (Sde.randint rng 0 (Sde.time_steps self) b)))
               end = Py.ok t').
  { unfold t'. destruct t as [t0|]; [reflexivity|].
    unfold Torch.shape0. rewrite Hd, bind_ok.
    destruct (Z.leb_spec (Sde.time_steps self) 0) as [Hle|_];
      [specialize (Hts eq_refl); lia | reflexivity]. }
  rewrite Et, bind_ok.
  fold z. destruct (Sde.marginal_prob (Sde.sde self) data t') as [mean0 std0]
    eqn:Emp.
  cbn [fst snd] in mean, std. subst mean std.
  rewrite (binop_rows_l Qmult z std0 C H W Hzs Hzw), bind_ok. fold n.
  rewrite binop_same_shape.
  2:{ cbn [Torch.shape]. now rewrite Hm, <- Hz, Hzs. }
  2:{ exact Hmw. }
  2:{ unfold TorchOps.well_shaped. cbn [Torch.data Torch.shape].
      rewrite zip_with_length_min, spread_length, Hstd, Lz, Nat.min_id.
      reflexivity. }
  rewrite bind_ok.
  rewrite (binop_rows_r Qdiv z std0 C H W Hzs Hzw), bind_ok. fold n.
  eexists. eexists. split; [reflexivity|].
  cbn [Torch.shape Torch.data]. split; [exact Hm|].
  split; [now rewrite Hd, Hstd|].
  intros b j Hb Hj.
  assert (Hk : (b * n + j < B * n)%nat) by nia.
  rewrite !zip_with_nth;
    rewrite ?zip_with_length_min, ?spread_length, ?Hstd, ?Lm, ?Lz,
      ?Nat.min_id; try lia.
  rewrite !spread_nth by (rewrite ?Hstd; assumption).
  split; reflexivity.
Qed.

Lemma forward_diffusion_drops_condition_witness :
  exists x' noise,
    Sde.forward_diffusion Examples.ones_rng Examples.vp_manager
                          (Examples.image 5) (Some (Examples.image 7))
                          (Some [0%Q])
    = Py.ok (Data.mkData x' [0%Q] None, noise).
Proof.
  destruct (forward_diffusion_drops_condition
              Examples.ones_rng Examples.vp_manager (Examples.image 5)
              (Some (Examples.image 7)) (Some [0%Q]) 1 1 1 1
              eq_refl eq_refl ltac:(discriminate)
              eq_refl eq_refl eq_refl eq_refl eq_refl)
    as (x' & noise & E & _).
  exists x', noise. exact E.
Defined.

(** A call with a condition, evaluated: the condition [image 7] is gone. *)
Example forward_diffusion_with_condition :
  Sde.forward_diffusion Examples.ones_rng Examples.vp_manager
                        (Examples.image 5) (Some (Examples.image 7))
                        (Some [0%Q])
  = Py.ok (Data.mkData (Examples.image (5 * (4 # 5) + (3 # 5) * 1)) [0%Q] None,
           Examples.image (1 / (3 # 5))).
Proof. reflexivity. Qed.

Lemma sde_manager_init_requires_beta_space_for_vpsde_witness :
  Sde.is_VPSDE Examples.vp_sde = true
  /\ Sde.is_VPSDE Examples.ve_sde = false
  /\ Sde.__init__ Examples.vp_sde 1000 None false
     = Py.raise (Py.ValueError "Beta space is required for VPSDE.")
  /\ Sde.__init__ Examples.vp_sde 1000
                  (Some (Space.mkBetaSpace [1 # 10; 2 # 10]%Q)) false
     = Py.ok Examples.vp_manager
  /\ Sde.__init__ Examples.ve_sde 1000 None false = Py.ok Examples.ve_manager
  /\ Py.is_ok (Sde.__init__ Examples.subvp_sde 1000 None false) = true.
Proof.
  destruct (sde_manager_init_requires_beta_space_for_vpsde
              Examples.vp_sde 1000 false) as (Hvp & Hbs & _).
  destruct (sde_manager_init_requires_beta_space_for_vpsde
              Examples.ve_sde 1000 false) as (_ & _ & Hve).
  destruct (sde_manager_init_requires_beta_space_for_vpsde
              Examples.subvp_sde 1000 false) as (_ & _ & Hsub).
  split; [reflexivity|]. split; [reflexivity|].
  split; [exact (Hvp eq_refl)|].
  split; [exact (Hbs (Space.mkBetaSpace [1 # 10; 2 # 10]%Q))|].
  split; [exact (Hve eq_refl)|].
  now rewrite (Hsub eq_refl).
Defined.

(* ================================================================= *)
(** * Further properties *)

(** ** The schedule and its cumulative products *)

Section ScheduleFacts.
Import Py Torch TorchOps Space Notions.



Lemma cumprod_nth_succ (l : list Q) :
  forall i, (S i < length l)%nat ->
            nth (S i) (cumprod l) 0%Q
            = (nth i (cumprod l) 0 * nth (S i) l 0)%Q.
Proof.
  destruct l as [|a l]; [cbn; lia|]. cbn [cumprod].
  assert (G : forall l acc i,
             (i < length l)%nat ->
             nth i (cumprod_from acc l) 0%Q
             = (nth i (acc :: cumprod_from acc l) 0 * nth i l 0)%Q).
  { clear. induction l as [|b l IH]; intros acc i Hi; [cbn in Hi; lia|].
    destruct i as [|i]; [reflexivity|].
    cbn [cumprod_from nth]. cbn [length] in Hi.
    rewrite (IH (acc * b)%Q i) by lia. reflexivity. }
  intros i Hi. cbn [length] in Hi. cbn [nth].
  rewrite (G l a i) by lia. reflexivity.
Qed.

Lemma removelast_nth {A} (l : list A) (d : A) :
  forall i, (S i < length l)%nat -> nth i (removelast l) d = nth i l d.
Proof.
  induction l as [|a l IH]; intros i Hi; [cbn in Hi; lia|].
  destruct l as [|b l]; [cbn in Hi; lia|].
  change (removelast (a :: b :: l)) with (a :: removelast (b :: l)).
  destruct i as [|i]; [reflexivity|]. cbn [nth]. apply IH.
  cbn [length] in *. lia.
Qed.



Lemma Forall_nth_lt {A} (P : A -> Prop) (l : list A) (d : A) (i : nat) :
  Forall P l -> (i < length l)%nat -> P (nth i l d).
Proof.
  intros H Hi. rewrite Forall_forall in H. apply H. now apply nth_In.
Qed.

(** [alphas_cumprod[i] = alphas_cumprod_prev[i] * alphas[i]]. *)
Lemma alphas_cumprod_step (s : BetaSpace) (i : nat) :
  (i < length (betas s))%nat ->
  (nth i (alphas_cumprod s) 0
   == nth i (alphas_cumprod_prev s) 0 * nth i (alphas s) 0)%Q.
Proof.
  intros Hi. unfold alphas_cumprod_prev.
  assert (La : length (alphas s) = length (betas s))
    by (unfold alphas; apply length_map).
  destruct i as [|i].
  - cbn [nth]. unfold alphas_cumprod.
    destruct (alphas s) as [|a l]; [cbn in La; lia|]. cbn [cumprod nth]. ring.
  - cbn [nth]. rewrite removelast_nth
      by (now rewrite alphas_cumprod_length).
    unfold alphas_cumprod. rewrite cumprod_nth_succ by (now rewrite La).
    reflexivity.
Qed.

End ScheduleFacts.

Section PosteriorFacts.
Import Py Torch TorchOps Space Notions.

(** [posterior_variance] never raises and has one entry per beta. *)
Lemma posterior_variance_total (s : BetaSpace) :
  exists pv,
    posterior_variance s = ok pv
    /\ length pv = length (betas s)
    /\ forall i, (i < length (betas s))%nat ->
                 nth i pv 0%Q
                 = (nth i (betas s) 0 * (1 - nth i (alphas_cumprod_prev s) 0)
                    / (1 - nth i (alphas_cumprod s) 0))%Q.
Proof.
  destruct (betas s) as [|b0 l] eqn:E.
  - unfold posterior_variance, alphas_cumprod_prev, alphas_cumprod, alphas.
    rewrite E. cbn. eexists. split; [reflexivity|]. split; [reflexivity|].
    intros i Hi. lia.
  - assert (Hne : betas s <> []) by (rewrite E; discriminate).
    pose proof (alphas_cumprod_prev_length s Hne) as Lp.
    pose proof (alphas_cumprod_length s) as Lc.
    unfold posterior_variance.
    rewrite broadcast2_same_length by (now rewrite length_map, Lp).
    rewrite bind_ok.
    rewrite broadcast2_same_length
      by (now rewrite !length_map, length_combine, !length_map, Lp, Lc,
            Nat.min_id).
    rewrite <- E.
    change (fun p : Q * Q => (fst p * snd p)%Q)
      with (fun p : Q * Q => Qmult (fst p) (snd p)).
    change (fun p : Q * Q => (fst p / snd p)%Q)
      with (fun p : Q * Q => Qdiv (fst p) (snd p)).
    fold (zip_with Qmult (betas s)
                   (map (fun v => (1 - v)%Q) (alphas_cumprod_prev s))).
    match goal with
    | |- context [map (fun p => Qdiv (fst p) (snd p)) (combine ?a ?b)] =>
        fold (zip_with Qdiv a b)
    end.
    eexists. split; [reflexivity|].
    split.
    { rewrite !zip_with_length_min, !length_map, Lp, Lc.
      now rewrite !Nat.min_id. }
    intros i Hi.
    rewrite zip_with_nth;
      [| rewrite zip_with_length_min, !length_map, Lp, Lc; now rewrite Nat.min_id
       | rewrite zip_with_length_min, length_map, Lp; now rewrite Nat.min_id].
    rewrite zip_with_nth; [| now rewrite length_map, Lp | exact Hi].
    rewrite (map_nth_lt (fun v => (1 - v)%Q) (alphas_cumprod_prev s) i 0%Q)
      by (now rewrite Lp).
    rewrite (map_nth_lt (fun v => (1 - v)%Q) (alphas_cumprod s) i 0%Q)
      by (now rewrite Lc).
    reflexivity.
Qed.



Lemma mapM_raise {A B} (f : A -> Result B) (e : PyError) (xs : list A) :
  (forall a, In a xs -> f a = raise e \/ exists b, f a = ok b) ->
  Exists (fun a => f a = raise e) xs ->
  mapM f xs = raise e.
Proof.
  induction xs as [|a xs IH]; intros Hall Hex; [inversion Hex|].
  cbn [mapM]. destruct (Hall a (or_introl eq_refl)) as [Ea | [b Ea]];
    rewrite Ea; [reflexivity|].
  rewrite bind_ok. rewrite IH; [reflexivity | |].
  - intros a' Ha'. apply Hall. now right.
  - inversion Hex as [? ? H|? ? H]; subst; [|exact H].
    rewrite Ea in H. discriminate H.
Qed.

Lemma gather_at_cases (vals : list Q) (i : Z) :
  gather_at vals i = raise RuntimeError \/ exists v, gather_at vals i = ok v.
Proof.
  unfold gather_at.
  destruct ((0 <=? i) && (i <? Z.of_nat (length vals)))%bool; [|now left].
  destruct (nth_error vals (Z.to_nat i)); [right; eauto | now left].
Qed.

Lemma gather_at_out_of_range (vals : list Q) (i : Z) :
  i < 0 \/ Z.of_nat (length vals) <= i ->
  gather_at vals i = raise RuntimeError.
Proof.
  intros Hi. unfold gather_at.
  destruct (Z.leb_spec 0 i); destruct (Z.ltb_spec i (Z.of_nat (length vals)));
    cbn [andb]; try reflexivity. lia.
Qed.

End PosteriorFacts.



(** X2.  The derived sequences of a schedule fit together: the shifted
    sequence [alphas_cumprod_prev] starts with 1 and continues with
    [alphas_cumprod] moved one place to the right, it has the length of the
    schedule, and [alphas_cumprod[i] = alphas_cumprod_prev[i] * alphas[i]]
    at every index. *)
Theorem schedule_cumprod_recurrence :
  forall (s : Space.BetaSpace),
    Space.betas s <> [] ->
    length (Space.alphas_cumprod_prev s) = length (Space.betas s)
    /\ nth 0 (Space.alphas_cumprod_prev s) 0%Q = 1%Q
    /\ (forall i, (S i < length (Space.betas s))%nat ->
                  nth (S i) (Space.alphas_cumprod_prev s) 0%Q
                  = nth i (Space.alphas_cumprod s) 0%Q)
    /\ (forall i, (i < length (Space.betas s))%nat ->
                  (nth i (Space.alphas_cumprod s) 0
                   == nth i (Space.alphas_cumprod_prev s) 0
                      * nth i (Space.alphas s) 0)%Q).
Proof.
  intros s Hne. split; [now apply alphas_cumprod_prev_length|].
  split; [reflexivity|]. split.
  - intros i Hi. unfold Space.alphas_cumprod_prev. cbn [nth].
    apply removelast_nth. now rewrite alphas_cumprod_length.
  - intros i Hi. now apply alphas_cumprod_step.
Qed.

Lemma schedule_cumprod_recurrence_witness :
  Space.betas (Space.mkBetaSpace [1 # 10; 2 # 10]%Q) <> []
  /\ length (Space.alphas_cumprod_prev (Space.mkBetaSpace [1 # 10; 2 # 10]%Q))
     = 2%nat
  /\ nth 1 (Space.alphas_cumprod_prev (Space.mkBetaSpace [1 # 10; 2 # 10]%Q))
         0%Q
     = nth 0 (Space.alphas_cumprod (Space.mkBetaSpace [1 # 10; 2 # 10]%Q)) 0%Q.
Proof.
  assert (Hne : Space.betas (Space.mkBetaSpace [1 # 10; 2 # 10]%Q) <> [])
    by discriminate.
  destruct (schedule_cumprod_recurrence
              (Space.mkBetaSpace [1 # 10; 2 # 10]%Q) Hne)
    as (L & _ & Hshift & _).
  split; [exact Hne|]. split; [exact L|].
  apply (Hshift 0%nat). simpl. lia.
Defined.

(** X3.  [posterior_variance] never raises: for every schedule, the empty
    one included, it returns one entry per beta, and entry [i] is
    [betas[i] * (1 - alphas_cumprod_prev[i]) / (1 - alphas_cumprod[i])]. *)
Theorem posterior_variance_never_raises :
  forall (s : Space.BetaSpace),
    exists pv,
      Space.posterior_variance s = Py.ok pv
      /\ length pv = length (Space.betas s)
      /\ forall i, (i < length (Space.betas s))%nat ->
                   nth i pv 0%Q
                   = (nth i (Space.betas s) 0
                      * (1 - nth i (Space.alphas_cumprod_prev s) 0)
                      / (1 - nth i (Space.alphas_cumprod s) 0))%Q.
Proof. exact posterior_variance_total. Qed.



(** X5.  The gather primitive refuses an index outside [0, T): if some
    [t[i]] is negative or at least the length of [vals],
    [_get_index_from_list] raises, whatever the target shape; a negative
    index does not count from the end. *)
Theorem gather_out_of_range_raises :
  forall (vals : list Q) (t : list Z) (x_shape : list nat),
    Exists (fun i => i < 0 \/ Z.of_nat (length vals) <= i) t ->
    Space._get_index_from_list vals t x_shape = Py.raise Py.RuntimeError.
Proof.
  intros vals t x_shape Hex. unfold Space._get_index_from_list, Space.gather.
  rewrite (mapM_raise (Space.gather_at vals) Py.RuntimeError t);
    [reflexivity | |].
  - intros i _. apply gather_at_cases.
  - eapply Exists_impl; [|exact Hex]. cbn beta.
    intros i Hi. now apply gather_at_out_of_range.
Qed.

Lemma gather_out_of_range_raises_witness :
  Exists (fun i => i < 0 \/ Z.of_nat (length [1 # 10; 2 # 10]%Q) <= i)
         [0; -1]
  /\ Space._get_index_from_list [1 # 10; 2 # 10]%Q [0; -1] [2; 3; 8; 8]%nat
     = Py.raise Py.RuntimeError.
Proof.
  assert (Hex : Exists (fun i => i < 0
                                 \/ Z.of_nat (length [1 # 10; 2 # 10]%Q) <= i)
                       [0; -1]).
  { apply Exists_cons_tl, Exists_cons_hd. left. lia. }
  split; [exact Hex|].
  exact (gather_out_of_range_raises [1 # 10; 2 # 10]%Q [0; -1]
                                    [2; 3; 8; 8]%nat Hex).
Defined.

(** ** The EMA optimizer: construction, bounds and swapping *)

Section EmaMoreFacts.
Import Py Torch TorchOps Ema.

Lemma check_ema_decay_refuses (d : Q) :
  ~ (0 < d /\ d < 1)%Q ->
  check_ema_decay d
  = raise (ValueError "EMA decay should be in the range (0, 1).").
Proof.
  intros Hn. unfold check_ema_decay, Qltb.
  destruct (Qle_bool d 0) eqn:E0; [reflexivity|].
  destruct (Qle_bool 1 d) eqn:E1; [reflexivity|].
  exfalso. apply Hn. split; apply Qnot_le_lt; intros H;
    apply Qle_bool_iff in H; congruence.
Qed.



Lemma swap_loop_exchanges :
  forall emas params,
    length emas = length params ->
    map pdata (fst (swap_loop emas params)) = map pdata params
    /\ map pdata (snd (swap_loop emas params)) = map pdata emas
    /\ map requires_grad (fst (swap_loop emas params))
       = map requires_grad emas
    /\ map requires_grad (snd (swap_loop emas params))
       = map requires_grad params.
Proof.
  induction emas as [|e es IH]; intros [|p ps] Hl; try discriminate;
    [repeat split|].
  cbn [length] in Hl. injection Hl as Hl.
  destruct (IH ps Hl) as (I1 & I2 & I3 & I4).
  cbn [swap_loop]. destruct (swap_loop es ps) as [es' ps'].
  cbn [fst snd map set_data pdata requires_grad] in *.
  now rewrite I1, I2, I3, I4.
Qed.

End EmaMoreFacts.

(** X6.  Constructing the EMA optimizer checks the decay first: a decay
    outside the open interval (0, 1) raises [ValueError] whatever the model
    is; with a valid decay a model without parameters is refused; otherwise
    the wrapper holds the optimizer, the decay and the model as given, and
    a shadow copy with the same data, parameter by parameter. *)
Theorem ema_init_validates_and_copies :
  forall (O : Type) (optimizer : O) (model0 : list Ema.Param) (decay : Q),
    (~ (0 < decay /\ decay < 1)%Q ->
     Ema.__init__ optimizer model0 decay
     = Py.raise (Py.ValueError "EMA decay should be in the range (0, 1)."))
    /\ ((0 < decay /\ decay < 1)%Q -> model0 = [] ->
        Ema.__init__ optimizer model0 decay
        = Py.raise (Py.ValueError "optimizer got an empty parameter list"))
    /\ ((0 < decay /\ decay < 1)%Q -> model0 <> [] ->
        exists s,
          Ema.__init__ optimizer model0 decay = Py.ok s
          /\ Ema.base_optimizer s = optimizer
          /\ Ema.ema_decay s = decay
          /\ Ema.model s = model0
          /\ map Ema.pdata (Ema.ema_model s) = map Ema.pdata model0).
Proof.
  intros O optimizer model0 decay. split; [|split].
  - intros Hn. unfold Ema.__init__.
    now rewrite (check_ema_decay_refuses decay Hn).
  - intros [H0 H1] ->. unfold Ema.__init__.
    now rewrite (check_ema_decay_ok decay H0 H1).
  - intros [H0 H1] Hne. eexists. split.
    + apply init_ok; assumption.
    + cbn [Ema.base_optimizer Ema.ema_decay Ema.model Ema.ema_model].
      repeat split. rewrite map_map. reflexivity.
Qed.

Lemma ema_init_validates_and_copies_witness :
  Ema.__init__ tt Examples.weights (3 # 2)
  = Py.raise (Py.ValueError "EMA decay should be in the range (0, 1).")
  /\ Ema.__init__ tt Examples.weights 0
     = Py.raise (Py.ValueError "EMA decay should be in the range (0, 1).")
  /\ Ema.__init__ tt (@nil Ema.Param) (1 # 2)
     = Py.raise (Py.ValueError "optimizer got an empty parameter list")
  /\ exists s, Ema.__init__ tt Examples.weights (1 # 2) = Py.ok s
               /\ map Ema.pdata (Ema.ema_model s)
                  = map Ema.pdata Examples.weights.
Proof.
  destruct (ema_init_validates_and_copies unit tt Examples.weights (3 # 2))
    as (A & _ & _).
  destruct (ema_init_validates_and_copies unit tt Examples.weights 0)
    as (B & _ & _).
  destruct (ema_init_validates_and_copies unit tt (@nil Ema.Param) (1 # 2))
    as (_ & C & _).
  destruct (ema_init_validates_and_copies unit tt Examples.weights (1 # 2))
    as (_ & _ & D).
  split; [apply A; intros [_ H]; discriminate H|].
  split; [apply B; intros [H _]; discriminate H|].
  split; [apply C; [split; reflexivity | reflexivity]|].
  destruct (D (conj eq_refl eq_refl) ltac:(discriminate))
    as (s & E & _ & _ & _ & Hcopy).
  exists s. split; [exact E | exact Hcopy].
Defined.

Section EmaExampleFacts.
Import Py Torch TorchOps Ema.

(** The example optimizer keeps the layout of what it updates. *)
Lemma descent_step_keeps_layout (c : option unit) (o : unit) :
  keeps_layout (fun ps => snd (fst (Examples.descent_step c o ps))).
Proof.
  intros ps. cbn [Examples.descent_step fst snd]. split.
  - unfold layout. rewrite map_map. reflexivity.
  - unfold params_well_shaped. intros Hw. apply Forall_forall.
    intros p [q [<- Hq]]%in_map_iff. cbn [set_data pdata].
    apply tmap_well_shaped. rewrite Forall_forall in Hw. now apply Hw.
Qed.

Lemma keep_grad_keeps_layout (o : unit) :
  keeps_layout (fun ps => snd (Examples.keep_grad o ps)).
Proof. intros ps. split; [reflexivity | tauto]. Qed.

Lemma weights_well_shaped : params_well_shaped Examples.weights.
Proof. repeat constructor. Qed.

Lemma example_reachable :
  Reachable Examples.descent_step Examples.keep_grad tt Examples.weights
            (1 # 2)%Q
            (run Examples.descent_step Examples.keep_grad (OpSwap unit)
                 (run Examples.descent_step Examples.keep_grad
                      (OpStep (Some tt)) Examples.ema_state)).
Proof. apply reach_run, reach_run, reach_init. reflexivity. Qed.

End EmaExampleFacts.

(** X7.  With a base optimizer that keeps the number and the shapes of the
    parameters it updates, every wrapper built from a well-shaped model
    pairs shadow and trainable parameters of equal shapes after any run of
    its operations, so the EMA update never raises, and [step] returns what
    the base step returned whenever the base step returns. *)
Theorem ema_update_never_raises :
  forall (O Closure : Type)
         (base_step : option Closure -> O -> list Ema.Param ->
                      (O * list Ema.Param) * Py.Result (option Q))
         (base_zero_grad : O -> list Ema.Param -> O * list Ema.Param)
         (optimizer : O) (model0 : list Ema.Param) (decay : Q)
         (s : Ema.EMAOptimizer O),
    (forall c o, Ema.keeps_layout (fun ps => snd (fst (base_step c o ps)))) ->
    (forall o, Ema.keeps_layout (fun ps => snd (base_zero_grad o ps))) ->
    Ema.params_well_shaped model0 ->
    Ema.Reachable base_step base_zero_grad optimizer model0 decay s ->
    Ema.layout (Ema.ema_model s) = Ema.layout (Ema.model s)
    /\ snd (Ema.update_ema_parameters s) = Py.ok tt
    /\ forall c loss,
        snd (base_step c (Ema.base_optimizer s) (Ema.model s)) = Py.ok loss ->
        snd (Ema.step base_step c s) = Py.ok loss.
Proof.
  intros O Closure base_step base_zero_grad optimizer model0 decay s
         Hbs Hzg Hw Hreach.
  destruct (reachable_layout_invariant O Closure base_step base_zero_grad
              Hbs Hzg optimizer model0 decay s Hw Hreach) as (Hl & He & Hp).
  split; [exact Hl|]. split.
  - unfold Ema.update_ema_parameters.
    now rewrite (update_loop_closed_form (Ema.ema_decay s) _ _ Hl Hp).
  - intros c loss Hbase. unfold Ema.step.
    destruct (Hbs c (Ema.base_optimizer s) (Ema.model s)) as [Kl Kw].
    destruct (base_step c (Ema.base_optimizer s) (Ema.model s))
      as [[o' m'] r]. cbn [fst snd] in *. subst r.
    unfold Ema.update_ema_parameters.
    cbn [Ema.ema_decay Ema.ema_model Ema.model Ema.base_optimizer].
    rewrite (update_loop_closed_form (Ema.ema_decay s) (Ema.ema_model s) m');
      [reflexivity | now rewrite Kl | now apply Kw].
Qed.

Lemma ema_update_never_raises_witness :
  snd (Ema.update_ema_parameters
         (Ema.run Examples.descent_step Examples.keep_grad (Ema.OpSwap unit)
                  (Ema.run Examples.descent_step Examples.keep_grad
                           (Ema.OpStep (Some tt)) Examples.ema_state)))
  = Py.ok tt.
Proof.
  exact (proj1 (proj2 (ema_update_never_raises
                         unit unit Examples.descent_step Examples.keep_grad
                         tt Examples.weights (1 # 2)%Q _
                         descent_step_keeps_layout keep_grad_keeps_layout
                         weights_well_shaped example_reachable))).
Defined.





(** X10.  For a wrapper with as many shadow as trainable parameters, one
    swap puts the data of the shadow parameters into the trainable ones and
    the data of the trainable parameters into the shadow ones, position by
    position; the [requires_grad] flags of both stay where they were, and
    the optimizer and the decay are untouched. *)
Theorem swap_exchanges_data :
  forall (O : Type) (s : Ema.EMAOptimizer O),
    length (Ema.ema_model s) = length (Ema.model s) ->
    let s' := fst (Ema.swap_parameters s) in
    map Ema.pdata (Ema.model s') = map Ema.pdata (Ema.ema_model s)
    /\ map Ema.pdata (Ema.ema_model s') = map Ema.pdata (Ema.model s)
    /\ map Ema.requires_grad (Ema.model s')
       = map Ema.requires_grad (Ema.model s)
    /\ map Ema.requires_grad (Ema.ema_model s')
       = map Ema.requires_grad (Ema.ema_model s)
    /\ Ema.base_optimizer s' = Ema.base_optimizer s
    /\ Ema.ema_decay s' = Ema.ema_decay s.
Proof.
  intros O s Hl. unfold Ema.swap_parameters.
  destruct (swap_loop_exchanges _ _ Hl) as (I1 & I2 & I3 & I4).
  destruct (Ema.swap_loop (Ema.ema_model s) (Ema.model s)) as [e' m'].
  cbn [fst snd Ema.model Ema.ema_model Ema.base_optimizer Ema.ema_decay] in *.
  repeat split; assumption.
Qed.

Lemma swap_exchanges_data_witness :
  length (Ema.ema_model Examples.ema_state)
  = length (Ema.model Examples.ema_state)
  /\ map Ema.pdata (Ema.model (fst (Ema.swap_parameters Examples.ema_state)))
     = map Ema.pdata (Ema.ema_model Examples.ema_state)
  /\ map Ema.requires_grad
         (Ema.model (fst (Ema.swap_parameters Examples.ema_state)))
     = [true].
Proof.
  destruct (swap_exchanges_data unit Examples.ema_state eq_refl)
    as (A & _ & B & _).
  split; [reflexivity|]. split; [exact A | exact B].
Defined.

(** ** Saving and loading the EMA optimizer *)

(** X11.  [load_state_dict] applied to what [state_dict] saved hands the
    saved optimizer state to the base optimizer and the saved shadow to the
    shadow module, in that order.  The decay is not part of the saved state
    and the trainable parameters are not touched: the receiver keeps its
    own. *)
Theorem load_state_dict_of_state_dict :
  forall (O V : Type)
         (base_state_dict : O -> V)
         (base_load_state_dict : V -> O -> O * Py.Result unit)
         (module_state_dict : list Ema.Param -> V)
         (module_load_state_dict :
            V -> list Ema.Param -> list Ema.Param * Py.Result unit)
         (saved receiver : Ema.EMAOptimizer O)
         (o' : O) (shadow' : list Ema.Param),
    base_load_state_dict (base_state_dict (Ema.base_optimizer saved))
                         (Ema.base_optimizer receiver)
    = (o', Py.ok tt) ->
    module_load_state_dict (module_state_dict (Ema.ema_model saved))
                           (Ema.ema_model receiver)
    = (shadow', Py.ok tt) ->
    Persist.load_state_dict
      base_load_state_dict module_load_state_dict
      (Persist.state_dict base_state_dict module_state_dict saved) receiver
    = (Ema.mkEMA o' (Ema.ema_decay receiver) (Ema.model receiver) shadow',
       inl tt).
Proof.
  intros O V base_state_dict base_load_state_dict module_state_dict
         module_load_state_dict saved receiver o' shadow' Hbase Hmod.
  unfold Persist.load_state_dict, Persist.state_dict.
  cbn [Persist.lookup String.eqb Ascii.eqb Bool.eqb].
  rewrite Hbase. cbn [Ema.ema_model]. rewrite Hmod. reflexivity.
Qed.

Lemma load_state_dict_of_state_dict_witness :
  Persist.load_state_dict
    PersistExamples.base_load_state_dict
    PersistExamples.module_load_state_dict
    (Persist.state_dict PersistExamples.base_state_dict
                        PersistExamples.module_state_dict
                        PersistExamples.other_state)
    Examples.ema_state
  = (Ema.mkEMA tt (1 # 2)%Q Examples.weights
               [Ema.mkParam (Torch.mkTensor [2]%nat [5; 6]%Q) false],
     inl tt).
Proof.
  exact (load_state_dict_of_state_dict
           unit (list Torch.Tensor)
           PersistExamples.base_state_dict
           PersistExamples.base_load_state_dict
           PersistExamples.module_state_dict
           PersistExamples.module_load_state_dict
           PersistExamples.other_state Examples.ema_state tt
           [Ema.mkParam (Torch.mkTensor [2]%nat [5; 6]%Q) false]
           eq_refl eq_refl).
Defined.

(** X12.  [load_state_dict] is not atomic.  A dictionary without the key
    ['optimizer'] raises [KeyError] and leaves the wrapper as it was; a
    dictionary with ['optimizer'] but without ['ema_model'] raises
    [KeyError] after the base optimizer has loaded its part.  In every case,
    failing or not, the trainable parameters and the decay are unchanged. *)
Theorem load_state_dict_missing_key :
  forall (O V : Type)
         (base_load_state_dict : V -> O -> O * Py.Result unit)
         (module_load_state_dict :
            V -> list Ema.Param -> list Ema.Param * Py.Result unit)
         (d : Persist.Dict V) (s : Ema.EMAOptimizer O),
    (Persist.lookup "optimizer" d = None ->
     Persist.load_state_dict base_load_state_dict module_load_state_dict d s
     = (s, inr (Persist.KeyError "optimizer")))
    /\ (forall v o',
           Persist.lookup "optimizer" d = Some v ->
           base_load_state_dict v (Ema.base_optimizer s) = (o', Py.ok tt) ->
           Persist.lookup "ema_model" d = None ->
           Persist.load_state_dict base_load_state_dict
                                   module_load_state_dict d s
           = (Ema.mkEMA o' (Ema.ema_decay s) (Ema.model s) (Ema.ema_model s),
              inr (Persist.KeyError "ema_model")))
    /\ Ema.model (fst (Persist.load_state_dict
                         base_load_state_dict module_load_state_dict d s))
       = Ema.model s
    /\ Ema.ema_decay (fst (Persist.load_state_dict
                             base_load_state_dict module_load_state_dict d s))
       = Ema.ema_decay s.
Proof.
  intros O V base_load_state_dict module_load_state_dict d s.
  unfold Persist.load_state_dict. repeat split.
  - now intros ->.
  - intros v o' -> Hb ->. now rewrite Hb.
  - destruct (Persist.lookup "optimizer" d) as [v|]; [|now destruct s].
    destruct (base_load_state_dict v (Ema.base_optimizer s)) as [o' [u|e]];
      [|reflexivity].
    destruct (Persist.lookup "ema_model" d) as [w|]; [|reflexivity].
    cbn [Ema.ema_model].
    now destruct (module_load_state_dict w (Ema.ema_model s)).
  - destruct (Persist.lookup "optimizer" d) as [v|]; [|now destruct s].
    destruct (base_load_state_dict v (Ema.base_optimizer s)) as [o' [u|e]];
      [|reflexivity].
    destruct (Persist.lookup "ema_model" d) as [w|]; [|reflexivity].
    cbn [Ema.ema_model].
    now destruct (module_load_state_dict w (Ema.ema_model s)).
Qed.

Lemma load_state_dict_missing_key_witness :
  Persist.load_state_dict
    PersistExamples.base_load_state_dict
    PersistExamples.module_load_state_dict
    [("ema_model"%string, [Torch.mkTensor [2]%nat [5; 6]%Q])]
    Examples.ema_state
  = (Examples.ema_state, inr (Persist.KeyError "optimizer"))
  /\ Persist.load_state_dict
       PersistExamples.base_load_state_dict
       PersistExamples.module_load_state_dict
       [("optimizer"%string, @nil Torch.Tensor)]
       Examples.ema_state
     = (Examples.ema_state, inr (Persist.KeyError "ema_model")).
Proof.
  destruct (load_state_dict_missing_key
              unit (list Torch.Tensor)
              PersistExamples.base_load_state_dict
              PersistExamples.module_load_state_dict
              [("ema_model"%string, [Torch.mkTensor [2]%nat [5; 6]%Q])]
              Examples.ema_state) as (A & _).
  destruct (load_state_dict_missing_key
              unit (list Torch.Tensor)
              PersistExamples.base_load_state_dict
              PersistExamples.module_load_state_dict
              [("optimizer"%string, @nil Torch.Tensor)]
              Examples.ema_state) as (_ & B & _).
  split; [exact (A eq_refl)|].
  exact (B [] tt eq_refl eq_refl eq_refl).
Defined.

(** ** Sampling ranges, [predict] and re-stacking *)

Section ManagerMoreFacts.
Import Py Torch Data Manager.

Lemma range_up_spec (T : Z) :
  range_list (Nn.sampling_range T)
  = map (fun k => Z.of_nat k + 1) (seq 0 (Z.to_nat T)).
Proof.
  unfold Nn.sampling_range, range_list, range2, range_len;
    cbn [start stop step].
  destruct (Z.ltb_spec 0 1) as [_|]; [|lia].
  destruct (Z.ltb_spec 1 (T + 1)) as [HT|HT].
  - rewrite Z.div_1_r.
    replace (Z.to_nat (T + 1 - 1 - 1 + 1)) with (Z.to_nat T) by lia.
    apply map_ext. intros k. lia.
  - replace (Z.to_nat T) with 0%nat by lia. reflexivity.
Qed.

Lemma rev_count_up (n : nat) :
  rev (map (fun k => Z.of_nat k + 1) (seq 0 n))
  = map (fun k => Z.of_nat n - Z.of_nat k) (seq 0 n).
Proof.
  induction n as [|n IH]; [reflexivity|].
  rewrite seq_S at 1. rewrite map_app, rev_app_distr. cbn [map rev app].
  rewrite IH. cbn [seq map]. f_equal; [lia|].
  rewrite <- seq_shift, map_map. apply map_ext. intros k. lia.
Qed.

Lemma getitem_cases {A} (l : list A) (i : Z) :
  (exists a, getitem l i = ok a) \/ getitem l i = raise IndexError.
Proof.
  unfold getitem.
  destruct ((0 <=? (if i <? 0 then i + Z.of_nat (length l) else i)) &&
            ((if i <? 0 then i + Z.of_nat (length l) else i)
             <? Z.of_nat (length l)))%bool; [|now right].
  destruct (nth_error l _); [left; eauto | now right].
Qed.


End ManagerMoreFacts.

(** X13.  With the explicit range [range(n, 0, -1)] the loop of [sampling]
    runs exactly [n] steps, for [i = n, n-1, ..., 1] in this order; and
    this descending range is [DiffusionModule.sampling_range] (the
    ascending [range(1, time_steps + 1)]) read backwards. *)
Theorem explicit_descending_range_visits_every_step :
  forall (time_steps : Z) (n : nat),
    length (Manager.sampling_indices
              time_steps (Some (Py.mkRange (Z.of_nat n) 0 (-1)))) = n
    /\ (forall k, (k < n)%nat ->
                  nth k (Manager.sampling_indices
                           time_steps (Some (Py.mkRange (Z.of_nat n) 0 (-1))))
                      0
                  = Z.of_nat n - Z.of_nat k)
    /\ Manager.sampling_indices
         time_steps (Some (Py.mkRange (Z.of_nat n) 0 (-1)))
       = rev (Py.range_list (Nn.sampling_range (Z.of_nat n))).
Proof.
  intros time_steps n. rewrite sampling_indices_explicit_descending.
  split; [now rewrite length_map, length_seq|]. split.
  - intros k Hk.
    rewrite (nth_indep _ 0 ((fun k => Z.of_nat n - Z.of_nat k) 0%nat))
      by (now rewrite length_map, length_seq).
    rewrite (map_nth (fun k => Z.of_nat n - Z.of_nat k)), seq_nth by exact Hk.
    reflexivity.
  - rewrite range_up_spec, Nat2Z.id. symmetry. apply rev_count_up.
Qed.

(** X14.  [DiffusionModule.sampling_range] counts upward from 1 to
    [time_steps]: it has [time_steps] entries when [time_steps] is positive,
    entry [k] is [k + 1], and it is empty when [time_steps] is zero or
    negative. *)
Theorem module_sampling_range_counts_up :
  forall (time_steps : Z),
    length (Py.range_list (Nn.sampling_range time_steps))
    = Z.to_nat time_steps
    /\ (forall k, (k < Z.to_nat time_steps)%nat ->
                  nth k (Py.range_list (Nn.sampling_range time_steps)) 0
                  = Z.of_nat k + 1)
    /\ (time_steps <= 0 ->
        Py.range_list (Nn.sampling_range time_steps) = []).
Proof.
  intros time_steps. rewrite range_up_spec. split; [|split].
  - now rewrite length_map, length_seq.
  - intros k Hk.
    rewrite (nth_indep _ 0 ((fun k => Z.of_nat k + 1) 0%nat))
      by (now rewrite length_map, length_seq).
    rewrite (map_nth (fun k => Z.of_nat k + 1)), seq_nth by exact Hk.
    reflexivity.
  - intros Hle. replace (Z.to_nat time_steps) with 0%nat by lia. reflexivity.
Qed.

Lemma module_sampling_range_counts_up_witness :
  Py.range_list (Nn.sampling_range 4) = [1; 2; 3; 4]
  /\ Py.range_list (Nn.sampling_range (-2)) = [].
Proof.
  split.
  - reflexivity.
  - exact (proj2 (proj2 (module_sampling_range_counts_up (-2)))
                 ltac:(lia)).
Defined.

Lemma explicit_descending_range_visits_every_step_witness :
  Manager.sampling_indices 1000 (Some (Py.mkRange (Z.of_nat 3) 0 (-1)))
  = rev (Py.range_list (Nn.sampling_range (Z.of_nat 3)))
  /\ nth 1 (Manager.sampling_indices
              1000 (Some (Py.mkRange (Z.of_nat 3) 0 (-1)))) 0
     = Z.of_nat 3 - Z.of_nat 1.
Proof.
  destruct (explicit_descending_range_visits_every_step 1000 3)
    as (_ & Hnth & Hrev).
  split; [exact Hrev|]. apply Hnth. lia.
Defined.

(** A successful [predict] is a successful [sampling] of the seed. *)
Lemma predict_sampling_result :
  forall (time_steps : Z)
         (step : Data.DiffusionData -> Z -> Py.Result Torch.Tensor)
         (randn : Torch.Tensor) (num_images : Z)
         (image_size : Manager.ImageSize)
         (condition noises : option Torch.Tensor) (out : list Torch.Tensor),
    Manager.predict time_steps step randn num_images image_size
                    condition noises = Py.ok out ->
    Manager.sampling time_steps step num_images
                     (match noises with None => randn | Some n => n end)
                     condition None = Py.ok out.
Proof.
  intros time_steps step randn num_images image_size condition noises out.
  unfold Manager.predict.
  destruct (Py.getitem (Manager.format_image_size image_size) 0) as [s0|];
    [|discriminate]. cbn [Py.bind].
  destruct (0 <? s0); [|discriminate].
  destruct (Py.getitem (Manager.format_image_size image_size) 1) as [s1|];
    [|discriminate]. cbn [Py.bind Py.ok].
  destruct (0 <? s1); [|discriminate].
  destruct (0 <? num_images); [|discriminate]. cbn [negb].
  destruct (Torch.shape0 _) as [b|]; [|discriminate]. cbn [Py.bind].
  destruct (num_images <=? Z.of_nat b); [|discriminate]. cbn [negb].
  unfold Manager.wrap_prediction.
  destruct (Manager.sampling _ _ _ _ _ _); [tauto | discriminate].
Qed.



(** X16.  For [time_steps >= 1] the result of [predict] does not depend on
    [sampling_step]: the network is never consulted, and a successful call
    returns the rows of the seed (the given noises, or the normal draw)
    unchanged. *)
Theorem predict_returns_the_seed :
  forall (time_steps : Z)
         (step step' : Data.DiffusionData -> Z -> Py.Result Torch.Tensor)
         (randn : Torch.Tensor) (num_images : Z)
         (image_size : Manager.ImageSize)
         (condition noises : option Torch.Tensor),
    1 <= time_steps ->
    Manager.predict time_steps step randn num_images image_size
                    condition noises
    = Manager.predict time_steps step' randn num_images image_size
                      condition noises
    /\ forall out,
        Manager.predict time_steps step randn num_images image_size
                        condition noises = Py.ok out ->
        Torch.iter (match noises with None => randn | Some n => n end)
        = Py.ok out.
Proof.
  intros time_steps step step' randn num_images image_size condition noises HT.
  assert (E : forall st imgs,
             Manager.sampling time_steps st num_images imgs condition None
             = Torch.iter imgs).
  { intros st imgs. unfold Manager.sampling, Manager.sampling_indices.
    now rewrite (range2_empty time_steps 1 HT). }
  split.
  - unfold Manager.predict. now rewrite !E.
  - intros out Hout.
    pose proof (predict_sampling_result time_steps step randn num_images
                  image_size condition noises out Hout) as Hs.
    now rewrite E in Hs.
Qed.

Lemma predict_returns_the_seed_witness :
  1 <= 1000
  /\ Manager.predict 1000 (fun _ _ => Py.raise Py.RuntimeError)
                     (Torch.mkTensor [] []) 2 (Manager.SizeTuple [1; 1; 1])
                     None (Some (Torch.mkTensor [2; 1; 1; 1]%nat [4; 5]%Q))
     = Manager.predict 1000 (fun da _ => Py.ok (Data.x da))
                       (Torch.mkTensor [] []) 2 (Manager.SizeTuple [1; 1; 1])
                       None (Some (Torch.mkTensor [2; 1; 1; 1]%nat [4; 5]%Q)).
Proof.
  split; [lia|].
  exact (proj1 (predict_returns_the_seed
                  1000 (fun _ _ => Py.raise Py.RuntimeError)
                  (fun da _ => Py.ok (Data.x da))
                  (Torch.mkTensor [] []) 2 (Manager.SizeTuple [1; 1; 1])
                  None (Some (Torch.mkTensor [2; 1; 1; 1]%nat [4; 5]%Q))
                  ltac:(lia))).
Defined.

Section RestackFacts.
Import Py Torch TorchOps Restack.

Lemma shape_eqb_refl (s : list nat) : shape_eqb s s = true.
Proof.
  induction s as [|n s IH]; [reflexivity|]. cbn [shape_eqb].
  now rewrite Nat.eqb_refl, IH.
Qed.

Lemma sum_of_ones {A} (f : A -> nat) (l : list A) :
  (forall a, In a l -> f a = 1%nat) ->
  fold_right Nat.add 0%nat (map f l) = length l.
Proof.
  induction l as [|a l IH]; intros H; [reflexivity|].
  cbn [map fold_right length]. rewrite (H a (or_introl eq_refl)), IH;
    [reflexivity|]. intros b Hb. apply H. now right.
Qed.

Lemma cat_uniform (rest : list nat) (parts : list Tensor) :
  parts <> [] ->
  Forall (fun p => shape p = (1%nat :: rest)) parts ->
  cat parts = ok (mkTensor (length parts :: rest) (concat (map data parts))).
Proof.
  intros Hne Hall. rewrite Forall_forall in Hall.
  destruct parts as [|p0 ps] eqn:E; [congruence|]. rewrite <- E in *.
  assert (Hs0 : shape p0 = (1%nat :: rest)).
  { apply Hall. rewrite E. now left. }
  assert (Hfa : forallb (fun p => match shape p with
                                  | [] => false
                                  | _ :: r => shape_eqb r rest
                                  end) parts = true).
  { apply forallb_forall. intros p Hp. rewrite (Hall p Hp).
    apply shape_eqb_refl. }
  assert (Hsum : fold_right Nat.add 0%nat
                            (map (fun p => hd 0%nat (shape p)) parts)
                 = length parts).
  { apply sum_of_ones. intros p Hp. now rewrite (Hall p Hp). }
  unfold cat. rewrite E at 1. rewrite Hs0, Hfa, Hsum. reflexivity.
Qed.

Lemma cat_rows (rest : list nat) (cs : list (list Q)) :
  cs <> [] ->
  cat (map (fun c => mkTensor (1%nat :: rest) c) cs)
  = ok (mkTensor (length cs :: rest) (concat cs)).
Proof.
  intros Hne. rewrite (cat_uniform rest).
  - rewrite length_map, map_map. cbn [data]. now rewrite map_id.
  - destruct cs; [congruence | discriminate].
  - apply Forall_forall. intros p [c [<- _]]%in_map_iff. reflexivity.
Qed.

End RestackFacts.

(** X17.  Re-stacking undoes the splitting at the end of [sampling]: for a
    well-shaped tensor with at least one row, [torch.cat] of the
    unsqueezed rows that iteration yields is the tensor itself, as [test]
    relies on; for a tensor without rows the list is empty and [torch.cat]
    raises. *)
Theorem restack_undoes_iteration :
  forall (b : nat) (rest : list nat) (d : list Q),
    TorchOps.well_shaped (Torch.mkTensor (b :: rest) d) ->
    exists rows,
      Torch.iter (Torch.mkTensor (b :: rest) d) = Py.ok rows
      /\ length rows = b
      /\ ((1 <= b)%nat ->
          Restack.restack rows = Py.ok (Torch.mkTensor (b :: rest) d))
      /\ (b = 0%nat -> Restack.restack rows = Py.raise Py.RuntimeError).
Proof.
  intros b rest d Hw. unfold TorchOps.well_shaped in Hw.
  cbn [Torch.data Torch.shape] in Hw.
  change (Torch.numel (b :: rest)) with (b * Torch.numel rest)%nat in Hw.
  eexists. split; [reflexivity|].
  split; [now rewrite length_map, chunks_length|]. split.
  - intros Hb. unfold Restack.restack. rewrite map_map.
    unfold Restack.unsqueeze0. cbn [Torch.shape Torch.data].
    rewrite cat_rows.
    + now rewrite chunks_length, concat_chunks by exact Hw.
    + destruct b; [lia | discriminate].
  - intros ->. reflexivity.
Qed.

Lemma restack_undoes_iteration_witness :
  TorchOps.well_shaped (Torch.mkTensor [2; 1; 2]%nat [1; 2; 3; 4]%Q)
  /\ exists rows,
      Torch.iter (Torch.mkTensor [2; 1; 2]%nat [1; 2; 3; 4]%Q) = Py.ok rows
      /\ Restack.restack rows
         = Py.ok (Torch.mkTensor [2; 1; 2]%nat [1; 2; 3; 4]%Q).
Proof.
  split; [reflexivity|].
  destruct (restack_undoes_iteration 2 [1; 2]%nat [1; 2; 3; 4]%Q eq_refl)
    as (rows & E & _ & H & _).
  exists rows. split; [exact E|]. apply H. lia.
Defined.

(** ** Which exceptions the SDE manager raises *)

Section ErrorFacts.
Import Py Torch TorchOps Data Space Sde.

Lemma mapM_error {A B} (P : PyError -> Prop) (f : A -> Result B)
      (xs : list A) (e : PyError) :
  (forall a e', f a = raise e' -> P e') -> mapM f xs = raise e -> P e.
Proof.
  intros Hf. induction xs as [|a xs IH]; cbn [mapM]; [discriminate|].
  destruct (f a) as [b|e'] eqn:Ea; cbn [bind].
  - destruct (mapM f xs) as [bs|e'']; cbn [bind]; [discriminate|].
    intros [= <-]. now apply IH.
  - intros [= <-]. now apply (Hf a).
Qed.

Lemma expand_dims_error (so : list nat) :
  forall ss d e, expand_dims so ss d = raise e -> e = RuntimeError.
Proof.
  induction so as [|o so IH]; intros [|s ss] d e; cbn [expand_dims];
    try (now intros [= <-]).
  destruct (Nat.eqb o s).
  - destruct (mapM (expand_dims so ss) (chunks o (numel so) d))
      as [parts|e'] eqn:Em; cbn [bind]; [discriminate|].
    intros [= <-].
    apply (mapM_error (fun e => e = RuntimeError) _ _ _
                      (fun a e' => IH ss a e') Em).
  - destruct (Nat.eqb o 1); [|now intros [= <-]].
    destruct (expand_dims so ss d) as [part|e'] eqn:Ep; cbn [bind];
      [discriminate|].
    intros [= <-]. exact (IH ss d e' Ep).
Qed.

Lemma expand_to_error (a : Tensor) (ss : list nat) (e : PyError) :
  expand_to a ss = raise e -> e = RuntimeError.
Proof.
  unfold expand_to. destruct (Nat.ltb _ _); [now intros [= <-]|].
  apply expand_dims_error.
Qed.

Lemma broadcast_rev_error (a : list nat) :
  forall b e, broadcast_rev a b = raise e -> e = RuntimeError.
Proof.
  induction a as [|m a IH]; intros [|n b] e; cbn [broadcast_rev];
    try discriminate.
  destruct (broadcast_rev a b) as [r|e'] eqn:Er; cbn [bind].
  - destruct (Nat.eqb m n); [discriminate|].
    destruct (Nat.eqb m 1); [discriminate|].
    destruct (Nat.eqb n 1); [discriminate|]. now intros [= <-].
  - intros [= <-]. exact (IH b e' Er).
Qed.

(** An element-wise operation raises nothing but [RuntimeError]. *)
Lemma binop_error (f : Q -> Q -> Q) (a b : Tensor) (e : PyError) :
  binop f a b = raise e -> e = RuntimeError.
Proof.
  unfold binop, broadcast_shapes, raise.
  destruct (broadcast_rev (rev (shape a)) (rev (shape b))) as [r|e'] eqn:Er;
    cbn [bind ok]; [|intros [= <-]; exact (broadcast_rev_error _ _ _ Er)].
  destruct (expand_to a (rev r)) as [da|e'] eqn:Ea; cbn [bind];
    [|intros [= <-]; exact (expand_to_error _ _ _ Ea)].
  destruct (expand_to b (rev r)) as [db|e'] eqn:Eb; cbn [bind];
    [discriminate | intros [= <-]; exact (expand_to_error _ _ _ Eb)].
Qed.

Lemma getitem_error {A} (l : list A) (i : Z) (e : PyError) :
  getitem l i = raise e -> e = IndexError.
Proof.
  destruct (getitem_cases l i) as [[a H] | H]; rewrite H;
    [discriminate | now intros [= <-]].
Qed.

Lemma get_index_from_list_error (vals : list Q) (t : list Z)
      (x_shape : list nat) (e : PyError) :
  _get_index_from_list vals t x_shape = raise e -> e = RuntimeError.
Proof.
  unfold _get_index_from_list, gather, raise.
  destruct (mapM (gather_at vals) t) as [v|e'] eqn:Em; cbn [bind].
  - unfold reshape. destruct (Nat.eqb _ _); [discriminate|].
    now intros [= <-].
  - intros [= <-].
    apply (mapM_error (fun e => e = RuntimeError) _ _ _) in Em; [exact Em|].
    intros i e'' Hi. destruct (gather_at_cases vals i) as [H | [v H]];
      rewrite H in Hi; [now injection Hi as <- | discriminate].
Qed.

Lemma unsqueeze3_tensor_error (a : Tensor) (e : PyError) :
  unsqueeze3_tensor a = raise e -> e = IndexError.
Proof.
  unfold unsqueeze3_tensor. destruct (shape a); [now intros [= <-]|].
  discriminate.
Qed.

Variable model : DiffusionData -> Tensor.
Variable sqrt : Q -> Q.
Variable fl : Q -> Q.
Variable rng : Rng.
Variable self : SDEManager.

(** What the constructor guarantees: a [VPSDE] comes with a beta space. *)
Hypothesis configured :
  is_VPSDE (sde self) = true -> beta_space self <> None.

Lemma forward_errors (data : DiffusionData) (e : PyError) :
  forward model sqrt self data = raise e ->
  e = RuntimeError \/ e = NotImplementedError.
Proof.
  unfold forward.
  destruct (is_SubVPSDE (sde self) || is_continous self && is_VPSDE (sde self))%bool.
  { intros H. left. exact (binop_error _ _ _ _ H). }
  destruct (is_VPSDE (sde self)) eqn:EVP.
  { destruct (beta_space self) as [bs|] eqn:Ebs.
    - intros H. left. exact (binop_error _ _ _ _ H).
    - exfalso. now apply configured. }
  destruct (is_continous self && is_VESDE (sde self))%bool; [discriminate|].
  destruct (is_VESDE (sde self)); [discriminate|].
  intros [= <-]. now right.
Qed.

Lemma sampling_step_errors (data : DiffusionData) (i : Z) (e : PyError) :
  sampling_step model sqrt fl rng self data i = raise e ->
  e = RuntimeError \/ e = IndexError \/ e = NotImplementedError.
Proof.
  pose proof (forward_errors data) as Hfw.
  unfold sampling_step, sampling_step_with_noise, raise.
  destruct (is_VESDE (sde self)).
  { unfold sampling_step_VESDE.
    repeat match goal with
           | |- context [bind ?m _] =>
               let E := fresh "E" in
               destruct m eqn:E; cbn [bind];
               [| intros [= <-];
                  first [ apply binop_error in E; tauto
                        | specialize (Hfw _ eq_refl); tauto
                        | apply (mapM_error (fun e => e = IndexError)) in E;
                          [tauto | intros ? ? Hg; exact (getitem_error _ _ _ Hg)] ]]
           end.
    unfold bind, ok. intros Hfin. inversion Hfin. }
  destruct (is_VPSDE (sde self)) eqn:EVP.
  { unfold sampling_step_VPSDE.
    destruct (beta_space self) as [bs|] eqn:Ebs;
      [|exfalso; now apply configured].
    unfold sample_betas.
    repeat match goal with
           | |- context [bind ?m _] =>
               let E := fresh "E" in
               destruct m eqn:E; cbn [bind];
               [| intros [= <-];
                  first [ apply binop_error in E; tauto
                        | specialize (Hfw _ eq_refl); tauto
                        | apply get_index_from_list_error in E; tauto
                        | apply unsqueeze3_tensor_error in E; tauto ]]
           end.
    unfold bind, ok. intros Hfin. inversion Hfin. }
  unfold sampling_step_reverse.
  destruct (discretize (sde self) (x data) (Data.t data)) as [f G].
  repeat match goal with
         | |- context [bind ?m _] =>
             let E := fresh "E" in
             destruct m eqn:E; cbn [bind];
             [| intros [= <-]; apply binop_error in E; tauto]
         end.
  unfold bind, ok. intros Hfin. inversion Hfin.
Qed.

End ErrorFacts.

(** X18.  On a manager built by the constructor, the assertion "Beta space
    is required for VPSDE." of [forward] and [sampling_step] never fails:
    [forward] raises nothing but [RuntimeError] (shapes that do not
    broadcast) and [NotImplementedError] (unsupported SDE), and
    [sampling_step] nothing but these and [IndexError]. *)
Theorem constructed_manager_never_fails_assertion :
  forall (sde0 : Sde.SDE) (time_steps : Z)
         (beta_space : option Space.BetaSpace) (is_continous : bool)
         (self : Sde.SDEManager),
    Sde.__init__ sde0 time_steps beta_space is_continous = Py.ok self ->
    forall (model : Data.DiffusionData -> Torch.Tensor) (sqrt fl : Q -> Q)
           (rng : Sde.Rng) (data : Data.DiffusionData) (i : Z) (e : Py.PyError),
      (Sde.forward model sqrt self data = Py.raise e ->
       e = Py.RuntimeError \/ e = Py.NotImplementedError)
      /\ (Sde.sampling_step model sqrt fl rng self data i = Py.raise e ->
          e = Py.RuntimeError \/ e = Py.IndexError
          \/ e = Py.NotImplementedError).
Proof.
  intros sde0 time_steps beta_space is_continous self Hinit.
  assert (Hconf : Sde.is_VPSDE (Sde.sde self) = true ->
                  Sde.beta_space self <> None).
  { unfold Sde.__init__ in Hinit. cbn [Sde.sde Sde.beta_space] in Hinit.
    destruct (Sde.is_VPSDE sde0) eqn:EVP; destruct beta_space as [bs|];
      cbn [andb] in Hinit; try discriminate Hinit;
      injection Hinit as <-; cbn [Sde.sde Sde.beta_space];
      congruence. }
  intros model sqrt fl rng data i e. split.
  - apply forward_errors. exact Hconf.
  - apply sampling_step_errors. exact Hconf.
Qed.

Lemma constructed_manager_never_fails_assertion_witness :
  Sde.__init__ Examples.vp_sde 1000
               (Some (Space.mkBetaSpace [1 # 10; 2 # 10]%Q)) false
  = Py.ok Examples.vp_manager
  /\ forall e,
      Sde.forward Examples.const_model Examples.exact_sqrt
                  Examples.vp_manager Examples.ve_data = Py.raise e ->
      e = Py.RuntimeError \/ e = Py.NotImplementedError.
Proof.
  split; [reflexivity|]. intros e.
  exact (proj1 (constructed_manager_never_fails_assertion
                  Examples.vp_sde 1000
                  (Some (Space.mkBetaSpace [1 # 10; 2 # 10]%Q)) false
                  Examples.vp_manager eq_refl
                  Examples.const_model Examples.exact_sqrt Fp.float32 Examples.ones_rng
                  Examples.ve_data 0 e)).
Defined.

(** X19.  [forward] raises [NotImplementedError] exactly when the SDE is
    none of [SubVPSDE], [VPSDE] and [VESDE]; the continuity flag plays no
    part in that. *)
Theorem forward_unsupported_iff :
  forall (model : Data.DiffusionData -> Torch.Tensor) (sqrt : Q -> Q)
         (self : Sde.SDEManager) (data : Data.DiffusionData),
    Sde.forward model sqrt self data = Py.raise Py.NotImplementedError
    <-> (Sde.is_SubVPSDE (Sde.sde self) = false
         /\ Sde.is_VPSDE (Sde.sde self) = false
         /\ Sde.is_VESDE (Sde.sde self) = false).
Proof.
  intros model sqrt self data. unfold Sde.forward. split.
  - destruct (Sde.is_SubVPSDE (Sde.sde self)); cbn [orb].
    { intros H. apply binop_error in H. discriminate H. }
    destruct (Sde.is_VPSDE (Sde.sde self)).
    { rewrite andb_true_r. destruct (Sde.is_continous self).
      - intros H. apply binop_error in H. discriminate H.
      - destruct (Sde.beta_space self); [|discriminate].
        intros H. apply binop_error in H. discriminate H. }
    rewrite andb_false_r.
    destruct (Sde.is_VESDE (Sde.sde self)).
    { rewrite andb_true_r. destruct (Sde.is_continous self); discriminate. }
    tauto.
  - intros (-> & -> & ->). rewrite !andb_false_r. reflexivity.
Qed.

(** ** Forward diffusion and the fallback step, entry by entry *)

(** X20.  The two results of [forward_diffusion] are tied together without
    the hidden draw: for a four-dimensional batch and standard deviations
    different from zero, the returned target is the draw divided by the
    standard deviation, so the target times the squared standard deviation
    plus the mean is the returned noisy sample, entry by entry. *)
Theorem forward_diffusion_round_trip :
  forall (rng : Sde.Rng) (self : Sde.SDEManager) (data : Torch.Tensor)
         (condition : option Torch.Tensor) (t0 : list Q)
         (B C H W : nat),
    let mean := fst (Sde.marginal_prob (Sde.sde self) data t0) in
    let std := snd (Sde.marginal_prob (Sde.sde self) data t0) in
    let z := Sde.randn_like rng data in
    Torch.shape data = [B; C; H; W] ->
    Torch.shape mean = Torch.shape data -> TorchOps.well_shaped mean ->
    length std = B ->
    Forall (fun v => ~ (v == 0)%Q) std ->
    Torch.shape z = Torch.shape data -> TorchOps.well_shaped z ->
    exists d noise,
      Sde.forward_diffusion rng self data condition (Some t0)
      = Py.ok (d, noise)
      /\ Data.t d = t0
      /\ forall b j,
          (b < B)%nat -> (j < Torch.numel [C; H; W])%nat ->
          let k := (b * Torch.numel [C; H; W] + j)%nat in
          (nth k (Torch.data noise) 0 * nth b std 0 * nth b std 0
           + nth k (Torch.data mean) 0
           == nth k (Torch.data (Data.x d)) 0)%Q.
Proof.
  intros rng self data condition t0 B C H W mean std z
         Hd Hm Hmw Hstd Hnz Hz Hzw.
  set (n := Torch.numel [C; H; W]).
  assert (Lm : length (Torch.data mean) = (B * n)%nat).
  { unfold TorchOps.well_shaped in Hmw. now rewrite Hmw, Hm, Hd. }
  assert (Lz : length (Torch.data z) = (B * n)%nat).
  { unfold TorchOps.well_shaped in Hzw. now rewrite Hzw, Hz, Hd. }
  assert (Hzs : Torch.shape z = [length std; C; H; W])
    by (now rewrite Hz, Hd, Hstd).
  unfold Sde.forward_diffusion. rewrite bind_ok. fold z.
  destruct (Sde.marginal_prob (Sde.sde self) data t0) as [mean0 std0] eqn:Emp.
  cbn [fst snd] in mean, std. subst mean std.
  rewrite (binop_rows_l Qmult z std0 C H W Hzs Hzw), bind_ok. fold n.
  rewrite binop_same_shape.
  2:{ cbn [Torch.shape]. now rewrite Hm, <- Hz, Hzs. }
  2:{ exact Hmw. }
  2:{ unfold TorchOps.well_shaped. cbn [Torch.data Torch.shape].
      rewrite zip_with_length_min, spread_length, Hstd, Lz, Nat.min_id.
      reflexivity. }
  rewrite bind_ok.
  rewrite (binop_rows_r Qdiv z std0 C H W Hzs Hzw), bind_ok. fold n.
  eexists. eexists. split; [reflexivity|].
  cbn [Data.DiffusionData2 Data.t Data.x Torch.data]. split; [reflexivity|].
  intros b j Hb Hj.
  assert (Hk : (b * n + j < B * n)%nat) by nia.
  rewrite !zip_with_nth;
    rewrite ?zip_with_length_min, ?spread_length, ?Hstd, ?Lm, ?Lz,
      ?Nat.min_id; try lia.
  rewrite !spread_nth by (rewrite ?Hstd; assumption).
  assert (Hsb : ~ (nth b std0 0 == 0)%Q).
  { apply (Forall_nth_lt (fun v => ~ (v == 0)%Q) std0 0%Q b Hnz). lia. }
  assert (Hdiv : forall a s : Q, ~ (s == 0)%Q -> (a / s * s == a)%Q).
  { intros a s Hs. unfold Qdiv.
    rewrite <- Qmult_assoc, (Qmult_comm (/ s)), Qmult_inv_r by exact Hs.
    ring. }
  rewrite (Hdiv _ _ Hsb).
  generalize (nth (b * n + j) (Torch.data z) 0%Q),
    (nth (b * n + j) (Torch.data mean0) 0%Q), (nth b std0 0%Q).
  intros q1 q2 q3. ring.
Qed.

Lemma forward_diffusion_round_trip_witness :
  exists d noise,
    Sde.forward_diffusion Examples.ones_rng Examples.vp_manager
                          (Examples.image 5) None (Some [0%Q])
    = Py.ok (d, noise)
    /\ (nth 0 (Torch.data noise) 0 * (3 # 5) * (3 # 5) + 5 * (4 # 5)
        == nth 0 (Torch.data (Data.x d)) 0)%Q.
Proof.
  assert (Hnz : Forall (fun v => ~ (v == 0)%Q) [3 # 5]%Q).
  { repeat constructor. discriminate. }
  destruct (forward_diffusion_round_trip
              Examples.ones_rng Examples.vp_manager (Examples.image 5)
              None [0%Q] 1 1 1 1
              eq_refl eq_refl eq_refl eq_refl Hnz eq_refl eq_refl)
    as (d & noise & E & _ & Hrt).
  exists d, noise. split; [exact E|].
  exact (Hrt 0%nat 0%nat ltac:(simpl; lia) ltac:(simpl; lia)).
Defined.

(** X21.  The fallback step of [sampling_step] (an SDE that is neither
    [VESDE] nor [VPSDE]) adds no noise: the diffusion coefficient is
    zeroed before the draw is scaled, so on a four-dimensional batch the
    new sample equals the returned prediction entry by entry, whatever the
    generator draws, and both are [x - (f - G^2 * model(x) / 2)]. *)
Theorem reverse_step_adds_no_noise :
  forall (model : Data.DiffusionData -> Torch.Tensor) (sqrt fl : Q -> Q)
         (rng : Sde.Rng) (self : Sde.SDEManager)
         (data : Data.DiffusionData) (i : Z) (B C H W : nat),
    let f := fst (Sde.discretize (Sde.sde self) (Data.x data) (Data.t data)) in
    let G := snd (Sde.discretize (Sde.sde self) (Data.x data) (Data.t data)) in
    let z := Sde.randn_like rng (Data.x data) in
    Sde.is_VESDE (Sde.sde self) = false ->
    Sde.is_VPSDE (Sde.sde self) = false ->
    Torch.shape (Data.x data) = [B; C; H; W] ->
    TorchOps.well_shaped (Data.x data) ->
    Torch.shape f = [B; C; H; W] -> TorchOps.well_shaped f ->
    length G = B ->
    Torch.shape (model data) = [B; C; H; W] ->
    TorchOps.well_shaped (model data) ->
    Torch.shape z = [B; C; H; W] -> TorchOps.well_shaped z ->
    exists y x_mean,
      Sde.sampling_step_with_noise model sqrt fl rng self data i
      = Py.ok (y, x_mean)
      /\ Torch.shape y = [B; C; H; W]
      /\ forall b j,
          (b < B)%nat -> (j < Torch.numel [C; H; W])%nat ->
          let k := (b * Torch.numel [C; H; W] + j)%nat in
          (nth k (Torch.data y) 0 == nth k (Torch.data x_mean) 0)%Q
          /\ (nth k (Torch.data x_mean) 0
              == nth k (Torch.data (Data.x data)) 0
                 - (nth k (Torch.data f) 0
                    - nth b G 0 ^ 2 * nth k (Torch.data (model data)) 0
                      * (1 # 2)))%Q.
Proof.
  intros model sqrt fl rng self data i B C H W f G z
         HVE HVP Hx Hxw Hf Hfw HG Hm Hmw Hz Hzw.
  set (n := Torch.numel [C; H; W]).
  assert (Lx : length (Torch.data (Data.x data)) = (B * n)%nat).
  { unfold TorchOps.well_shaped in Hxw. now rewrite Hxw, Hx. }
  assert (Lf : length (Torch.data f) = (B * n)%nat).
  { unfold TorchOps.well_shaped in Hfw. now rewrite Hfw, Hf. }
  assert (Lm : length (Torch.data (model data)) = (B * n)%nat).
  { unfold TorchOps.well_shaped in Hmw. now rewrite Hmw, Hm. }
  assert (Lz : length (Torch.data z) = (B * n)%nat).
  { unfold TorchOps.well_shaped in Hzw. now rewrite Hzw, Hz. }
  unfold Sde.sampling_step_with_noise. rewrite HVE, HVP.
  unfold Sde.sampling_step_reverse. fold z.
  destruct (Sde.discretize (Sde.sde self) (Data.x data) (Data.t data))
    as [f0 G0] eqn:Ed.
  cbn [fst snd] in f, G. subst f G.
  set (G2 := map (fun v => v ^ 2)%Q G0).
  set (Gz := map (fun _ : Q => 0%Q) G0).
  assert (LG2 : length G2 = B) by (unfold G2; now rewrite length_map).
  assert (LGz : length Gz = B) by (unfold Gz; now rewrite length_map).
  rewrite (binop_rows_l Qmult (model data) G2 C H W), bind_ok;
    [|now rewrite LG2|exact Hmw].
  fold n.
  rewrite binop_same_shape, bind_ok; cycle 1.
  { cbn [TorchOps.tmap Torch.shape]. now rewrite Hf, LG2. }
  { exact Hfw. }
  { unfold TorchOps.well_shaped. cbn [TorchOps.tmap Torch.data Torch.shape].
    rewrite length_map, zip_with_length_min, spread_length, LG2, Lm,
      Nat.min_id.
    reflexivity. }
  rewrite binop_same_shape, bind_ok; cycle 1.
  { cbn [Torch.shape]. now rewrite Hf, Hx. }
  { exact Hxw. }
  { unfold TorchOps.well_shaped. cbn [TorchOps.tmap Torch.data Torch.shape].
    rewrite zip_with_length_min, length_map, zip_with_length_min,
      spread_length, LG2, Lm, Lf, Hf, !Nat.min_id.
    reflexivity. }
  rewrite (binop_rows_l Qmult z Gz C H W), bind_ok;
    [|now rewrite LGz|exact Hzw].
  fold n.
  rewrite binop_same_shape, bind_ok; cycle 1.
  { cbn [Torch.shape]. now rewrite Hx, LGz. }
  { unfold TorchOps.well_shaped. cbn [TorchOps.tmap Torch.data Torch.shape].
    rewrite zip_with_length_min, zip_with_length_min, length_map,
      zip_with_length_min, spread_length, LG2, Lm, Lf, Lx, Hx, !Nat.min_id.
    reflexivity. }
  { unfold TorchOps.well_shaped. cbn [Torch.data Torch.shape].
    rewrite zip_with_length_min, spread_length, LGz, Lz, Nat.min_id.
    reflexivity. }
  eexists. eexists. split; [reflexivity|].
  cbn [Torch.shape Torch.data TorchOps.tmap]. split; [exact Hx|].
  intros b j Hb Hj.
  assert (Hk : (b * n + j < B * n)%nat) by nia.
  assert (Lg2 : length (TorchOps.zip_with Qmult (Claims.spread G2 n)
                                 (Torch.data (model data))) = (B * n)%nat).
  { now rewrite zip_with_length_min, spread_length, LG2, Lm, Nat.min_id. }
  assert (Lf' : length
                  (TorchOps.zip_with Qminus (Torch.data f0)
                     (map (fun v => v * (1 # 2))%Q
                        (TorchOps.zip_with Qmult (Claims.spread G2 n)
                           (Torch.data (model data))))) = (B * n)%nat).
  { now rewrite zip_with_length_min, length_map, Lg2, Lf, Nat.min_id. }
  assert (Lxm : length
                  (TorchOps.zip_with Qminus (Torch.data (Data.x data))
                     (TorchOps.zip_with Qminus (Torch.data f0)
                        (map (fun v => v * (1 # 2))%Q
                           (TorchOps.zip_with Qmult (Claims.spread G2 n)
                              (Torch.data (model data))))))
                = (B * n)%nat).
  { now rewrite zip_with_length_min, Lf', Lx, Nat.min_id. }
  assert (Lgz : length (TorchOps.zip_with Qmult (Claims.spread Gz n) (Torch.data z))
                = (B * n)%nat).
  { now rewrite zip_with_length_min, spread_length, LGz, Lz, Nat.min_id. }
  assert (Exm :
            (nth (b * n + j)
                 (TorchOps.zip_with Qminus (Torch.data (Data.x data))
                    (TorchOps.zip_with Qminus (Torch.data f0)
                       (map (fun v => v * (1 # 2))%Q
                          (TorchOps.zip_with Qmult (Claims.spread G2 n)
                             (Torch.data (model data)))))) 0
             == nth (b * n + j) (Torch.data (Data.x data)) 0
                - (nth (b * n + j) (Torch.data f0) 0
                   - nth b G0 0 ^ 2
                     * nth (b * n + j) (Torch.data (model data)) 0
                     * (1 # 2)))%Q).
  { rewrite zip_with_nth by (rewrite ?Lf', ?Lx; lia).
    rewrite zip_with_nth by (rewrite ?length_map, ?Lg2, ?Lf; lia).
    rewrite (map_nth_lt (fun v => v * (1 # 2))%Q _ _ 0%Q)
      by (rewrite Lg2; lia).
    rewrite zip_with_nth
      by (rewrite ?spread_length, ?LG2, ?Lm; lia).
    rewrite spread_nth by (rewrite ?LG2; assumption).
    unfold G2. rewrite (map_nth_lt (fun v => v ^ 2)%Q G0 b 0%Q) by lia.
    reflexivity. }
  split; [|exact Exm].
  rewrite (zip_with_nth Qplus) by (rewrite ?Lgz, ?Lxm; lia).
  rewrite (zip_with_nth Qmult (Claims.spread Gz n) (Torch.data z))
    by (rewrite ?spread_length, ?LGz, ?Lz; lia).
  rewrite spread_nth by (rewrite ?LGz; assumption).
  unfold Gz. rewrite (map_nth_lt (fun _ : Q => 0%Q) G0 b 0%Q) by lia.
  generalize (nth (b * n + j)
                (TorchOps.zip_with Qminus (Torch.data (Data.x data))
                   (TorchOps.zip_with Qminus (Torch.data f0)
                      (map (fun v => v * (1 # 2))%Q
                         (TorchOps.zip_with Qmult (Claims.spread G2 n)
                            (Torch.data (model data)))))) 0%Q).
  intros q. ring.
Qed.

Lemma reverse_step_adds_no_noise_witness :
  exists y x_mean,
    Sde.sampling_step_with_noise Examples.const_model Examples.exact_sqrt Fp.float32
      Examples.ones_rng StepExamples.plain_manager StepExamples.plain_data 7
    = Py.ok (y, x_mean)
    /\ (nth 0 (Torch.data y) 0 == nth 0 (Torch.data x_mean) 0)%Q
    /\ (nth 0 (Torch.data x_mean) 0
        == 5 - (5 * (1 # 10) - 2 ^ 2 * 2 * (1 # 2)))%Q.
Proof.
  destruct (reverse_step_adds_no_noise
              Examples.const_model Examples.exact_sqrt Fp.float32 Examples.ones_rng
              StepExamples.plain_manager StepExamples.plain_data 7
              1 1 1 1
              eq_refl eq_refl eq_refl eq_refl eq_refl eq_refl eq_refl
              eq_refl eq_refl eq_refl eq_refl)
    as (y & xm & E & _ & Hk).
  exists y, xm. split; [exact E|].
  exact (Hk 0%nat 0%nat ltac:(simpl; lia) ltac:(simpl; lia)).
Defined.

(** The fallback step on the example: 5 - (1/2 - 4) = 17/2, returned as
    the sample and as the prediction. *)
Example reverse_step_example :
  Sde.sampling_step_with_noise Examples.const_model Examples.exact_sqrt Fp.float32
    Examples.ones_rng StepExamples.plain_manager StepExamples.plain_data 7
  = Py.ok (Torch.mkTensor [1; 1; 1; 1]%nat
             [5 - (5 * (1 # 10) - 2 ^ 2 * 2 * (1 # 2)) + 0 * 1]%Q,
           Torch.mkTensor [1; 1; 1; 1]%nat
             [5 - (5 * (1 # 10) - 2 ^ 2 * 2 * (1 # 2))]%Q).
Proof. reflexivity. Qed.

(** ** The discrete variance-preserving branch of [forward] *)

Section ColumnFacts.
Import Py Torch TorchOps.

Lemma numel_app (a b : list nat) : numel (a ++ b) = (numel a * numel b)%nat.
Proof.
  unfold numel. induction a as [|m a IH]; cbn [app fold_right]; [lia|].
  rewrite IH. lia.
Qed.

Lemma concat_repeat_concat (d : list Q) (m p : nat) :
  concat (repeat (concat (repeat d m)) p) = concat (repeat d (p * m)).
Proof.
  induction p as [|p IH]; cbn [repeat concat Nat.mul]; [reflexivity|].
  now rewrite IH, repeat_app, concat_app.
Qed.

(** Data of shape [s] broadcast along new leading axes [pre]: the data
    repeated once per index of the leading axes. *)
Lemma expand_dims_tile (s : list nat) (d : list Q) :
  length d = numel s ->
  forall pre,
    expand_dims (repeat 1%nat (length pre) ++ s) (pre ++ s) d
    = ok (concat (repeat d (numel pre))).
Proof.
  intros Hd. induction pre as [|p pre IH].
  - cbn [length repeat app]. rewrite (expand_dims_same s d Hd).
    cbn. now rewrite app_nil_r.
  - cbn [length repeat app expand_dims].
    change (numel (p :: pre)) with (p * numel pre)%nat.
    destruct (Nat.eqb_spec 1 p) as [<-|Hp].
    + rewrite numel_app, numel_ones, Nat.mul_1_l.
      cbn [chunks mapM]. rewrite firstn_all2 by lia.
      rewrite IH. cbn [bind ok mapM concat].
      now rewrite app_nil_r, Nat.mul_1_l.
    + cbn [Nat.eqb]. rewrite IH, bind_ok.
      now rewrite concat_repeat_concat.
Qed.

Lemma expand_to_columns (v : list Q) (pre : list nat) :
  expand_to (mkTensor [length v] v) (pre ++ [length v])
  = ok (concat (repeat v (numel pre))).
Proof.
  unfold expand_to. cbn [shape data length].
  rewrite length_app. cbn [length].
  destruct (Nat.ltb_spec (length pre + 1) 1) as [Hlt|_]; [lia|].
  replace (length pre + 1 - 1)%nat with (length pre) by lia.
  apply expand_dims_tile. unfold numel. cbn [fold_right]. lia.
Qed.

Lemma broadcast_rev_nil_r (a : list nat) : broadcast_rev a [] = ok a.
Proof. destruct a; reflexivity. Qed.

Lemma broadcast_shapes_columns (pre : list nat) (W : nat) :
  broadcast_shapes (pre ++ [W]) [W] = ok (pre ++ [W]).
Proof.
  unfold broadcast_shapes. rewrite rev_app_distr.
  cbn [rev app broadcast_rev].
  rewrite broadcast_rev_nil_r, bind_ok, Nat.eqb_refl, bind_ok.
  cbn [rev]. now rewrite rev_involutive.
Qed.

Lemma broadcast_shapes_columns_error (pre : list nat) (W T : nat) :
  W <> T -> W <> 1%nat -> T <> 1%nat ->
  broadcast_shapes (pre ++ [W]) [T] = raise RuntimeError.
Proof.
  intros HWT HW HT. unfold broadcast_shapes. rewrite rev_app_distr.
  cbn [rev app broadcast_rev].
  rewrite broadcast_rev_nil_r, bind_ok.
  destruct (Nat.eqb_spec W T) as [?|_]; [contradiction|].
  destruct (Nat.eqb_spec W 1) as [?|_]; [contradiction|].
  destruct (Nat.eqb_spec T 1) as [?|_]; [contradiction|].
  reflexivity.
Qed.

(** An operation between a tensor and a one-dimensional tensor as long as
    its last axis. *)
Lemma binop_columns (f : Q -> Q -> Q) (a : Tensor) (v : list Q)
      (pre : list nat) :
  shape a = pre ++ [length v] -> well_shaped a ->
  binop f a (mkTensor [length v] v)
  = ok (mkTensor (pre ++ [length v])
                 (zip_with f (data a) (concat (repeat v (numel pre))))).
Proof.
  intros Hs Ha. unfold binop. cbn [shape].
  rewrite Hs, broadcast_shapes_columns, bind_ok.
  rewrite <- Hs, (expand_to_same a Ha), bind_ok, Hs.
  now rewrite expand_to_columns, bind_ok.
Qed.

Lemma binop_columns_error (f : Q -> Q -> Q) (a : Tensor) (v : list Q)
      (pre : list nat) (W : nat) :
  shape a = pre ++ [W] ->
  W <> length v -> W <> 1%nat -> length v <> 1%nat ->
  binop f a (mkTensor [length v] v) = raise RuntimeError.
Proof.
  intros Hs HWT HW HT. unfold binop. cbn [shape].
  now rewrite Hs, (broadcast_shapes_columns_error pre _ _ HWT HW HT).
Qed.

Lemma tile_length (v : list Q) (R : nat) :
  length (concat (repeat v R)) = (R * length v)%nat.
Proof.
  induction R as [|R IH]; cbn [repeat concat Nat.mul length];
    [reflexivity|].
  now rewrite length_app, IH.
Qed.

(** Entry [w] of copy [r] of the tiled data is entry [w] of [v]. *)
Lemma tile_nth (v : list Q) (d : Q) (R : nat) :
  forall r w, (r < R)%nat -> (w < length v)%nat ->
              nth (r * length v + w) (concat (repeat v R)) d = nth w v d.
Proof.
  induction R as [|R IH]; intros r w Hr Hw; [lia|].
  cbn [repeat concat]. destruct r as [|r].
  - cbn [Nat.mul Nat.add]. now rewrite app_nth1.
  - rewrite app_nth2 by lia.
    replace (S r * length v + w - length v)%nat
      with (r * length v + w)%nat by lia.
    apply IH; lia.
Qed.

End ColumnFacts.

(** X22.  In the discrete variance-preserving branch [forward] divides the
    score by the whole vector [sqrt_one_minus_alphas_cumprod], one entry
    per step of the schedule: when the last axis of the score is neither
    the length of the schedule nor 1 (and the schedule has not one single
    step), the division cannot be broadcast and [forward] raises
    [RuntimeError]. *)
Theorem discrete_vp_forward_needs_matching_last_axis :
  forall (model : Data.DiffusionData -> Torch.Tensor) (sqrt : Q -> Q)
         (self : Sde.SDEManager) (bs : Space.BetaSpace)
         (x_train : Data.DiffusionData) (pre : list nat) (W : nat),
    Sde.is_SubVPSDE (Sde.sde self) = false ->
    Sde.is_continous self = false ->
    Sde.is_VPSDE (Sde.sde self) = true ->
    Sde.beta_space self = Some bs ->
    Torch.shape
      (model (Data.mkData
                (Data.x x_train)
                (map (fun v => v * inject_Z (Sde.N (Sde.sde self) - 1))%Q
                     (Data.t x_train))
                (Data.condition x_train)))
    = pre ++ [W] ->
    W <> length (Space.betas bs) -> W <> 1%nat ->
    length (Space.betas bs) <> 1%nat ->
    Sde.forward model sqrt self x_train = Py.raise Py.RuntimeError.
Proof.
  intros model sqrt self bs x_train pre W HSub Hc HVP Hbs Hs HW HW1 HT1.
  unfold Sde.forward. rewrite HSub, Hc, HVP, Hbs. cbn [orb andb].
  apply (binop_columns_error Qdiv _ _ pre W Hs);
    rewrite ?length_map, ?alphas_cumprod_length; assumption.
Qed.

Lemma discrete_vp_forward_needs_matching_last_axis_witness :
  Sde.forward Examples.const_model Examples.exact_sqrt Examples.vp_manager
              StepExamples.wide_data
  = Py.raise Py.RuntimeError.
Proof.
  apply (discrete_vp_forward_needs_matching_last_axis
           Examples.const_model Examples.exact_sqrt Examples.vp_manager
           (Space.mkBetaSpace [1 # 10; 2 # 10]%Q) StepExamples.wide_data
           [1; 1; 1]%nat 3%nat);
    try reflexivity; simpl; lia.
Defined.

(** X23.  When the last axis of the score is as long as the schedule, the
    division of the discrete variance-preserving branch goes through, and
    it pairs the entries by position on that axis: the entry at position
    [w] of the last axis is divided by [sqrt(1 - alphas_cumprod[w])],
    whatever the time [t] of the batch element is. *)
Theorem discrete_vp_forward_divides_by_column :
  forall (model : Data.DiffusionData -> Torch.Tensor) (sqrt : Q -> Q)
         (self : Sde.SDEManager) (bs : Space.BetaSpace)
         (x_train : Data.DiffusionData) (pre : list nat),
    let score :=
      model (Data.mkData
               (Data.x x_train)
               (map (fun v => v * inject_Z (Sde.N (Sde.sde self) - 1))%Q
                    (Data.t x_train))
               (Data.condition x_train)) in
    let W := length (Space.betas bs) in
    Sde.is_SubVPSDE (Sde.sde self) = false ->
    Sde.is_continous self = false ->
    Sde.is_VPSDE (Sde.sde self) = true ->
    Sde.beta_space self = Some bs ->
    Torch.shape score = pre ++ [W] ->
    TorchOps.well_shaped score ->
    exists y,
      Sde.forward model sqrt self x_train = Py.ok y
      /\ Torch.shape y = pre ++ [W]
      /\ forall r w,
          (r < Torch.numel pre)%nat -> (w < W)%nat ->
          nth (r * W + w) (Torch.data y) 0%Q
          = (nth (r * W + w) (Torch.data score) 0
             / sqrt (1 - nth w (Space.alphas_cumprod bs) 0))%Q.
Proof.
  intros model sqrt self bs x_train pre score W HSub Hc HVP Hbs Hs Hw.
  unfold Sde.forward. rewrite HSub, Hc, HVP, Hbs. cbn [orb andb].
  fold score.
  set (std := map (fun v => sqrt (1 - v)%Q) (Space.alphas_cumprod bs)).
  assert (Lstd : length std = W).
  { unfold std. now rewrite length_map, alphas_cumprod_length. }
  assert (Ls : length (Torch.data score) = (Torch.numel pre * W)%nat).
  { unfold TorchOps.well_shaped in Hw. rewrite Hw, Hs, numel_app.
    unfold Torch.numel at 2. cbn [fold_right]. lia. }
  rewrite (binop_columns Qdiv score std pre);
    [|now rewrite Lstd|exact Hw].
  eexists. split; [reflexivity|].
  cbn [Torch.shape Torch.data]. split; [now rewrite Lstd|].
  intros r w Hr Hw'.
  assert (Hk : (r * W + w < Torch.numel pre * W)%nat) by nia.
  rewrite zip_with_nth by (rewrite ?tile_length, ?Lstd, ?Ls; lia).
  rewrite <- Lstd at 2. rewrite tile_nth by (rewrite ?Lstd; assumption).
  unfold std.
  rewrite (map_nth_lt (fun v => sqrt (1 - v)%Q) _ w 0%Q)
    by (rewrite alphas_cumprod_length; exact Hw').
  reflexivity.
Qed.

Lemma discrete_vp_forward_divides_by_column_witness :
  exists y,
    Sde.forward Examples.const_model Examples.exact_sqrt Examples.vp_manager
      (Data.mkData (Torch.mkTensor [1; 1; 1; 2]%nat [1; 2]%Q)
                   [0%Q] None)
    = Py.ok y
    /\ Torch.shape y = [1; 1; 1; 2]%nat
    /\ nth 1 (Torch.data y) 0%Q
       = (2 / Examples.exact_sqrt
                (1 - nth 1 (Space.alphas_cumprod
                              (Space.mkBetaSpace [1 # 10; 2 # 10]%Q)) 0))%Q.
Proof.
  destruct (discrete_vp_forward_divides_by_column
              Examples.const_model Examples.exact_sqrt Examples.vp_manager
              (Space.mkBetaSpace [1 # 10; 2 # 10]%Q)
              (Data.mkData (Torch.mkTensor [1; 1; 1; 2]%nat [1; 2]%Q)
                           [0%Q] None)
              [1; 1; 1]%nat
              eq_refl eq_refl eq_refl eq_refl eq_refl eq_refl)
    as (y & E & Hsh & Hk).
  exists y. split; [exact E|]. split; [exact Hsh|].
  exact (Hk 0%nat 1%nat ltac:(simpl; lia) ltac:(simpl; lia)).
Defined.

(** ** The shape of the variance-preserving step *)

Section ShapeFacts.
Import Py Torch TorchOps.

Lemma mapM_exists {A B} (P : B -> Prop) (f : A -> Result B) (xs : list A) :
  (forall a, In a xs -> exists b, f a = ok b /\ P b) ->
  exists bs, mapM f xs = ok bs /\ Forall P bs /\ length bs = length xs.
Proof.
  induction xs as [|a xs IH]; intros Hf; cbn [mapM].
  - exists []. repeat split. constructor.
  - destruct (Hf a (or_introl eq_refl)) as (b & Eb & Pb).
    destruct IH as (bs & Ebs & Pbs & Lbs).
    { intros a' Ha'. apply Hf. now right. }
    exists (b :: bs). rewrite Eb, bind_ok, Ebs, bind_ok.
    repeat split; [now constructor | cbn [length]; now rewrite Lbs].
Qed.

Lemma concat_uniform_length (n : nat) (ls : list (list Q)) :
  Forall (fun l => length l = n) ls ->
  length (concat ls) = (length ls * n)%nat.
Proof.
  induction 1 as [|l ls Hl _ IH]; cbn [concat length]; [reflexivity|].
  rewrite length_app, IH, Hl. lia.
Qed.

(** Broadcasting goes through when every axis agrees or has size one. *)
Lemma expand_dims_ok (so ss : list nat) :
  Forall2 (fun o s => o = s \/ o = 1%nat) so ss ->
  forall d, length d = numel so ->
            exists d', expand_dims so ss d = ok d'
                       /\ length d' = numel ss.
Proof.
  induction 1 as [|o s so ss Hos _ IH]; intros d Hd.
  - exists d. split; [reflexivity | exact Hd].
  - cbn [expand_dims].
    change (numel (o :: so)) with (o * numel so)%nat in Hd.
    change (numel (s :: ss)) with (s * numel ss)%nat.
    destruct (Nat.eqb_spec o s) as [-> | Hne].
    + destruct (mapM_exists (fun c => length c = numel ss)
                  (expand_dims so ss) (chunks s (numel so) d))
        as (parts & Ep & Pp & Lp).
      { intros c Hc. apply IH. exact (chunks_In_length _ _ _ _ Hd Hc). }
      exists (concat parts). rewrite Ep, bind_ok. split; [reflexivity|].
      rewrite (concat_uniform_length _ _ Pp), Lp, chunks_length.
      reflexivity.
    + destruct Hos as [?| ->]; [contradiction|].
      cbn [Nat.eqb].
      destruct (IH d) as (part & Ep & Lpart); [lia|].
      exists (concat (repeat part s)). rewrite Ep, bind_ok.
      split; [reflexivity|].
      rewrite (concat_uniform_length (numel ss)).
      * now rewrite repeat_length.
      * apply Forall_forall. intros c Hc.
        apply repeat_spec in Hc. now subst c.
Qed.

Lemma Forall2_ones_l (r : list nat) :
  Forall2 (fun o s => o = s \/ o = 1%nat) (repeat 1%nat (length r)) r.
Proof.
  induction r as [|m r IH]; cbn [length repeat]; constructor; auto.
Qed.

Lemma Forall2_same (r : list nat) :
  Forall2 (fun o s : nat => o = s \/ o = 1%nat) r r.
Proof. induction r; constructor; auto. Qed.

Lemma Forall2_rev_both {A} (R : A -> A -> Prop) (a b : list A) :
  Forall2 R a b -> Forall2 R (rev a) (rev b).
Proof.
  induction 1 as [|x y a b Hxy _ IH]; cbn [rev]; [constructor|].
  apply Forall2_app; [exact IH | now constructor].
Qed.

Lemma rev_repeat_ones (k : nat) : rev (repeat 1%nat k) = repeat 1%nat k.
Proof.
  induction k as [|k IH]; [reflexivity|].
  cbn [repeat rev]. rewrite IH.
  change [1%nat] with (repeat 1%nat 1). rewrite <- repeat_app.
  now replace (k + 1)%nat with (S k) by lia.
Qed.

(** The common shape is at least as long as each operand and each
    operand, padded with ones, fits it axis by axis. *)
Lemma broadcast_rev_fits (a : list nat) :
  forall b r,
    broadcast_rev a b = ok r ->
    (length a <= length r)%nat /\ (length b <= length r)%nat
    /\ Forall2 (fun o s => o = s \/ o = 1%nat)
               (a ++ repeat 1%nat (length r - length a)) r
    /\ Forall2 (fun o s => o = s \/ o = 1%nat)
               (b ++ repeat 1%nat (length r - length b)) r.
Proof.
  induction a as [|m a IH]; intros b r.
  - cbn [broadcast_rev]. intros [= <-]. cbn [length app].
    rewrite Nat.sub_0_r, Nat.sub_diag, app_nil_r.
    repeat split; [lia | lia | apply Forall2_ones_l | apply Forall2_same].
  - destruct b as [|n b].
    + cbn [broadcast_rev]. intros [= <-]. cbn [app].
      rewrite Nat.sub_diag, Nat.sub_0_r, app_nil_r.
      repeat split; [lia | cbn [length]; lia | apply Forall2_same
                     | apply Forall2_ones_l].
    + cbn [broadcast_rev].
      destruct (broadcast_rev a b) as [r'|e] eqn:Er; cbn [bind];
        [|discriminate].
      destruct (IH b r' Er) as (La & Lb & Fa & Fb).
      assert (Hcons : forall x, (x = m \/ x = n) ->
                (m = x \/ m = 1%nat) -> (n = x \/ n = 1%nat) ->
                ok (x :: r') = ok r ->
                (length (m :: a) <= length r)%nat
                /\ (length (n :: b) <= length r)%nat
                /\ Forall2 (fun o s => o = s \/ o = 1%nat)
                     ((m :: a) ++ repeat 1%nat (length r - length (m :: a)))
                     r
                /\ Forall2 (fun o s => o = s \/ o = 1%nat)
                     ((n :: b) ++ repeat 1%nat (length r - length (n :: b)))
                     r).
      { intros x _ Hm Hn [= <-]. cbn [length app Nat.sub].
        repeat split; try lia; constructor; assumption. }
      destruct (Nat.eqb_spec m n) as [-> | Hmn].
      { apply Hcons; auto. }
      destruct (Nat.eqb_spec m 1) as [-> | Hm1].
      { apply Hcons; auto. }
      destruct (Nat.eqb_spec n 1) as [-> | Hn1].
      { apply Hcons; auto. }
      discriminate.
Qed.

Lemma expand_to_fits (a : Tensor) (r : list nat) :
  (length (shape a) <= length r)%nat ->
  Forall2 (fun o s => o = s \/ o = 1%nat)
          (rev (shape a) ++ repeat 1%nat (length r - length (shape a))) r ->
  well_shaped a ->
  exists d, expand_to a (rev r) = ok d /\ length d = numel (rev r).
Proof.
  intros Hl HF Ha. unfold expand_to. rewrite length_rev.
  destruct (Nat.ltb_spec (length r) (length (shape a))) as [?|_]; [lia|].
  apply expand_dims_ok.
  - apply Forall2_rev_both in HF.
    now rewrite rev_app_distr, rev_repeat_ones, rev_involutive in HF.
  - now rewrite numel_app, numel_ones, Nat.mul_1_l.
Qed.

(** An element-wise operation succeeds on well-shaped operands whose
    shapes broadcast, and its result has the common shape. *)
Lemma binop_ok_shape (f : Q -> Q -> Q) (a b : Tensor) (s : list nat) :
  broadcast_shapes (shape a) (shape b) = ok s ->
  well_shaped a -> well_shaped b ->
  exists y, binop f a b = ok y /\ shape y = s /\ well_shaped y.
Proof.
  intros Hs Ha Hb. unfold binop. rewrite Hs, bind_ok.
  unfold broadcast_shapes in Hs.
  destruct (broadcast_rev (rev (shape a)) (rev (shape b))) as [r|e] eqn:Er;
    cbn [bind] in Hs; [|discriminate].
  injection Hs as <-.
  destruct (broadcast_rev_fits _ _ _ Er) as (La & Lb & Fa & Fb).
  rewrite length_rev in La, Lb, Fa, Fb.
  destruct (expand_to_fits a r La Fa Ha) as (da & Ea & Lda).
  destruct (expand_to_fits b r Lb Fb Hb) as (db & Eb & Ldb).
  rewrite Ea, bind_ok, Eb, bind_ok.
  eexists. split; [reflexivity|]. split; [reflexivity|].
  unfold well_shaped. cbn [data shape].
  now rewrite length_map, length_combine, Lda, Ldb, Nat.min_id.
Qed.

Ltac axis m n :=
  destruct (Nat.eqb_spec m n) as [?|_];
  [subst | change (Nat.eqb 1 1) with true];
  cbv iota; rewrite ?bind_ok.

(** A per-element factor carried to seven axes, against a batch. *)
Lemma broadcast_shapes_seven_l (Bt B C H W : nat) :
  broadcast_shapes [Bt; 1; 1; 1; 1; 1; 1]%nat [B; C; H; W]
  = ok [Bt; 1; 1; B; C; H; W]%nat.
Proof.
  unfold broadcast_shapes. cbn [rev app broadcast_rev].
  rewrite !bind_ok.
  axis 1%nat B; axis 1%nat C; axis 1%nat H; axis 1%nat W; reflexivity.
Qed.

Lemma broadcast_shapes_batch_seven (Bt B C H W : nat) :
  broadcast_shapes [B; C; H; W] [Bt; 1; 1; B; C; H; W]%nat
  = ok [Bt; 1; 1; B; C; H; W]%nat.
Proof.
  unfold broadcast_shapes. cbn [rev app broadcast_rev].
  now rewrite !bind_ok, !Nat.eqb_refl, !bind_ok.
Qed.

Lemma broadcast_shapes_seven_r (Bt B C H W : nat) :
  broadcast_shapes [Bt; 1; 1; B; C; H; W]%nat [Bt; 1; 1; 1; 1; 1; 1]%nat
  = ok [Bt; 1; 1; B; C; H; W]%nat.
Proof.
  unfold broadcast_shapes. cbn [rev app broadcast_rev].
  rewrite !bind_ok, !Nat.eqb_refl, !bind_ok.
  axis B 1%nat; axis C 1%nat; axis H 1%nat; axis W 1%nat; reflexivity.
Qed.

End ShapeFacts.

(** X24.  The variance-preserving step indexes the sampled betas, already
    reshaped to [(len(t), 1, 1, 1)] by [sample_betas], once more with
    [[:, None, None, None]]: the factor has seven axes, and so has the
    result.  On a four-dimensional batch [(B, C, H, W)] with time steps
    inside the schedule and a score of the batch's shape, the step returns
    normally a tensor of shape [(len(t), 1, 1, B, C, H, W)], never one of
    the shape of its input. *)
Theorem vp_sampling_step_returns_seven_axes :
  forall (model : Data.DiffusionData -> Torch.Tensor) (sqrt fl : Q -> Q)
         (rng : Sde.Rng) (self : Sde.SDEManager) (bs : Space.BetaSpace)
         (data : Data.DiffusionData) (i : Z) (B C H W : nat)
         (score : Torch.Tensor),
    let noise := Sde.randn_like rng (Data.x data) in
    Sde.is_VESDE (Sde.sde self) = false ->
    Sde.is_VPSDE (Sde.sde self) = true ->
    Sde.beta_space self = Some bs ->
    Torch.shape (Data.x data) = [B; C; H; W] ->
    TorchOps.well_shaped (Data.x data) ->
    Forall (fun t => 0 <= Sde.timestep_of fl (Sde.sde self) t
                     < Z.of_nat (length (Space.betas bs))) (Data.t data) ->
    Sde.forward model sqrt self data = Py.ok score ->
    Torch.shape score = [B; C; H; W] -> TorchOps.well_shaped score ->
    Torch.shape noise = [B; C; H; W] -> TorchOps.well_shaped noise ->
    exists y,
      Sde.sampling_step model sqrt fl rng self data i = Py.ok y
      /\ Torch.shape y = [length (Data.t data); 1; 1; B; C; H; W]%nat
      /\ Torch.shape y <> Torch.shape (Data.x data).
Proof.
  intros model sqrt fl rng self bs data i B C H W score noise
         HVE HVP Hbs Hx Hxw Ht Hfw Hs Hsw Hn Hnw.
  set (Bt := length (Data.t data)).
  set (S7 := [Bt; 1; 1; B; C; H; W]%nat).
  unfold Sde.sampling_step, Sde.sampling_step_with_noise.
  rewrite HVE, HVP. unfold Sde.sampling_step_VPSDE. rewrite Hbs.
  unfold Space.sample_betas, Space._get_index_from_list.
  rewrite gather_in_range by (apply Forall_map; exact Ht).
  rewrite bind_ok, !length_map, Hx. fold Bt.
  set (vals := map (fun k => nth (Z.to_nat k) (Space.betas bs) 0%Q)
                   (map (Sde.timestep_of fl (Sde.sde self)) (Data.t data))).
  assert (Lv : length vals = Bt) by (unfold vals; now rewrite !length_map).
  assert (Hre : Space.reshape vals
                  (Bt :: repeat 1%nat (length [B; C; H; W] - 1))
                = Py.ok (Torch.mkTensor [Bt; 1; 1; 1]%nat vals)).
  { unfold Space.reshape. cbn [length Nat.sub repeat].
    replace (Torch.numel [Bt; 1; 1; 1]%nat) with Bt
      by (unfold Torch.numel; cbn [fold_right]; lia).
    now rewrite Lv, Nat.eqb_refl. }
  rewrite Hre, bind_ok, Hfw, bind_ok.
  cbn [TorchOps.unsqueeze3_tensor Torch.shape Torch.data TorchOps.tmap].
  rewrite !bind_ok.
  assert (W7 : forall d, length d = Bt ->
                 TorchOps.well_shaped
                   (Torch.mkTensor [Bt; 1; 1; 1; 1; 1; 1]%nat d)).
  { intros d Hd. unfold TorchOps.well_shaped, Torch.numel.
    cbn [Torch.data Torch.shape fold_right]. lia. }
  (* beta[:, None, None, None] * score *)
  destruct (binop_ok_shape Qmult
              (Torch.mkTensor [Bt; 1; 1; 1; 1; 1; 1]%nat vals) score S7)
    as (bscore & E1 & S1 & W1);
    [cbn [Torch.shape]; rewrite Hs; apply broadcast_shapes_seven_l
    |apply W7; exact Lv | exact Hsw |].
  rewrite E1, !bind_ok.
  (* data.x + ... *)
  destruct (binop_ok_shape Qplus (Data.x data) bscore S7)
    as (num & E2 & S2 & W2);
    [rewrite Hx, S1; apply broadcast_shapes_batch_seven
    |exact Hxw | exact W1 |].
  rewrite E2, !bind_ok.
  (* ... / torch.sqrt(1. - beta)[:, None, None, None] *)
  destruct (binop_ok_shape Qdiv num
              (Torch.mkTensor [Bt; 1; 1; 1; 1; 1; 1]%nat
                 (map (fun b => sqrt (1 - b)%Q) vals)) S7)
    as (x_mean & E3 & S3 & W3);
    [rewrite S2; cbn [Torch.shape]; apply broadcast_shapes_seven_r
    |exact W2 | apply W7; now rewrite length_map |].
  rewrite E3, !bind_ok.
  (* torch.sqrt(beta)[:, None, None, None] * noise *)
  fold noise.
  destruct (binop_ok_shape Qmult
              (Torch.mkTensor [Bt; 1; 1; 1; 1; 1; 1]%nat (map sqrt vals))
              noise S7)
    as (sn & E4 & S4 & W4);
    [cbn [Torch.shape]; rewrite Hn; apply broadcast_shapes_seven_l
    |apply W7; now rewrite length_map | exact Hnw |].
  rewrite E4, !bind_ok.
  destruct (binop_ok_shape Qplus x_mean sn S7)
    as (y & E5 & S5 & W5);
    [rewrite S3, S4; apply broadcast_shapes_same | exact W3 | exact W4 |].
  rewrite E5, !bind_ok. cbn [fst].
  exists y. split; [reflexivity|]. split; [exact S5|].
  rewrite S5. unfold S7. discriminate.
Qed.

Lemma vp_sampling_step_returns_seven_axes_witness :
  exists y,
    Sde.sampling_step Examples.const_model Examples.exact_sqrt Fp.float32
      Examples.ones_rng Examples.vp_manager
      (Data.mkData (Torch.mkTensor [1; 1; 1; 2]%nat [1; 2]%Q) [0%Q] None) 1
    = Py.ok y
    /\ Torch.shape y = [1; 1; 1; 1; 1; 1; 2]%nat
    /\ Torch.shape y <> [1; 1; 1; 2]%nat.
Proof.
  eapply (vp_sampling_step_returns_seven_axes
            Examples.const_model Examples.exact_sqrt Fp.float32 Examples.ones_rng
            Examples.vp_manager (Space.mkBetaSpace [1 # 10; 2 # 10]%Q)
            (Data.mkData (Torch.mkTensor [1; 1; 1; 2]%nat [1; 2]%Q)
                         [0%Q] None)
            1 1%nat 1%nat 1%nat 2%nat);
    try reflexivity.
  repeat constructor; vm_compute; discriminate.
Defined.

(** ** The checks of the training configuration *)

Section ConfigFacts.
Import Py Torch.




End ConfigFacts.




(** ** Noise levels outside the table *)

(** X27.  The variance-exploding step reads [discrete_sigmas[timestep]]
    without a bounds check: as soon as one batch element has a time whose
    index [trunc(t * (N - 1) / T)] is at or beyond the end of the table,
    the step raises [IndexError], before the network is called. *)
Theorem ve_step_index_beyond_table_raises :
  forall (model : Data.DiffusionData -> Torch.Tensor) (sqrt fl : Q -> Q)
         (rng : Sde.Rng) (self : Sde.SDEManager)
         (data : Data.DiffusionData) (i : Z),
    Sde.is_VESDE (Sde.sde self) = true ->
    Exists (fun tb =>
              Z.of_nat (length (Sde.discrete_sigmas (Sde.sde self)))
              <= Sde.timestep_of fl (Sde.sde self) tb)
           (Data.t data) ->
    Sde.sampling_step model sqrt fl rng self data i = Py.raise Py.IndexError.
Proof.
  intros model sqrt fl rng self data i HVE Hex.
  unfold Sde.sampling_step, Sde.sampling_step_with_noise. rewrite HVE.
  unfold Sde.sampling_step_VESDE.
  rewrite (mapM_raise (Py.getitem (Sde.discrete_sigmas (Sde.sde self)))
             Py.IndexError); [reflexivity | |].
  - intros k _.
    destruct (getitem_cases (Sde.discrete_sigmas (Sde.sde self)) k)
      as [[a Ha] | Ha]; [right; now exists a | now left].
  - apply Exists_map. revert Hex. apply Exists_impl. intros tb Htb.
    unfold Py.getitem.
    destruct (Z.ltb_spec (Sde.timestep_of fl (Sde.sde self) tb) 0) as [|_];
      [lia|].
    destruct (Z.ltb_spec (Sde.timestep_of fl (Sde.sde self) tb)
                (Z.of_nat (length (Sde.discrete_sigmas (Sde.sde self)))))
      as [|_]; [lia|].
    now rewrite andb_false_r.
Qed.

Lemma ve_step_index_beyond_table_raises_witness :
  Sde.sampling_step Examples.const_model Examples.exact_sqrt Fp.float32
    Examples.ones_rng Examples.ve_manager
    (Data.mkData (Examples.image 1) [2%Q] None) 2
  = Py.raise Py.IndexError.
Proof.
  apply (ve_step_index_beyond_table_raises
           Examples.const_model Examples.exact_sqrt Fp.float32 Examples.ones_rng
           Examples.ve_manager
           (Data.mkData (Examples.image 1) [2%Q] None) 2);
    [reflexivity|].
  constructor. vm_compute. discriminate.
Defined.
